(** * Berea auto-registration bot: the scheduler of [Main.py], embedded and verified

    The development follows [src/Main.py] (class [BereaRegistrationBot]).

    - Instants and durations are integers counting microseconds, the
      resolution of Python's [datetime] and [timedelta].  [total_seconds()]
      and [time.sleep] go through floats in the source; the embedding keeps
      the exact microsecond count.
    - Text is [string]; a character stands for the code point of the same
      number, so the texts covered are those over U+0000..U+00FF.
    - The outside world (system clock, network, browser session, and what
      the other worker threads do to the shared [self.driver]) is an
      explicit [World] threaded through a small state-and-exception monad.
      Every effect the source performs is recorded as an [Event].
    - Times taken from the server's [Date] header are arbitrary: where the
      source computes with them, the [OverflowError] of a [datetime] out of
      range and of a sleep too long is part of the embedding.  The target
      time is built by [start_at_time] from the clock of the same day, and
      the durations computed from it and the local clock alone are slept as
      they are. *)

From Stdlib Require Import ZArith List String Ascii Bool Lia Permutation Sorted.
Import ListNotations.
Local Open Scope string_scope.
Local Open Scope Z_scope.

(** ** Python values and exceptions *)

(** Return values of the pipeline steps: [True], [False], or the implicit
    [None] of a function that falls off its [except] branch. *)
Inductive PyVal : Type := PyTrue | PyFalse | PyNone.

Definition truthy (v : PyVal) : bool :=
  match v with PyTrue => true | _ => false end.

Inductive exn : Type :=
| Exception (msg : string)        (* raise Exception("...") *)
| ValueError (msg : string)       (* raise ValueError("...") *)
| StrptimeError (text : string)   (* ValueError of datetime.strptime *)
| NetworkError (msg : string)     (* whatever requests.head raises *)
| FileNotFoundError (msg : string)
| OverflowError (msg : string)    (* datetime out of range, sleep too long *)
| AttributeError (msg : string)   (* an attribute of None *)
| SystemExit (code : Z).          (* sys.exit(code); not an Exception *)

(** [str(e)] *)
Definition str_exn (e : exn) : string :=
  match e with
  | Exception m | ValueError m | NetworkError m | FileNotFoundError m
  | OverflowError m | AttributeError m => m
  | StrptimeError t => "time data '" ++ t ++ "' does not match format"
  | SystemExit _ => EmptyString
  end.

(** The exception of [self.driver.quit()] when [self.driver] is [None]. *)
Definition quit_on_none : exn :=
  AttributeError "'NoneType' object has no attribute 'quit'".

(** [isinstance(e, Exception)] *)
Definition is_Exception (e : exn) : bool :=
  match e with SystemExit _ => false | _ => true end.

(** ** Time units (microseconds) *)

Definition usec_per_sec : Z := 1000000.
Definition seconds (n : Z) : Z := n * usec_per_sec.
Definition half_second : Z := 500000.
Definition usec_per_day : Z := 86400 * usec_per_sec.

(** The instants a [datetime] can hold, counted from 1970-01-01 00:00:00:
    0001-01-01 00:00:00 to 9999-12-31 23:59:59.999999. *)
Definition datetime_min : Z := - seconds 62135596800.
Definition datetime_max : Z := seconds 253402300800 - 1.

Definition in_datetime_range (t : Z) : bool :=
  (datetime_min <=? t) && (t <=? datetime_max).

(** ** Library behaviour the program relies on *)

(** What the program takes from [datetime], [pytz], [int] and the operating
    system.  [strptime] is [datetime.strptime(_, "%a, %d %b %Y %H:%M:%S GMT")
    .replace(tzinfo=pytz.utc)] as an instant, [None] when it raises;
    [localize] is [pytz.timezone(LOCAL_TIMEZONE).localize(_).astimezone(utc)];
    [utcoffset] is the system zone, so that [datetime.now()] reads
    [clock + utcoffset]; [py_int] is [int(_)] on a string, [None] when it
    raises [ValueError]; [astimezone_local] is
    [_.astimezone(pytz.timezone(LOCAL_TIMEZONE))] on an instant, [None] when
    it raises [OverflowError]; [sleep_max] is the longest duration
    [time.sleep] accepts (2^63 nanoseconds, and 2^32 milliseconds on
    Windows before Python 3.11), a longer one raising [OverflowError].  The
    fixed durations the program sleeps (0.5 s to 600 s) are below it. *)
Class Platform : Type := {
  strptime : string -> option Z;
  localize : Z -> Z;
  utcoffset : Z;
  py_int : string -> option Z;
  astimezone_local : Z -> option Z;
  sleep_max : Z
}.

(** ** Events *)

Inductive Step : Type :=
| CreateDriver | Login | SelectTerm | EnterPinOnly | SubmitPinForm
| EnterCrns | SubmitRegistration | VerifyRegistration.

Inductive Level : Type := LInfo | LWarning | LError.

Inductive StatusMsg : Type :=
| StText (s : string)
| StWaitingFor (target : Z)         (* f"Waiting for {target:%H:%M:%S}" *)
| StWaitingForDots (target : Z)     (* f"Waiting for {target:%H:%M:%S}..." *)
| StCountdown (remaining : Z)       (* f"Waiting... (T-{remaining:.0f}s)" *)
| StFinalSync                       (* f"Final sync (T-{25.0}s)..." *)
| StFinalSleep (d : Z).             (* f"Final sleep: {d:.3f}s" *)

Inductive LogMsg : Type :=
| LgText (s : string)
| LgTarget (target : Z)
| LgReached
| LgOffset (offset : Z)
| LgFinalSleep (d : Z)
| LgNoLead (d : Z)
| LgSyncFailed (e : exn)
| LgThreadError (e : exn)
| LgCalibrationTrial (i : nat) (e : exn)
| LgCalibration (median_delay calibrated_buffer : Z)
| LgCrnsLoaded (n : nat)
| LgCrnsError (e : exn)
| LgInitFailed (e : exn).

Inductive BtnState : Type := Normal | Disabled.

Inductive Event : Type :=
| EvStatus (m : StatusMsg)               (* status label text *)
| EvLog (l : Level) (m : LogMsg)         (* logging.<level>(...) *)
| EvSleep (d : Z)                        (* time.sleep(d) *)
| EvHead                                 (* requests.head(BEREA_TERM_URL) *)
| EvStep (s : Step)                      (* a pipeline method is entered *)
| EvShow (error : bool) (title msg : string)  (* messagebox *)
| EvAudit (server_utc : option Z) (utc_now : Z) (delay : option Z)
| EvReenable                             (* after(0, reenable) *)
| EvButtons (b : BtnState)               (* both start buttons configured *)
| EvThreadStart (target : option Z)      (* threading.Thread(...).start() *)
| EvDriverQuit
| EvExit (code : Z).                     (* sys.exit(code) *)

(** ** The world *)

Inductive HeadResult : Type :=
| HeadRaises (msg : string)
| HeadResponse (date_header : option string).

(** How the browser session answers each pipeline step when that step is
    run: [true] when the Selenium calls inside the step's [try] block all
    return, [false] when one of them raises. *)
Inductive DriverOutcome : Type :=
| DriverReady      (* webdriver.Chrome and the rest of the setup succeed *)
| ChromeFails      (* webdriver.Chrome raises: self.driver stays unset *)
| SetupFails.      (* self.driver is set, a later setup call raises *)

Record Browser : Type := {
  create_driver : DriverOutcome;
  login_ok : bool;
  select_term_ok : bool;
  enter_pin_ok : bool;
  submit_pin_ok : bool;
  enter_crns_ok : bool;
  save_click_ok : bool;
  verify_ok : bool
}.

Record World : Type := {
  clock : Z;                   (* system clock, UTC, microseconds *)
  latency : list Z;            (* time taken by the successive clock reads,
                                  sleeps (overshoot) and network calls *)
  network : list HeadResult;   (* answers of the successive HEAD requests *)
  browser : Browser;
  driver : bool;               (* self.driver is set *)
  other_workers : list (option bool);
                               (* what the other worker threads have done
                                  to self.driver by the time this one looks
                                  at it in its [finally]: nothing, or
                                  overwritten, leaving it set or None *)
  events : list Event          (* everything done so far, oldest first *)
}.

Definition set_clock (c : Z) (l : list Z) (w : World) : World :=
  {| clock := c; latency := l; network := network w; browser := browser w;
     driver := driver w; other_workers := other_workers w;
     events := events w |}.

Definition set_network (n : list HeadResult) (w : World) : World :=
  {| clock := clock w; latency := latency w; network := n;
     browser := browser w; driver := driver w;
     other_workers := other_workers w; events := events w |}.

Definition set_driver (d : bool) (w : World) : World :=
  {| clock := clock w; latency := latency w; network := network w;
     browser := browser w; driver := d; other_workers := other_workers w;
     events := events w |}.

Definition set_other_workers (o : list (option bool)) (w : World) : World :=
  {| clock := clock w; latency := latency w; network := network w;
     browser := browser w; driver := driver w; other_workers := o;
     events := events w |}.

Definition add_event (e : Event) (w : World) : World :=
  {| clock := clock w; latency := latency w; network := network w;
     browser := browser w; driver := driver w;
     other_workers := other_workers w; events := events w ++ [e] |}.

(** ** The monad: state, exceptions, and running out of loop fuel *)

Inductive Outcome (A : Type) : Type :=
| Ok (a : A)
| Raise (e : exn)
| OutOfFuel.
Arguments Ok {A} a.
Arguments Raise {A} e.
Arguments OutOfFuel {A}.

Definition M (A : Type) : Type := World -> Outcome A * World.

Definition ret {A} (a : A) : M A := fun w => (Ok a, w).

Definition bind {A B} (c : M A) (k : A -> M B) : M B :=
  fun w =>
    match c w with
    | (Ok a, w') => k a w'
    | (Raise e, w') => (Raise e, w')
    | (OutOfFuel, w') => (OutOfFuel, w')
    end.

Definition raise {A} (e : exn) : M A := fun w => (Raise e, w).

Definition out_of_fuel {A} : M A := fun w => (OutOfFuel, w).

(** [try: c  except <classes> as e: h e], [catches] deciding the classes *)
Definition try_except_on {A} (catches : exn -> bool) (c : M A)
    (h : exn -> M A) : M A :=
  fun w =>
    match c w with
    | (Ok a, w') => (Ok a, w')
    | (Raise e, w') => if catches e then h e w' else (Raise e, w')
    | (OutOfFuel, w') => (OutOfFuel, w')
    end.

(** [try: c  except Exception as e: h e] *)
Definition try_except {A} (c : M A) (h : exn -> M A) : M A :=
  try_except_on is_Exception c h.

(** [try: c  finally: f] *)
Definition try_finally {A} (c : M A) (f : M unit) : M A :=
  fun w =>
    match c w with
    | (Ok a, w') => bind f (fun _ => ret a) w'
    | (Raise e, w') => bind f (fun _ => raise e) w'
    | (OutOfFuel, w') => (OutOfFuel, w')
    end.

Declare Scope py_scope.
Delimit Scope py_scope with py.
Notation "x <- c ;; k" := (bind c (fun x => k))
  (at level 61, c at next level, right associativity) : py_scope.
Notation "c ;;; k" := (bind c (fun _ => k))
  (at level 61, right associativity) : py_scope.
Local Open Scope py_scope.

(** ** Primitive effects *)

Definition emit (e : Event) : M unit := fun w => (Ok tt, add_event e w).

(** One entry of the latency oracle elapses (nothing once it is used up). *)
Definition tick : M unit :=
  fun w => (Ok tt, set_clock (clock w + hd 0 (latency w)) (tl (latency w)) w).

Definition read_clock : M Z := fun w => (Ok (clock w), w).

(** [datetime.now(timezone.utc)] and [time.time()] *)
Definition utcnow : M Z := tick ;;; read_clock.

(** [time.sleep(d)]: at least [d] elapses. *)
Definition time_sleep (d : Z) : M unit :=
  emit (EvSleep d) ;;;
  (fun w => (Ok tt, set_clock (clock w + d) (latency w) w)) ;;;
  tick.

(** [requests.head(self.BEREA_TERM_URL).headers.get("Date")] *)
Definition requests_head : M (option string) :=
  emit EvHead ;;;
  tick ;;;
  (fun w =>
     match network w with
     | [] => (Raise (NetworkError "unreachable"), w)
     | HeadRaises m :: rest => (Raise (NetworkError m), set_network rest w)
     | HeadResponse h :: rest => (Ok h, set_network rest w)
     end).

(** [t - timedelta(seconds=d)] on a [datetime]: [OverflowError] when the
    result is before year 1 or after year 9999. *)
Definition datetime_sub (t d : Z) : M Z :=
  if in_datetime_range (t - d) then ret (t - d)
  else raise (OverflowError "date value out of range").

(** [self.driver] as this worker finds it: the other workers share the
    attribute and may have overwritten it since this one last looked. *)
Definition read_self_driver : M bool :=
  fun w =>
    match other_workers w with
    | [] => (Ok (driver w), w)
    | None :: rest => (Ok (driver w), set_other_workers rest w)
    | Some d :: rest => (Ok d, set_driver d (set_other_workers rest w))
    end.

Definition logging (l : Level) (m : LogMsg) : M unit := emit (EvLog l m).
Definition _update_status_safe (m : StatusMsg) : M unit := emit (EvStatus m).
Definition _show_message_safe (title msg : string) (error : bool) : M unit :=
  emit (EvShow error title msg).
Definition _reenable_buttons_safe : M unit := emit EvReenable.

(** ** The pipeline steps

    Each step wraps its Selenium calls in [try ... except Exception], logs,
    and returns [True] on success; on failure [login] returns [False] and
    the others fall off the end ([None]).  Of the log lines of a step only
    the concluding one is recorded, without the interpolated details. *)

Definition _create_driver : M unit :=
  emit (EvStep CreateDriver) ;;;
  fun w =>
    match create_driver (browser w) with
    | DriverReady =>
        (logging LInfo (LgText "Driver setup complete.")) (set_driver true w)
    | ChromeFails =>
        (logging LError (LgText "Failed to create webdriver") ;;;
         emit (EvShow true "Driver Error" "Failed to create webdriver") ;;;
         raise (Exception "webdriver")) w
    | SetupFails =>
        (logging LError (LgText "Failed to create webdriver") ;;;
         emit (EvShow true "Driver Error" "Failed to create webdriver") ;;;
         raise (Exception "webdriver")) (set_driver true w)
    end.

Definition browser_step (s : Step) (ok : Browser -> bool)
    (done failed : string) (on_failure : PyVal) : M PyVal :=
  emit (EvStep s) ;;;
  fun w =>
    if ok (browser w)
    then (logging LInfo (LgText done) ;;; ret PyTrue) w
    else (logging LError (LgText failed) ;;; ret on_failure) w.

Definition login : M PyVal :=
  browser_step Login login_ok "Login successful." "Login failed" PyFalse.

Definition select_term : M PyVal :=
  browser_step SelectTerm select_term_ok
    "Selected term" "Term selection failed" PyNone.

Definition enter_pin_only : M PyVal :=
  browser_step EnterPinOnly enter_pin_ok
    "PIN entered, waiting for submission time..." "PIN entry failed" PyNone.

Definition submit_pin_form : M PyVal :=
  browser_step SubmitPinForm submit_pin_ok
    "CRN entry page is loaded and ready." "Failed to submit PIN form" PyNone.

Definition enter_crns : M PyVal :=
  browser_step EnterCrns enter_crns_ok
    "CRNs entered and 'Add to Summary' clicked." "CRN entry failed" PyNone.

(** Returns [True] only through the success-indicator branch; every other
    path, including its own [except], falls off the end. *)
Definition verify_registration : M PyVal :=
  emit (EvStep VerifyRegistration) ;;;
  fun w =>
    if verify_ok (browser w)
    then (logging LInfo (LgText "Found success indicator text on page.") ;;;
          ret PyTrue) w
    else ret PyNone w.

Definition submit_registration : M PyVal :=
  emit (EvStep SubmitRegistration) ;;;
  fun w =>
    if save_click_ok (browser w)
    then (logging LInfo (LgText "Clicked 'Submit' button.") ;;;
          time_sleep (seconds 1) ;;;
          v <- verify_registration ;;
          (if truthy v then ret tt
           else logging LError (LgText "Registration verification failed.")) ;;;
          logging LInfo (LgText "Registration appears successful.") ;;;
          ret PyTrue) w
    else (logging LError (LgText "Submission failed") ;;; ret PyNone) w.

(** [if not date_header]: [None] and the empty string are both falsy. *)
Definition header_present (h : option string) : option string :=
  match h with
  | Some EmptyString => None
  | other => other
  end.

Section Program.
Context {P : Platform}.

(** [datetime.now()]: the naive local reading of the system clock. *)
Definition datetime_now : M Z :=
  c <- utcnow ;; ret (c + utcoffset).

(** [datetime.strptime(date_header, ...)] *)
Definition parse_date (s : string) : M Z :=
  match strptime s with
  | Some t => ret t
  | None => raise (StrptimeError s)
  end.

(** [server_utc.astimezone(local_tz)] *)
Definition to_local_zone (t : Z) : M Z :=
  match astimezone_local t with
  | Some l => ret l
  | None => raise (OverflowError "date value out of range")
  end.

(** [time.sleep(d)] for a duration that is computed or passed in: a
    negative one raises [ValueError], one beyond [sleep_max]
    [OverflowError]. *)
Definition time_sleep_checked (d : Z) : M unit :=
  if d <? 0 then raise (ValueError "sleep length must be non-negative")
  else if sleep_max <? d then
    raise (OverflowError "timestamp too large to convert to C _PyTime_t")
  else time_sleep d.

Definition log_submission_times : M unit :=
  try_except
    (_ <- utcnow ;;
     utc_now <- utcnow ;;
     h <- requests_head ;;
     server_utc <- match header_present h with
                   | Some s =>
                       t <- parse_date s ;;
                       _ <- to_local_zone t ;;
                       ret (Some t)
                   | None => ret None
                   end ;;
     _ <- datetime_now ;;
     emit (EvAudit server_utc utc_now
             (option_map (fun t => t - utc_now) server_utc)))
    (fun e => logging LError (LgText "Failed to log submission times")).

(** *** The coarse wait (lines 428-446) *)

Definition FINAL_POLL_BUFFER_SECONDS : Z := seconds 25.

(** The [if / elif / else] that picks [sleep_duration]. *)
Definition pick_sleep (remaining : Z) : M Z :=
  if seconds 30 <? remaining then
    _update_status_safe (StCountdown remaining) ;;; ret (seconds 30)
  else if seconds 5 <? remaining then
    _update_status_safe (StCountdown remaining) ;;; ret (seconds 5)
  else ret half_second.

(** One pass through the body of the [while]: pick the tier, sleep, read
    the clock again. *)
Definition coarse_body (target_minus_buffer now : Z) : M Z :=
  let remaining := target_minus_buffer - now in
  sleep_duration <- pick_sleep remaining ;;
  time_sleep sleep_duration ;;;
  datetime_now.

(** [while now < target_minus_buffer: ...], entered with the first [now]. *)
Fixpoint coarse_loop (fuel : nat) (target_minus_buffer now : Z) : M unit :=
  if now <? target_minus_buffer then
    match fuel with
    | O => out_of_fuel
    | S fuel' =>
        now' <- coarse_body target_minus_buffer now ;;
        coarse_loop fuel' target_minus_buffer now'
    end
  else ret tt.

Definition coarse_wait (fuel : nat) (target_time : Z) : M unit :=
  let target_minus_buffer := target_time - FINAL_POLL_BUFFER_SECONDS in
  now <- datetime_now ;;
  coarse_loop fuel target_minus_buffer now.

(** *** The final synchronisation (lines 452-489) *)

Definition final_sync (target_time : Z) : M unit :=
  try_except
    (date_header <- requests_head ;;
     match header_present date_header with
     | None => raise (Exception "No Date header found in server response.")
     | Some s =>
         server_time_utc <- parse_date s ;;
         local_utc_now <- utcnow ;;
         let offset_seconds := server_time_utc - local_utc_now in
         logging LInfo (LgOffset offset_seconds) ;;;
         let target_time_utc := localize target_time in
         target_local_time_as_utc <-
           datetime_sub target_time_utc offset_seconds ;;
         now <- utcnow ;;
         let remaining_sleep_seconds := target_local_time_as_utc - now in
         if 0 <? remaining_sleep_seconds then
           logging LInfo (LgFinalSleep remaining_sleep_seconds) ;;;
           _update_status_safe (StFinalSleep remaining_sleep_seconds) ;;;
           time_sleep_checked remaining_sleep_seconds
             (* from the server's header: can exceed [sleep_max] *)
         else
           logging LWarning (LgNoLead remaining_sleep_seconds)
     end)
    (fun e =>
       logging LError (LgSyncFailed e) ;;;
       now <- datetime_now ;;
       let remaining_local_sleep := target_time - now in
       if 0 <? remaining_local_sleep then time_sleep remaining_local_sleep
            (* local target minus local clock, the coarse wait behind it *)
       else ret tt).

(** Lines 491-493: the time-critical submission. *)
Definition fire : M unit :=
  _update_status_safe (StText "Submitting PIN...") ;;;
  _ <- submit_pin_form ;;
  log_submission_times.

(** The [if target_time:] branch (lines 424-493). *)
Definition wait_and_fire (fuel : nat) (target_time : Z) : M unit :=
  _update_status_safe (StWaitingForDots target_time) ;;;
  logging LInfo (LgTarget target_time) ;;;
  coarse_wait fuel target_time ;;;
  _update_status_safe StFinalSync ;;;
  logging LInfo LgReached ;;;
  final_sync target_time ;;;
  fire.

(** *** [run_registration] (lines 404-525) *)

Definition require (v : PyVal) (msg : string) : M unit :=
  if truthy v then ret tt else raise (Exception msg).

Definition registration_steps (fuel : nat) (target_time : option Z) : M unit :=
  _create_driver ;;;
  _update_status_safe (StText "Logging in...") ;;;
  r <- login ;;
  require r "Login failed. Check credentials in config.txt." ;;;
  _update_status_safe (StText "Selecting term...") ;;;
  r <- select_term ;;
  require r "Term selection failed. Check TERM_ID and TERM_TEXT in config.txt." ;;;
  _update_status_safe (StText "Entering PIN...") ;;;
  r <- enter_pin_only ;;
  require r "Entering PIN failed." ;;;
  match target_time with
  | Some t => wait_and_fire fuel t
  | None =>
      _update_status_safe (StText "Submitting PIN...") ;;;
      _ <- submit_pin_form ;;
      ret tt
  end ;;;
  _update_status_safe (StText "Entering CRNs...") ;;;
  r <- enter_crns ;;
  require r "Failed to enter CRNs." ;;;
  _update_status_safe (StText "Submitting registration...") ;;;
  success <- submit_registration ;;
  if truthy success then
    _update_status_safe (StText "Registration completed successfully!") ;;;
    _show_message_safe "Success" "Registration completed successfully!" false
  else
    _update_status_safe
      (StText "Registration failed or had errors. Check logs.") ;;;
    _show_message_safe "Error"
      "Registration failed or had errors. Check logs." true.

(** The [finally] block (lines 519-525).  [self.driver] is read twice, at
    the [if] and again for [quit()] after the hold; [quit()] is called on
    whatever driver is found there then, and on [None] the attribute
    lookup raises. *)
Definition registration_cleanup : M unit :=
  _reenable_buttons_safe ;;;
  found <- read_self_driver ;;
  if found then
    logging LInfo
      (LgText "Registration thread finished. Waiting 30 seconds before closing browser...") ;;;
    time_sleep (seconds 600) ;;;
    still_there <- read_self_driver ;;
    if still_there then
      emit EvDriverQuit ;;;
      fun w' => (Ok tt, set_driver false w')
    else raise quit_on_none
  else ret tt.

Definition run_registration (fuel : nat) (target_time : option Z) : M unit :=
  try_finally
    (try_except
       (registration_steps fuel target_time)
       (fun e =>
          let error_msg := "Error: " ++ str_exn e in
          logging LError (LgThreadError e) ;;;
          _update_status_safe (StText error_msg) ;;;
          _show_message_safe "Error" error_msg true))
    registration_cleanup.

(** *** [calibrate_dynamic_buffer] (lines 277-302) *)

Fixpoint insert_sorted (x : Z) (l : list Z) : list Z :=
  match l with
  | [] => [x]
  | y :: t => if x <=? y then x :: l else y :: insert_sorted x t
  end.

(** [delays.sort()] *)
Fixpoint list_sort (l : list Z) : list Z :=
  match l with
  | [] => []
  | x :: t => insert_sorted x (list_sort t)
  end.

(** [for i in range(num_trials): ...], [remaining_trials] iterations left,
    [i] the current index. *)
Fixpoint calibration_trials (remaining_trials i : nat) (delays : list Z)
    : M (list Z) :=
  match remaining_trials with
  | O => ret delays
  | S n =>
      start <- utcnow ;;
      answered <- try_except (_ <- requests_head ;; ret true)
                    (fun e => logging LError (LgCalibrationTrial (S i) e) ;;;
                              ret false) ;;
      if (answered : bool) then
        stop <- utcnow ;;
        calibration_trials n (S i) (delays ++ [stop - start])
      else calibration_trials n (S i) delays
  end.

Definition default_buffer : Z := 300000.   (* 0.3 *)

Definition calibrate_dynamic_buffer (num_trials : nat)
    (margin min_buffer max_buffer : Z) : M Z :=
  delays <- calibration_trials num_trials 0 [] ;;
  match delays with
  | [] =>
      logging LWarning
        (LgText "Calibration failed; using default buffer of 0.3 sec") ;;;
      ret default_buffer
  | _ =>
      let sorted := list_sort delays in
      let median_delay := nth (List.length sorted / 2)%nat sorted 0 in
      let calibrated_buffer := median_delay + margin in
      let calibrated_buffer :=
        Z.max min_buffer (Z.min calibrated_buffer max_buffer) in
      logging LInfo (LgCalibration median_delay calibrated_buffer) ;;;
      ret calibrated_buffer
  end.

(** *** The start controls (lines 304-402) *)

Definition showerror (title msg : string) : M unit := emit (EvShow true title msg).

Definition in_range (lo hi x : Z) : bool := (lo <=? x) && (x <=? hi).

(** The [try] block of [validate_time]: the three values, or [None] when
    [int] or the range check raises [ValueError]. *)
Definition time_values (hour_var minute_var second_var : string)
    : option (Z * Z * Z) :=
  match py_int hour_var, py_int minute_var, py_int second_var with
  | Some hour, Some minute, Some second =>
      if in_range 0 23 hour && in_range 0 59 minute && in_range 0 59 second
      then Some (hour, minute, second)
      else None
  | _, _, _ => None
  end.

Definition validate_time (hour_var minute_var second_var : string)
    : M (option (Z * Z * Z)) :=
  match time_values hour_var minute_var second_var with
  | Some values => ret (Some values)
  | None =>
      showerror "Error" "Please enter valid time values (H: 0-23, M/S: 0-59)" ;;;
      ret None
  end.

(** [now.replace(hour=h, minute=m, second=s, microsecond=0)] *)
Definition replace_time (now hour minute second : Z) : Z :=
  (now / usec_per_day) * usec_per_day
  + seconds (hour * 3600 + minute * 60 + second).

Definition schedule_registration (target_time : option Z) : M unit :=
  emit (EvButtons Disabled) ;;;
  emit (EvStatus (StText "Starting browser...")) ;;;
  emit (EvThreadStart target_time).

Definition start_at_time (hour_var minute_var second_var : string) : M unit :=
  time_values <- validate_time hour_var minute_var second_var ;;
  match time_values with
  | None => ret tt
  | Some (hour, minute, second) =>
      now <- datetime_now ;;
      let target_time := replace_time now hour minute second in
      now' <- datetime_now ;;
      if target_time <? now' then
        showerror "Error" "Please set a future time"
      else
        emit (EvStatus (StWaitingFor target_time)) ;;;
        schedule_registration (Some target_time)
  end.

Definition start_immediately : M unit :=
  emit (EvStatus (StText "Starting registration immediately...")) ;;;
  schedule_registration None.

End Program.

(** ** [load_crns] (lines 573-594) *)

(** [str.isspace] on U+0000..U+00FF *)
Definition isspace (c : ascii) : bool :=
  let n := N_of_ascii c in
  (((9 <=? n) && (n <=? 13)) || ((28 <=? n) && (n <=? 32))
   || (n =? 133) || (n =? 160))%N.

(** [str.isdigit] per character on U+0000..U+00FF: the ten ASCII digits and
    the superscripts U+00B2, U+00B3, U+00B9. *)
Definition isdigit_char (c : ascii) : bool :=
  let n := N_of_ascii c in
  (((48 <=? n) && (n <=? 57)) || (n =? 178) || (n =? 179) || (n =? 185))%N.

Fixpoint lstrip (s : string) : string :=
  match s with
  | EmptyString => EmptyString
  | String c rest => if isspace c then lstrip rest else s
  end.

Definition reverse (s : string) : string :=
  string_of_list_ascii (rev (list_ascii_of_string s)).

Definition rstrip (s : string) : string := reverse (lstrip (reverse s)).

Definition strip (s : string) : string := rstrip (lstrip s).

Definition isdigit (s : string) : bool :=
  match s with
  | EmptyString => false
  | _ => forallb isdigit_char (list_ascii_of_string s)
  end.

Definition startswith_hash (line : string) : bool :=
  match line with
  | String c _ => (N_of_ascii c =? 35)%N
  | EmptyString => false
  end.

Definition nonempty (s : string) : bool :=
  match s with EmptyString => false | _ => true end.

(** [[line.strip() for line in f if line.strip() and not line.startswith('#')]] *)
Definition crn_entries (lines : list string) : list string :=
  map strip
    (filter (fun line => nonempty (strip line) && negb (startswith_hash line))
       lines).

Definition valid_crn (crn : string) : bool :=
  (String.length crn =? 5)%nat && isdigit crn.

Definition load_crns (lines : list string) : M (list string) :=
  try_except
    (let crns := crn_entries lines in
     match crns with
     | [] => raise (ValueError "crns.txt is empty. Please add your CRNs.")
     | _ =>
         let invalid_crns := filter (fun crn => negb (valid_crn crn)) crns in
         match invalid_crns with
         | [] => logging LInfo (LgCrnsLoaded (List.length crns)) ;;; ret crns
         | _ =>
             raise (ValueError ("Invalid CRNs found: "
                                ++ String.concat ", " invalid_crns
                                ++ ". Each CRN must be 5 digits."))
         end
     end)
    (fun e => logging LError (LgCrnsError e) ;;; raise e).

(** The loading part of [__init__] (lines 70-76); [load_config] is any
    computation producing the configuration. *)
Definition catches_init (e : exn) : bool :=
  match e with
  | FileNotFoundError _ | ValueError _ | StrptimeError _ => true
  | _ => false
  end.

Definition init_load {Config : Type} (load_config : M Config)
    (crns_file : list string) : M (Config * list string) :=
  try_except_on catches_init
    (config <- load_config ;;
     crns <- load_crns crns_file ;;
     ret (config, crns))
    (fun e =>
       logging LError (LgInitFailed e) ;;;
       emit (EvShow true "Error" ("Initialization failed: " ++ str_exn e)) ;;;
       emit (EvExit 1) ;;;
       raise (SystemExit 1)).

(** ** Threads and the start buttons (lines 386-402 and 519-529)

    The interplay of the Tk main loop and the worker threads, one atomic
    action at a time.  A worker is [Pipeline] while it is inside the
    [try]/[except] of [run_registration], [Holding] while it sleeps in
    [finally] with the browser open, [Finished] once it has returned,
    [Crashed] once [self.driver.quit()] has raised on [None].  A disabled Tk
    button does not call its command. *)
Module Threads.

Inductive Phase : Type := Pipeline | Holding | Finished | Crashed.

Record Worker : Type := {
  phase : Phase;
  own_browser : option nat     (* the browser this worker launched *)
}.

Record App : Type := {
  start_time_btn : BtnState;
  start_now_btn : BtnState;
  reenable_pending : bool;     (* an after(0, reenable) callback is queued *)
  self_driver : option nat;    (* self.driver *)
  open_browsers : list nat;
  launched : nat;              (* browsers launched so far *)
  workers : list Worker
}.

Inductive Action : Type :=
| ClickStartAtTime             (* with a valid time that is not past *)
| ClickStartImmediately
| MainLoopIdle                 (* the main loop runs the queued callbacks *)
| LaunchBrowser (i : nat)      (* worker i: _create_driver sets self.driver *)
| EndPipeline (i : nat)        (* worker i: reaches finally *)
| HoldExpires (i : nat).       (* worker i: sleep(600) returns;
                                  self.driver.quit(); self.driver = None *)

Definition initial : App :=
  {| start_time_btn := Normal; start_now_btn := Normal;
     reenable_pending := false; self_driver := None; open_browsers := [];
     launched := 0%nat; workers := [] |}.

Definition set_worker (i : nat) (wk : Worker) (ws : list Worker)
    : list Worker :=
  firstn i ws ++ wk :: skipn (S i) ws.

(** [schedule_registration]: both buttons disabled, thread started. *)
Definition schedule_registration (a : App) : App :=
  {| start_time_btn := Disabled; start_now_btn := Disabled;
     reenable_pending := reenable_pending a; self_driver := self_driver a;
     open_browsers := open_browsers a; launched := launched a;
     workers := workers a ++ [{| phase := Pipeline; own_browser := None |}] |}.

Definition is_normal (b : BtnState) : bool :=
  match b with Normal => true | Disabled => false end.

Definition step (act : Action) (a : App) : App :=
  match act with
  | ClickStartAtTime =>
      if is_normal (start_time_btn a) then schedule_registration a else a
  | ClickStartImmediately =>
      if is_normal (start_now_btn a) then schedule_registration a else a
  | MainLoopIdle =>
      if reenable_pending a then
        {| start_time_btn := Normal; start_now_btn := Normal;
           reenable_pending := false; self_driver := self_driver a;
           open_browsers := open_browsers a; launched := launched a;
           workers := workers a |}
      else a
  | LaunchBrowser i =>
      match nth_error (workers a) i with
      | Some {| phase := Pipeline; own_browser := None |} =>
          let b := launched a in
          {| start_time_btn := start_time_btn a;
             start_now_btn := start_now_btn a;
             reenable_pending := reenable_pending a;
             self_driver := Some b;
             open_browsers := b :: open_browsers a;
             launched := S b;
             workers := set_worker i {| phase := Pipeline;
                                        own_browser := Some b |} (workers a) |}
      | _ => a
      end
  | EndPipeline i =>
      match nth_error (workers a) i with
      | Some {| phase := Pipeline; own_browser := ob |} =>
          {| start_time_btn := start_time_btn a;
             start_now_btn := start_now_btn a;
             reenable_pending := true;
             self_driver := self_driver a;
             open_browsers := open_browsers a;
             launched := launched a;
             workers :=
               set_worker i
                 {| phase := match self_driver a with
                             | Some _ => Holding
                             | None => Finished
                             end;
                    own_browser := ob |} (workers a) |}
      | _ => a
      end
  | HoldExpires i =>
      match nth_error (workers a) i with
      | Some {| phase := Holding; own_browser := ob |} =>
          {| start_time_btn := start_time_btn a;
             start_now_btn := start_now_btn a;
             reenable_pending := reenable_pending a;
             self_driver := None;
             open_browsers :=
               match self_driver a with
               | Some b => filter (fun x => negb (Nat.eqb x b)) (open_browsers a)
               | None => open_browsers a
               end;
             launched := launched a;
             workers :=
               set_worker i
                 {| phase := match self_driver a with
                             | Some _ => Finished
                             | None => Crashed
                             end;
                    own_browser := ob |} (workers a) |}
      | _ => a
      end
  end.

Definition run (acts : list Action) (a : App) : App :=
  fold_left (fun st act => step act st) acts a.

Definition in_pipeline (wk : Worker) : bool :=
  match phase wk with Pipeline => true | _ => false end.

Definition alive (wk : Worker) : bool :=
  match phase wk with Finished | Crashed => false | _ => true end.

Definition count_workers (f : Worker -> bool) (a : App) : nat :=
  List.length (filter f (workers a)).

(** What the buttons guarantee: a queued re-enable finds both buttons
    disabled, and while a worker is in its pipeline both buttons are
    disabled and no re-enable is queued. *)
Definition guarded (a : App) : Prop :=
  (reenable_pending a = true ->
   start_time_btn a = Disabled /\ start_now_btn a = Disabled) /\
  (count_workers in_pipeline a = 0%nat \/
   (count_workers in_pipeline a = 1%nat /\
    start_time_btn a = Disabled /\ start_now_btn a = Disabled /\
    reenable_pending a = false)).

(** A second start ten minutes or less after the first pipeline ended. *)
Definition second_start : list Action :=
  [ClickStartImmediately; LaunchBrowser 0; EndPipeline 0; MainLoopIdle;
   ClickStartImmediately].

Definition second_start_then_wake : list Action :=
  second_start ++ [LaunchBrowser 1; HoldExpires 0].

(** The second pipeline ends before the first worker wakes. *)
Definition second_run_holds_too : list Action :=
  second_start
  ++ [LaunchBrowser 1; EndPipeline 1; HoldExpires 0; HoldExpires 1].

End Threads.

(** ** Observations on event lists *)

Fixpoint sleeps (evs : list Event) : list Z :=
  match evs with
  | [] => []
  | EvSleep d :: rest => d :: sleeps rest
  | _ :: rest => sleeps rest
  end.

Definition is_step (s : Step) (e : Event) : bool :=
  match e, s with
  | EvStep CreateDriver, CreateDriver | EvStep Login, Login
  | EvStep SelectTerm, SelectTerm | EvStep EnterPinOnly, EnterPinOnly
  | EvStep SubmitPinForm, SubmitPinForm | EvStep EnterCrns, EnterCrns
  | EvStep SubmitRegistration, SubmitRegistration
  | EvStep VerifyRegistration, VerifyRegistration => true
  | _, _ => false
  end.

Definition count_step (s : Step) (evs : list Event) : nat :=
  List.length (filter (is_step s) evs).

(** The pipeline methods entered, in order. *)
Fixpoint steps_of (evs : list Event) : list Step :=
  match evs with
  | [] => []
  | EvStep s :: rest => s :: steps_of rest
  | _ :: rest => steps_of rest
  end.

(** The message boxes shown, in order: error or info, and the text. *)
Fixpoint boxes_of (evs : list Event) : list (bool * string) :=
  match evs with
  | [] => []
  | EvShow error _ msg :: rest => (error, msg) :: boxes_of rest
  | _ :: rest => boxes_of rest
  end.

(** The clock after [n] entries of the latency oracle have elapsed. *)
Fixpoint elapsed (n : nat) (c : Z) (lat : list Z) : Z :=
  match n with
  | O => c
  | S n' => elapsed n' (c + hd 0 lat) (tl lat)
  end.

Definition clock_after (n : nat) (w : World) : Z :=
  elapsed n (clock w) (latency w).

Definition new_events (w w' : World) : list Event :=
  skipn (List.length (events w)) (events w').

(** The probe of the final synchronisation yields no usable server time:
    the request raises, or there is no (or an empty) [Date] header, or the
    header does not parse. *)
Definition probe_unusable {P : Platform} (w : World) : bool :=
  match network w with
  | [] => true
  | HeadRaises _ :: _ => true
  | HeadResponse h :: _ =>
      match header_present h with
      | None => true
      | Some s => match strptime s with None => true | Some _ => false end
      end
  end.

(** The duration [pick_sleep] returns. *)
Definition sleep_duration (remaining : Z) : Z :=
  if seconds 30 <? remaining then seconds 30
  else if seconds 5 <? remaining then seconds 5 else half_second.

(** The sleeps of the coarse wait on a clock that advances by exactly the
    slept durations. *)
Fixpoint ideal_sleeps (fuel : nat) (remaining : Z) : list Z :=
  if 0 <? remaining then
    match fuel with
    | O => []
    | S fuel' =>
        sleep_duration remaining
        :: ideal_sleeps fuel' (remaining - sleep_duration remaining)
    end
  else [].

Definition total (l : list Z) : Z := fold_right Z.add 0 l.

(** Every clock read, sleep overshoot and network call takes between 0 and
    [j] microseconds. *)
Definition bounded_latency (j : Z) (lat : list Z) : Prop :=
  Forall (fun l => 0 <= l <= j) lat.

(** ** The specification's wording, for comparison *)

(** Section 4.3: [remaining <= 0] enters the final sync; [remaining > 30s]
    sleeps 30s; [5s < remaining <= 30s] sleeps 5s; [0 < remaining <= 5s]
    sleeps 0.5s. *)
Inductive CoarseDecision : Type :=
| EnterFinalSync
| SleepFor (d : Z).

Definition spec_coarse_decision (remaining : Z) : option CoarseDecision :=
  if remaining <=? 0 then Some EnterFinalSync
  else if seconds 30 <? remaining then Some (SleepFor (seconds 30))
  else if (seconds 5 <? remaining) && (remaining <=? seconds 30)
       then Some (SleepFor (seconds 5))
  else if (0 <? remaining) && (remaining <=? seconds 5)
       then Some (SleepFor half_second)
  else None.

(** A median of a sample: a member with at most half of the sample strictly
    below it and more than half at or below it. *)
Definition count_lt (m : Z) (l : list Z) : nat :=
  List.length (filter (fun x => x <? m) l).

Definition count_le (m : Z) (l : list Z) : nat :=
  List.length (filter (fun x => x <=? m) l).

Definition is_median (m : Z) (l : list Z) : Prop :=
  In m l /\
  (count_lt m l <= List.length l / 2)%nat /\
  (List.length l / 2 < count_le m l)%nat.

(** The round trips that a calibration run of [n] trials measures: one per
    answered request, from the clock read before it to the clock read after
    it. *)
Fixpoint measured_delays (n : nat) (lat : list Z) (net : list HeadResult)
    : list Z :=
  match n with
  | O => []
  | S n' =>
      match net with
      | HeadResponse _ :: net' =>
          (hd 0 (tl lat) + hd 0 (tl (tl lat)))
          :: measured_delays n' (tl (tl (tl lat))) net'
      | _ => measured_delays n' (tl (tl lat)) (tl net)
      end
  end.

(** Exactly five decimal digits [0-9]. *)
Definition is_decimal_digit (c : ascii) : bool :=
  let n := N_of_ascii c in ((48 <=? n) && (n <=? 57))%N.

Definition five_decimal_digits (s : string) : bool :=
  (String.length s =? 5)%nat && forallb is_decimal_digit (list_ascii_of_string s).

(** ** Concrete inputs used by the examples *)

Fixpoint digits_value (s : string) (acc : Z) : option Z :=
  match s with
  | EmptyString => Some acc
  | String c rest =>
      if is_decimal_digit c
      then digits_value rest (acc * 10 + (Z.of_N (N_of_ascii c) - 48))
      else None
  end.

Definition decimal_int (s : string) : option Z :=
  match s with
  | EmptyString => None
  | _ => digits_value s 0
  end.

(** 2026-11-03 12:30:00 UTC, in microseconds since the epoch. *)
Definition nov3_1230_utc : Z := seconds 1793709000.

(** A machine in the America/New_York zone in November (UTC-5). *)
Definition est_platform : Platform :=
  {| strptime := fun s =>
       if (s =? "Tue, 03 Nov 2026 12:30:00 GMT")%string
       then Some nov3_1230_utc else None;
     localize := fun t => t + seconds 18000;
     utcoffset := - seconds 18000;
     py_int := decimal_int;
     astimezone_local := fun t =>
       if in_datetime_range (t - seconds 18000)
       then Some (t - seconds 18000) else None;
     sleep_max := 9223372036854775 |}.

Definition all_ok : Browser :=
  {| create_driver := DriverReady; login_ok := true; select_term_ok := true;
     enter_pin_ok := true; submit_pin_ok := true; enter_crns_ok := true;
     save_click_ok := true; verify_ok := true |}.

Definition world_at (c : Z) (lat : list Z) (net : list HeadResult)
    (b : Browser) : World :=
  {| clock := c; latency := lat; network := net; browser := b;
     driver := false; other_workers := []; events := [] |}.

(** Local 07:30:25 on 2026-11-03, i.e. 12:30:25 UTC. *)
Definition target_0730_25 : Z := nov3_1230_utc - seconds 18000 + seconds 25.

Definition date_1230 : string := "Tue, 03 Nov 2026 12:30:00 GMT".

(** The server answers 12:30:00 while the local clock reads 200 ms less. *)
Definition sync_world : World :=
  world_at (nov3_1230_utc - 230000) [20000; 10000; 5; 300]
    [HeadResponse (Some date_1230)] all_ok.

Definition unreachable_world : World :=
  world_at (nov3_1230_utc - 230000) [20000; 10000; 5; 300]
    [HeadRaises "connection refused"] all_ok.





(** One microsecond before [T - L] for the target 07:30:25, on a machine
    whose first 0.5 s sleep comes back 40 s late. *)
Definition oversleep_world : World :=
  world_at (nov3_1230_utc - 1) [0; seconds 40] [] all_ok.

(** A worker whose driver another worker unsets during the hold. *)
Definition overlapped_world : World :=
  set_other_workers [None; Some false] (world_at 0 [] [] all_ok).

(** 65 s before local 07:30:00 would be reached on a clock 200 ms behind
    the server. *)
Definition scenario_world : World :=
  world_at (nov3_1230_utc - seconds 40 - 200000) []
    [HeadResponse (Some date_1230)] all_ok.

Definition scenario_target : Z :=
  clock scenario_world + @utcoffset est_platform + seconds 65.

Definition jitter_world : World :=
  world_at (nov3_1230_utc - seconds 100) [1500; 120000; 800; 90000; 700]
    [] all_ok.

(** Five times U+00B2 (superscript two). *)
Definition superscript_twos : string :=
  let c := ascii_of_N 178 in
  String c (String c (String c (String c (String c EmptyString)))).

Definition newline : string := String (ascii_of_N 10) EmptyString.

Definition pin_form_fails : Browser :=
  {| create_driver := DriverReady; login_ok := true; select_term_ok := true;
     enter_pin_ok := true; submit_pin_ok := false; enter_crns_ok := true;
     save_click_ok := true; verify_ok := true |}.

(** The clock reads 07:30:00.000000 local time and does not advance between
    the two readings of [start_at_time]. *)
Definition boundary_world : World :=
  world_at nov3_1230_utc [] [] all_ok.

Definition local_0730 : Z := nov3_1230_utc - seconds 18000.

(** ** Further observations on event lists *)

(** The number of HEAD requests made. *)
Fixpoint heads (evs : list Event) : nat :=
  match evs with
  | [] => O
  | EvHead :: rest => S (heads rest)
  | _ :: rest => heads rest
  end.

(** The records written to the submission log. *)
Fixpoint audits (evs : list Event) : list (option Z * Z * option Z) :=
  match evs with
  | [] => []
  | EvAudit server_utc utc_now delay :: rest =>
      (server_utc, utc_now, delay) :: audits rest
  | _ :: rest => audits rest
  end.

(** Time does not run backwards: no entry of the latency oracle is
    negative. *)
Definition nonneg (lat : list Z) : Prop := Forall (fun l => 0 <= l) lat.

(** The offset of the probe can be used: the fire instant is one a
    [datetime] can hold, and the time left until it, if any, is a duration
    [time.sleep] accepts. *)
Definition offset_usable {P : Platform} (fire_at now : Z) : bool :=
  in_datetime_range fire_at
  && negb ((0 <? fire_at - now) && (sleep_max <? fire_at - now)).

(** The instant the final synchronisation aims at, on the system clock:
    the target minus the measured offset when the probe answers with a
    [Date] header that parses and the offset can be used, the local target
    otherwise. *)
Definition aimed_instant {P : Platform} (target_time : Z) (w : World) : Z :=
  match network w with
  | HeadResponse h :: _ =>
      match header_present h with
      | Some s =>
          match strptime s with
          | Some server =>
              let fire_at :=
                localize target_time - (server - clock_after 2 w) in
              if offset_usable fire_at (clock_after 3 w) then fire_at
              else target_time - utcoffset
          | None => target_time - utcoffset
          end
      | None => target_time - utcoffset
      end
  | _ => target_time - utcoffset
  end.

(** Local 07:29:59.123456 on 2026-11-03. *)
Definition local_072959 : Z := nov3_1230_utc - seconds 18000 - 876544.

(** A valid list with a repeated entry, and a file with an indented
    comment. *)
Definition three_crns : list string := ["12345"; "67890"; "12345"].

Definition indented_comment_file : list string :=
  [("12345" ++ newline)%string; ("  # note" ++ newline)%string].

(** ** [load_config] (lines 531-571) *)

(** What [load_config] takes from [str] and [datetime]: [str.upper],
    [str.lower], and [datetime.strptime(_, "%Y-%m-%d")] as a naive instant,
    [None] when it raises [ValueError]. *)
Class TextLib : Type := {
  str_upper : string -> string;
  str_lower : string -> string;
  strptime_date : string -> option Z
}.

(** [line.split('=', 1)], [None] when [=] does not occur in [line]. *)
Fixpoint split_equals (line : string) : option (string * string) :=
  match line with
  | EmptyString => None
  | String c rest =>
      if (N_of_ascii c =? 61)%N then Some (EmptyString, rest)
      else match split_equals rest with
           | Some (key, value) => Some (String c key, value)
           | None => None
           end
  end.

(** The dictionary [config]: the assignments made, newest first. *)
Definition Dict : Type := list (string * string).

(** [config[key] = value] *)
Definition dict_set (key value : string) (config : Dict) : Dict :=
  (key, value) :: config.

(** [config.get(key)] *)
Fixpoint dict_get (key : string) (config : Dict) : option string :=
  match config with
  | [] => None
  | (k, v) :: rest => if (k =? key)%string then Some v else dict_get key rest
  end.

(** [config.get(key, default)] *)
Definition dict_get_default (key default : string) (config : Dict) : string :=
  match dict_get key config with
  | Some v => v
  | None => default
  end.

Definition required_fields : list string :=
  ["USERNAME"; "PASSWORD"; "PIN"; "TERM_ID"; "TERM_TEXT"].

(** [field not in config or not config[field]] *)
Definition missing_field (config : Dict) (field : string) : bool :=
  match dict_get field config with
  | Some v => negb (nonempty v)
  | None => true
  end.

Record Config : Type := {
  username : string;
  password : string;
  pin : string;
  term_id : string;
  term_text : string;
  HEADLESS : bool;
  THROTTLE_SPEED : bool;
  REGISTRATION_DATE : Z
}.

(** A line that carries no assignment: blank, a comment (indented or not),
    or without [=]. *)
Definition carries_nothing (line : string) : Prop :=
  forallb isspace (list_ascii_of_string line) = true \/
  (exists ws rest,
     line = (ws ++ String "#" rest)%string /\
     forallb isspace (list_ascii_of_string ws) = true) \/
  ~ In "="%char (list_ascii_of_string line).

Section Configuration.
Context {P : Platform} {T : TextLib}.

(** One pass through the body of [for line in f]. *)
Definition read_config_line (config : Dict) (line : string) : Dict :=
  let line := strip line in
  if negb (nonempty line) || startswith_hash line then config
  else
    match split_equals line with
    | Some (key, value) => dict_set (str_upper (strip key)) (strip value) config
    | None => config
    end.

Definition read_config (lines : list string) : Dict :=
  fold_left read_config_line lines [].

Definition load_config (lines : list string) : M Config :=
  let config := read_config lines in
  let missing_fields := filter (missing_field config) required_fields in
  match missing_fields with
  | _ :: _ =>
      raise (ValueError ("Missing or empty required fields in config.txt: "
                         ++ String.concat ", " missing_fields))
  | [] =>
      let headless :=
        (str_lower (dict_get_default "HEADLESS" "false" config) =? "true")%string in
      let throttle_speed :=
        (str_lower (dict_get_default "THROTTLE_SPEED" "false" config) =? "true")%string in
      registration_date <-
        match strptime_date (dict_get_default "REGISTRATION_DATE" "" config) with
        | Some date => ret date
        | None =>
            now <- datetime_now ;;
            (if throttle_speed
             then logging LWarning
                    (LgText "Invalid or missing REGISTRATION_DATE in config.txt. Throttling may behave unexpectedly.")
             else ret tt) ;;;
            ret now
        end ;;
      logging LInfo (LgText "Configuration loaded successfully from config.txt") ;;;
      ret {| username := dict_get_default "USERNAME" "" config;
             password := dict_get_default "PASSWORD" "" config;
             pin := dict_get_default "PIN" "" config;
             term_id := dict_get_default "TERM_ID" "" config;
             term_text := dict_get_default "TERM_TEXT" "" config;
             HEADLESS := headless;
             THROTTLE_SPEED := throttle_speed;
             REGISTRATION_DATE := registration_date |}
  end.

End Configuration.

(** ** The templates written on first run (lines 83-128), as the lines a
    later run reads back *)

Definition config_template : list string :=
  map (fun line => line ++ newline)
    ["# --- User Credentials ---";
     "# Please fill in your Berea username, password, and registration PIN";
     "USERNAME=your_username_here";
     "PASSWORD=your_password_here";
     "PIN=your_pin_here";
     "";
     "# --- Term Information ---";
     "# Find this in the website's HTML source (e.g., 202510 for Fall 2025)";
     "TERM_ID=";
     "# Find this in the dropdown (e.g., Fall 2025)";
     "TERM_TEXT=";
     "";
     "# --- Bot Settings ---";
     "# Run in headless (no browser window) mode? (true/false)";
     "HEADLESS=false";
     "# Intentionally slow down the connection for testing? (true/false)";
     "THROTTLE_SPEED=false";
     "# Registration date (YYYY-MM-DD). Only used for throttling logic.";
     "REGISTRATION_DATE=2025-11-05"].

Definition crns_template : list string :=
  map (fun line => line ++ newline)
    ["# Add your 5-digit CRNs below, one per line.";
     "# Example:";
     "# 12345";
     "# 67890"].

Definition template_keys : list string :=
  ["USERNAME"; "PASSWORD"; "PIN"; "TERM_ID"; "TERM_TEXT"; "HEADLESS";
   "THROTTLE_SPEED"; "REGISTRATION_DATE"].

(** A line that [load_crns] passes over: a comment starting in the first
    column, or whitespace only. *)
Definition passed_over (line : string) : Prop :=
  startswith_hash line = true \/
  forallb isspace (list_ascii_of_string line) = true.

(** [str.upper] and [str.lower] on ASCII letters, for the examples. *)
Definition ascii_upper (c : ascii) : ascii :=
  let n := N_of_ascii c in
  if ((97 <=? n) && (n <=? 122))%N then ascii_of_N (n - 32) else c.

Definition ascii_lower (c : ascii) : ascii :=
  let n := N_of_ascii c in
  if ((65 <=? n) && (n <=? 90))%N then ascii_of_N (n + 32) else c.

Definition map_string (f : ascii -> ascii) (s : string) : string :=
  string_of_list_ascii (map f (list_ascii_of_string s)).

Definition ascii_text : TextLib :=
  {| str_upper := map_string ascii_upper;
     str_lower := map_string ascii_lower;
     strptime_date := fun _ => None |}.

(** A configuration file with every required field, and an indented
    comment to put into it. *)
Definition filled_config : list string :=
  map (fun line => line ++ newline)
    ["USERNAME=student"; "PASSWORD=secret"; "PIN=123456"; "TERM_ID=202510";
     "TERM_TEXT=Fall 2025"].

Definition indented_comment : string := "   # my notes" ++ newline.

(** ** The verdict of a run *)

(** The steps whose success a run needs for its success message: setting
    up the driver, [login], [select_term], [enter_pin_only], [enter_crns]
    and the click inside [submit_registration]. *)
Definition steps_succeed (b : Browser) : bool :=
  match create_driver b with DriverReady => true | _ => false end
  && login_ok b && select_term_ok b && enter_pin_ok b && enter_crns_ok b
  && save_click_ok b.

(** The pipeline methods in the order [run_registration] calls them. *)
Definition pipeline_order : list Step :=
  [CreateDriver; Login; SelectTerm; EnterPinOnly; SubmitPinForm; EnterCrns;
   SubmitRegistration; VerifyRegistration].

Definition is_error_box (box : bool * string) : Prop := fst box = true.

(** What a run that ends has shown: the success box alone when the steps
    succeed, error boxes only, and at least one, otherwise. *)
Definition verdict_shown (b : Browser) (boxes : list (bool * string)) : Prop :=
  if steps_succeed b
  then boxes = [(false, "Registration completed successfully!")]
  else boxes <> [] /\ Forall is_error_box boxes.

(** ** [wait_for_server_ready] (lines 223-275)

    Of its log lines the ones without interpolated values are recorded, the
    two [except] branches by their fixed prefix; [logging.debug] is not
    recorded.  [poll_frequency] and [timeout] are in microseconds. *)

Section ServerReady.
Context {P : Platform}.

(** The inner [try] of the loop: [true] when it leaves by [return True]. *)
Definition poll_server (target_server_time_utc : Z) : M bool :=
  try_except
    (date_header <- requests_head ;;
     match header_present date_header with
     | Some s =>
         server_time <- parse_date s ;;
         if target_server_time_utc <=? server_time then
           logging LInfo (LgText "Server time reached target. Proceeding.") ;;;
           ret true
         else ret false
     | None => ret false
     end)
    (fun e => logging LError (LgText "Error retrieving server time") ;;;
              ret false).

(** [while time.time() < end_time: ...] and the line after it. *)
Fixpoint poll_loop (fuel : nat)
    (target_server_time_utc end_time poll_frequency : Z) : M PyVal :=
  now <- utcnow ;;
  if now <? end_time then
    match fuel with
    | O => out_of_fuel
    | S fuel' =>
        reached <- poll_server target_server_time_utc ;;
        if reached then ret PyTrue
        else
          time_sleep_checked poll_frequency ;;;
          poll_loop fuel' target_server_time_utc end_time poll_frequency
    end
  else
    logging LWarning
      (LgText "Timeout reached while waiting for server time.") ;;;
    ret PyNone.

Definition wait_for_server_ready (fuel : nat)
    (target_time_local poll_frequency timeout : Z) : M PyVal :=
  try_except
    (let target_time_utc := localize target_time_local in
     logging LInfo (LgText "Pinging server to get time offset...") ;;;
     date_header <- requests_head ;;
     match header_present date_header with
     | None =>
         logging LWarning
           (LgText "No Date header found in server response. Proceeding without server time sync.") ;;;
         ret PyTrue
     | Some s =>
         server_time_utc <- parse_date s ;;
         local_utc_now <- utcnow ;;
         let offset_seconds := server_time_utc - local_utc_now in
         target_server_time_utc <-
           datetime_sub target_time_utc offset_seconds ;;
         logging LInfo (LgText "Waiting for server time to reach target...") ;;;
         now <- utcnow ;;
         let end_time := now + timeout in
         poll_loop fuel target_server_time_utc end_time poll_frequency
     end)
    (fun e => logging LError (LgText "Error in wait_for_server_ready") ;;;
              ret PyNone).

End ServerReady.

(** The largest number of passes through the polling loop. *)
Definition max_polls (poll_frequency timeout : Z) : nat :=
  Z.to_nat ((timeout + poll_frequency - 1) / poll_frequency).

(** The server answers 12:30:00 twice while the local clock reads 230 ms
    less. *)
Definition polled_world : World :=
  world_at (nov3_1230_utc - 230000) [20000; 10000; 5; 300]
    [HeadResponse (Some date_1230); HeadResponse (Some date_1230)] all_ok.

Local Open Scope list_scope.

(** * Properties *)

Ltac unfold_monad :=
  unfold try_except, try_except_on, try_finally, bind, ret, raise, emit,
    logging, _update_status_safe, _show_message_safe, _reenable_buttons_safe,
    showerror, utcnow, read_clock, tick in *.

Ltac finish_run :=
  eexists; eexists; split; [reflexivity|]; cbn; rewrite <- ?app_assoc;
  split; [reflexivity|]; cbn; auto.

Lemma bind_ok {A B} (c : M A) (k : A -> M B) w a w1 :
  c w = (Ok a, w1) -> bind c k w = k a w1.
Proof. intros H. unfold bind. now rewrite H. Qed.

Lemma new_events_app (w w' : World) (l : list Event) :
  events w' = events w ++ l -> new_events w w' = l.
Proof.
  intros H. unfold new_events. rewrite H.
  rewrite skipn_app, skipn_all, Nat.sub_diag. reflexivity.
Qed.

(** ** Running the monad step by step *)

Lemma bind_ret {A B} (a : A) (k : A -> M B) (w : World) :
  bind (ret a) k w = k a w.
Proof. reflexivity. Qed.

Lemma bind_emit {B} (e : Event) (k : unit -> M B) (w : World) :
  bind (emit e) k w = k tt (add_event e w).
Proof. reflexivity. Qed.

Lemma bind_raise {A B} (e : exn) (k : A -> M B) (w : World) :
  bind (raise e) k w = (Raise e, w).
Proof. reflexivity. Qed.

Lemma create_driver_ready (w : World) :
  create_driver (browser w) = DriverReady ->
  _create_driver w
  = (Ok tt, add_event (EvLog LInfo (LgText "Driver setup complete."))
              (set_driver true (add_event (EvStep CreateDriver) w))).
Proof.
  intros H. unfold _create_driver. unfold_monad. cbn. rewrite H. reflexivity.
Qed.

Lemma browser_step_failed (s : Step) (ok : Browser -> bool)
    (done failed : string) (v : PyVal) (w : World) :
  ok (browser w) = false ->
  browser_step s ok done failed v w
  = (Ok v, add_event (EvLog LError (LgText failed)) (add_event (EvStep s) w)).
Proof.
  intros H. unfold browser_step. unfold_monad. cbn. rewrite H. reflexivity.
Qed.

Lemma browser_step_done (s : Step) (ok : Browser -> bool)
    (done failed : string) (v : PyVal) (w : World) :
  ok (browser w) = true ->
  browser_step s ok done failed v w
  = (Ok PyTrue, add_event (EvLog LInfo (LgText done)) (add_event (EvStep s) w)).
Proof.
  intros H. unfold browser_step. unfold_monad. cbn. rewrite H. reflexivity.
Qed.

Lemma steps_of_app (a b : list Event) :
  steps_of (a ++ b) = steps_of a ++ steps_of b.
Proof.
  induction a as [|e a IH]; cbn; [reflexivity|].
  destruct e; cbn; rewrite ?IH; reflexivity.
Qed.

Lemma boxes_of_app (a b : list Event) :
  boxes_of (a ++ b) = boxes_of a ++ boxes_of b.
Proof.
  induction a as [|e a IH]; cbn; [reflexivity|].
  destruct e; cbn; rewrite ?IH; reflexivity.
Qed.

Ltac status_step := rewrite bind_emit.

Ltac step_done H :=
  erewrite bind_ok by (apply browser_step_done; exact H);
  cbn [require truthy]; rewrite bind_ret.

Ltac step_failed H :=
  erewrite bind_ok by (apply browser_step_failed; exact H);
  cbn [require truthy]; rewrite bind_raise.

(** ** Sorting and the median *)

Lemma insert_sorted_perm (x : Z) (l : list Z) :
  Permutation (x :: l) (insert_sorted x l).
Proof.
  induction l as [|y t IH]; cbn; [apply Permutation_refl|].
  destruct (x <=? y); [apply Permutation_refl|].
  eapply perm_trans; [apply perm_swap|]. apply perm_skip, IH.
Qed.

Lemma list_sort_perm (l : list Z) : Permutation l (list_sort l).
Proof.
  induction l as [|x t IH]; cbn; [constructor|].
  eapply perm_trans; [apply perm_skip, IH | apply insert_sorted_perm].
Qed.

Lemma insert_sorted_ordered (x : Z) (l : list Z) :
  StronglySorted Z.le l -> StronglySorted Z.le (insert_sorted x l).
Proof.
  induction 1 as [|y t Hs IH Hall]; cbn.
  - repeat constructor.
  - destruct (Z.leb_spec x y).
    + constructor; [constructor; assumption|].
      constructor; [assumption|].
      eapply Forall_impl; [|exact Hall]. cbn; intros; lia.
    + constructor; [exact IH|].
      eapply Permutation_Forall; [apply insert_sorted_perm|].
      constructor; [lia | exact Hall].
Qed.

Lemma list_sort_ordered (l : list Z) : StronglySorted Z.le (list_sort l).
Proof.
  induction l; cbn; [constructor | now apply insert_sorted_ordered].
Qed.

Lemma filter_length_perm (f : Z -> bool) (l l' : list Z) :
  Permutation l l' ->
  List.length (filter f l) = List.length (filter f l').
Proof.
  induction 1; cbn; try congruence.
  - destruct (f x); cbn; congruence.
  - destruct (f x), (f y); reflexivity.
Qed.

Lemma ordered_nth_counts (s : list Z) :
  StronglySorted Z.le s ->
  forall k, (k < List.length s)%nat ->
    (count_lt (nth k s 0%Z) s <= k)%nat /\ (k < count_le (nth k s 0%Z) s)%nat.
Proof.
  unfold count_lt, count_le.
  induction 1 as [|a t Hs IH Hall]; intros k Hk; cbn in Hk; [lia|].
  destruct k as [|k]; cbn [nth filter].
  - destruct (Z.ltb_spec a a); [lia|]. destruct (Z.leb_spec a a); [|lia].
    cbn. split; [|lia].
    assert (E : filter (fun x => x <? a) t = []).
    { clear - Hall. induction Hall as [|y t Hy _ IH]; cbn; [reflexivity|].
      destruct (Z.ltb_spec y a); [lia | exact IH]. }
    rewrite E. cbn. lia.
  - destruct (IH k ltac:(lia)) as [Hlt Hle].
    assert (Ha : a <= nth k t 0).
    { rewrite Forall_forall in Hall. apply Hall, nth_In. lia. }
    destruct (Z.leb_spec a (nth k t 0)); [|lia].
    destruct (a <? nth k t 0); cbn; lia.
Qed.

Lemma median_of_sorted (l : list Z) :
  l <> [] ->
  is_median (nth (List.length (list_sort l) / 2) (list_sort l) 0) l.
Proof.
  intros Hne.
  pose proof (list_sort_perm l) as Hp.
  pose proof (Permutation_length Hp) as Hlen.
  assert (Hpos : (0 < List.length l)%nat) by (destruct l; cbn; [congruence | lia]).
  assert (Hk : (List.length (list_sort l) / 2 < List.length (list_sort l))%nat).
  { apply Nat.div_lt; lia. }
  destruct (ordered_nth_counts _ (list_sort_ordered l) _ Hk) as [Hlt Hle].
  unfold is_median, count_lt, count_le in *.
  rewrite (filter_length_perm _ _ _ Hp), (filter_length_perm (fun x => x <=? _) _ _ Hp).
  rewrite Hlen.
  split; [|split; assumption].
  eapply Permutation_in; [apply Permutation_sym, Hp|]. apply nth_In, Hk.
Qed.

(** ** Loading the CRNs *)

Lemma filter_negb_nil {A} (f : A -> bool) (l : list A) :
  filter (fun x => negb (f x)) l = [] <-> forallb f l = true.
Proof.
  induction l as [|x t IH]; cbn; [tauto|].
  destruct (f x); cbn; [exact IH|]. split; discriminate.
Qed.

Lemma valid_crn_spelled (crn : string) :
  valid_crn crn =
  (String.length crn =? 5)%nat && forallb isdigit_char (list_ascii_of_string crn).
Proof.
  unfold valid_crn, isdigit. destruct crn; reflexivity.
Qed.

Lemma load_crns_cases (lines : list string) (w : World) :
  let crns := crn_entries lines in
  exists w',
    if negb (Nat.eqb (List.length crns) 0)
       && forallb (fun crn =>
                     (String.length crn =? 5)%nat
                     && forallb isdigit_char (list_ascii_of_string crn)) crns
    then load_crns lines w = (Ok crns, w')
    else exists msg, load_crns lines w = (Raise (ValueError msg), w').
Proof.
  intros crns. unfold load_crns. fold crns.
  assert (Hsp : forallb (fun crn =>
                     (String.length crn =? 5)%nat
                     && forallb isdigit_char (list_ascii_of_string crn)) crns
                = forallb valid_crn crns).
  { clear. induction crns as [|c cs IH]; cbn; [reflexivity|].
    rewrite IH, valid_crn_spelled. reflexivity. }
  rewrite Hsp. clear Hsp.
  destruct crns as [|c cs] eqn:E.
  - cbn. eexists. eexists. reflexivity.
  - cbn [List.length Nat.eqb negb andb].
    destruct (forallb valid_crn (c :: cs)) eqn:Hv.
    + apply filter_negb_nil in Hv. rewrite Hv. unfold_monad. cbn.
      eexists. reflexivity.
    + destruct (filter (fun crn => negb (valid_crn crn)) (c :: cs)) eqn:Hf.
      * apply filter_negb_nil in Hf. congruence.
      * unfold_monad. cbn. eexists. eexists. reflexivity.
Qed.

(** C10 ([load_crns]), as the code has it.  The entries are the stripped
    lines that are not blank and do not start with [#].  They are returned
    exactly when there is at least one and each has five characters that
    all satisfy [str.isdigit]; otherwise [ValueError] is raised.  So when
    the loading part of [__init__] succeeds, the CRN list is those entries,
    it is not empty, and each entry has five such characters. *)
Theorem load_crns_result (lines : list string) (w : World) :
  let crns := crn_entries lines in
  let accepted :=
    negb (Nat.eqb (List.length crns) 0)
    && forallb (fun crn =>
                  (String.length crn =? 5)%nat
                  && forallb isdigit_char (list_ascii_of_string crn)) crns in
  (exists w',
     if accepted
     then load_crns lines w = (Ok crns, w')
     else exists msg, load_crns lines w = (Raise (ValueError msg), w')) /\
  (forall (Config : Type) (load_config : M Config),
     match init_load load_config lines w with
     | (Ok (_, loaded), _) => loaded = crns /\ accepted = true
     | _ => True
     end).
Proof.
  intros crns accepted. split; [apply load_crns_cases|].
  intros Config load_config. unfold init_load, try_except_on, bind.
  destruct (load_config w) as [[cfg|e|] w1]; cbn.
  - destruct (load_crns_cases lines w1) as (w2 & H).
    fold crns in H. fold accepted in H. destruct accepted.
    + rewrite H. cbn. auto.
    + destruct H as (msg & H). rewrite H. cbn. unfold_monad. cbn. exact I.
  - destruct (catches_init e); [unfold_monad; cbn|]; exact I.
  - exact I.
Qed.

(** ** The start buttons and the worker threads *)

Module ThreadsFacts.
Import Threads.

Lemma count_set_worker (f : Worker -> bool) (i : nat) (old wk : Worker)
    (ws : list Worker) :
  nth_error ws i = Some old ->
  (List.length (filter f (set_worker i wk ws)) + (if f old then 1 else 0)
   = List.length (filter f ws) + (if f wk then 1 else 0))%nat.
Proof.
  revert i. induction ws as [|x t IH]; intros i Hn.
  - destruct i; discriminate.
  - destruct i as [|i]; cbn in Hn.
    + inversion Hn; subst. unfold set_worker. cbn.
      repeat match goal with
             | |- context [if f ?y then _ else _] => destruct (f y)
             end; cbn; lia.
    + specialize (IH i Hn). unfold set_worker in *. cbn.
      destruct (f x), (f old), (f wk); cbn in *; lia.
Qed.

Lemma step_guarded (act : Action) (a : App) : guarded a -> guarded (step act a).
Proof.
  unfold guarded, count_workers. intros [Hp Hc].
  destruct act as [| | |i|i|i]; cbn.
  - destruct (start_time_btn a) eqn:Eb; cbn; [|tauto].
    destruct Hc as [Hc|(_ & Hd & _)]; [|congruence].
    destruct (reenable_pending a) eqn:Ep; [destruct (Hp eq_refl); congruence|].
    split; [discriminate|]. right.
    rewrite filter_app, length_app, Hc. cbn. auto.
  - destruct (start_now_btn a) eqn:Eb; cbn; [|tauto].
    destruct Hc as [Hc|(_ & _ & Hd & _)]; [|congruence].
    destruct (reenable_pending a) eqn:Ep; [destruct (Hp eq_refl); congruence|].
    split; [discriminate|]. right.
    rewrite filter_app, length_app, Hc. cbn. auto.
  - destruct (reenable_pending a) eqn:Ep; cbn; [|rewrite Ep; tauto].
    split; [discriminate|]. left.
    destruct Hc as [Hc|(_ & _ & _ & Hf)]; [exact Hc | congruence].
  - destruct (nth_error (workers a) i) as [[[| | |] [b|]]|] eqn:En; cbn; try tauto.
    pose proof (count_set_worker in_pipeline i _
                  {| phase := Pipeline; own_browser := Some (launched a) |} _ En) as Hs.
    cbn in Hs. split; [exact Hp|]. 
    replace (List.length (filter in_pipeline (set_worker i {| phase := Pipeline; own_browser := Some (launched a) |} (workers a))))
      with (List.length (filter in_pipeline (workers a))) by lia.
    exact Hc.
  - destruct (nth_error (workers a) i) as [[[| | |] ob]|] eqn:En; cbn; try tauto.
    pose proof (count_set_worker in_pipeline i _
                  {| phase := match self_driver a with Some _ => Holding | None => Finished end; own_browser := ob |} _ En) as Hs.
    assert (Hin : (1 <= List.length (filter in_pipeline (workers a)))%nat).
    { apply nth_error_In in En.
      assert (Hf : In {| phase := Pipeline; own_browser := ob |} (filter in_pipeline (workers a)))
        by (apply filter_In; split; [exact En | reflexivity]).
      destruct (filter in_pipeline (workers a)); [destruct Hf | cbn; lia]. }
    destruct Hc as [Hc|(Hc & Hd1 & Hd2 & _)]; [lia|].
    split; [auto|]. left.
    assert (Hnp : in_pipeline {| phase := match self_driver a with Some _ => Holding | None => Finished end; own_browser := ob |} = false)
      by (destruct (self_driver a); reflexivity).
    rewrite Hnp in Hs. cbn in Hs. lia.
  - destruct (nth_error (workers a) i) as [[[| | |] ob]|] eqn:En; cbn; try tauto.
    pose proof (count_set_worker in_pipeline i _
                  {| phase := match self_driver a with
                              | Some _ => Finished
                              | None => Crashed
                              end;
                     own_browser := ob |} _ En) as Hs.
    assert (Hnp : in_pipeline
                    {| phase := match self_driver a with
                                | Some _ => Finished
                                | None => Crashed
                                end;
                       own_browser := ob |} = false)
      by (destruct (self_driver a); reflexivity).
    rewrite Hnp in Hs. cbn in Hs. split; [exact Hp|].
    match goal with
    | |- context [List.length (filter in_pipeline (set_worker ?i ?wk ?ws))] =>
        replace (List.length (filter in_pipeline (set_worker i wk ws)))
          with (List.length (filter in_pipeline (workers a))) by lia
    end.
    exact Hc.
Qed.

Lemma run_guarded (acts : list Action) (a : App) : guarded a -> guarded (run acts a).
Proof.
  revert a. induction acts as [|act acts IH]; intros a H; cbn; [exact H|].
  apply IH, step_guarded, H.
Qed.

Lemma initial_guarded : guarded initial.
Proof. split; [discriminate | left; reflexivity]. Qed.

End ThreadsFacts.

Section Scheduler.
Context {P : Platform}.

(** ** The time-critical submission *)

Lemma log_submission_times_ok (w : World) :
  exists w' tail,
    log_submission_times w = (Ok tt, w') /\
    events w' = events w ++ tail /\
    sleeps tail = [] /\ count_step SubmitPinForm tail = 0%nat.
Proof.
  unfold log_submission_times, requests_head, datetime_now, parse_date,
    to_local_zone.
  unfold_monad. cbn.
  destruct (network w) as [|[m|[[|a s]|]] rest]; cbn; try finish_run.
  destruct (strptime (String a s)) as [t|]; cbn; [|finish_run].
  destruct (astimezone_local t); cbn; finish_run.
Qed.

Lemma fire_ok (w : World) :
  exists w' tail,
    fire w = (Ok tt, w') /\
    events w' =
      events w ++ [EvStatus (StText "Submitting PIN..."); EvStep SubmitPinForm]
      ++ tail /\
    sleeps tail = [] /\ count_step SubmitPinForm tail = 0%nat.
Proof.
  unfold fire, submit_pin_form, browser_step. unfold_monad. cbn.
  destruct (submit_pin_ok (browser w)); cbn;
    match goal with |- context [log_submission_times ?x] =>
      destruct (log_submission_times_ok x) as (w' & tail & Hr & He & Hs & Hc)
    end; rewrite Hr.
  - exists w', (EvLog LInfo (LgText "CRN entry page is loaded and ready.") :: tail).
    rewrite He. cbn. rewrite <- !app_assoc. cbn. auto.
  - exists w', (EvLog LError (LgText "Failed to submit PIN form") :: tail).
    rewrite He. cbn. rewrite <- !app_assoc. cbn. auto.
Qed.

(** ** The final synchronisation *)

Lemma final_sync_usable (target_time server : Z) (s : string)
    (rest : list HeadResult) (w : World) :
  network w = HeadResponse (Some s) :: rest ->
  s <> EmptyString ->
  strptime s = Some server ->
  let offset := server - clock_after 2 w in
  let d := localize target_time - offset - clock_after 3 w in
  in_datetime_range (localize target_time - offset) = true ->
  d <= sleep_max ->
  exists w',
    final_sync target_time w = (Ok tt, w') /\
    events w' =
      events w
      ++ [EvHead; EvLog LInfo (LgOffset offset)]
      ++ (if 0 <? d
          then [EvLog LInfo (LgFinalSleep d); EvStatus (StFinalSleep d);
                EvSleep d]
          else [EvLog LWarning (LgNoLead d)]) /\
    clock w' = (if 0 <? d then clock_after 4 w + d else clock_after 3 w) /\
    latency w' = (if 0 <? d then tl (tl (tl (tl (latency w))))
                  else tl (tl (tl (latency w)))).
Proof.
  intros Hnet Hs Hparse offset d Hrange Hmax.
  destruct s as [|a s0]; [congruence|].
  subst d offset. unfold clock_after in *. cbn [elapsed] in *.
  unfold final_sync, requests_head, parse_date, datetime_sub,
    time_sleep_checked, time_sleep.
  unfold_monad.
  cbn. rewrite Hnet. cbn. rewrite Hparse. cbn. rewrite Hrange. cbn.
  match goal with |- context [0 <? ?e] => destruct (Z.ltb_spec 0 e) end; cbn.
  - match goal with |- context [?e <? 0] =>
      destruct (Z.ltb_spec e 0); [lia|] end.
    match goal with |- context [sleep_max <? ?e] =>
      destruct (Z.ltb_spec sleep_max e); [lia|] end.
    cbn. eexists; (split; [reflexivity|]); cbn; rewrite <- !app_assoc;
      repeat split; lia.
  - eexists; (split; [reflexivity|]); cbn; rewrite <- !app_assoc;
      repeat split; lia.
Qed.

Lemma final_sync_fallback (target_time : Z) (w : World) :
  probe_unusable w = true ->
  let r := target_time - (clock_after 2 w + utcoffset) in
  exists e w',
    final_sync target_time w = (Ok tt, w') /\
    events w' =
      events w
      ++ [EvHead; EvLog LError (LgSyncFailed e)]
      ++ (if 0 <? r then [EvSleep r] else []).
Proof.
  intros Hbad r. subst r. unfold probe_unusable in Hbad.
  unfold clock_after. cbn [elapsed].
  unfold final_sync, requests_head, parse_date, datetime_now, time_sleep.
  unfold_monad. cbn.
  destruct (network w) as [|[m|[[|a s]|]] rest]; cbn in *.
  4: destruct (strptime (String a s)); [discriminate|]; cbn.
  all: match goal with |- context [0 <? ?e] => destruct (0 <? e) end; cbn;
    eexists; eexists; (split; [reflexivity|]); cbn; rewrite <- !app_assoc;
    reflexivity.
Qed.

(** ** The coarse wait *)

Lemma sleeps_app (a b : list Event) : sleeps (a ++ b) = sleeps a ++ sleeps b.
Proof.
  induction a as [|e a IH]; cbn; [reflexivity|].
  destruct e; cbn; rewrite ?IH; reflexivity.
Qed.

Lemma coarse_body_ok (tmb now : Z) (w : World) :
  exists w1 status,
    coarse_body tmb now w = (Ok (clock w1 + utcoffset), w1) /\
    events w1 = events w ++ status ++ [EvSleep (sleep_duration (tmb - now))] /\
    sleeps status = [] /\
    clock w1 = clock_after 2 w + sleep_duration (tmb - now) /\
    latency w1 = tl (tl (latency w)) /\
    network w1 = network w /\ browser w1 = browser w /\ driver w1 = driver w.
Proof.
  unfold coarse_body, pick_sleep, sleep_duration, time_sleep, datetime_now,
    clock_after.
  unfold_monad. unfold seconds, half_second, usec_per_sec. cbn.
  destruct (30000000 <? tmb - now); [|destruct (5000000 <? tmb - now)]; cbn.
  all: match goal with |- exists w1 _, (_, ?W) = _ /\ _ => exists W end.
  1,2: exists [EvStatus (StCountdown (tmb - now))].
  3: exists [].
  all: (split; [reflexivity|]); cbn; rewrite <- ?app_assoc;
    repeat split; try reflexivity; try lia.
Qed.

Lemma coarse_loop_exit (fuel : nat) (tmb now : Z) (w : World) :
  tmb <= now -> coarse_loop fuel tmb now w = (Ok tt, w).
Proof.
  intros H. destruct fuel; cbn; destruct (Z.ltb_spec now tmb);
    try lia; reflexivity.
Qed.

Lemma coarse_loop_step (fuel : nat) (tmb now : Z) (w w1 : World) (now' : Z) :
  now < tmb -> coarse_body tmb now w = (Ok now', w1) ->
  coarse_loop (S fuel) tmb now w = coarse_loop fuel tmb now' w1.
Proof.
  intros H Hb. cbn [coarse_loop]. destruct (Z.ltb_spec now tmb); try lia.
  apply bind_ok. exact Hb.
Qed.

Lemma sleep_duration_spec (remaining : Z) :
  0 < remaining ->
  spec_coarse_decision remaining = Some (SleepFor (sleep_duration remaining)).
Proof.
  unfold spec_coarse_decision, sleep_duration, seconds, half_second,
    usec_per_sec.
  intros H.
  repeat match goal with
    | |- context [?a <=? ?b] => destruct (Z.leb_spec a b); try lia; cbn
    | |- context [?a <? ?b] => destruct (Z.ltb_spec a b); try lia; cbn
    end; reflexivity.
Qed.

Lemma sleep_duration_ge (remaining : Z) :
  half_second <= sleep_duration remaining.
Proof.
  unfold sleep_duration, seconds, half_second, usec_per_sec.
  destruct (_ <? _); [lia|]. destruct (_ <? _); lia.
Qed.

Lemma sleep_duration_overshoot (remaining : Z) :
  0 < remaining -> sleep_duration remaining < remaining + half_second.
Proof.
  unfold sleep_duration, seconds, half_second, usec_per_sec. intros H.
  destruct (Z.ltb_spec (30 * 1000000) remaining); [lia|].
  destruct (Z.ltb_spec (5 * 1000000) remaining); lia.
Qed.

Lemma hd_bounded (j : Z) (lat : list Z) :
  0 <= j -> bounded_latency j lat -> 0 <= hd 0 lat <= j.
Proof. intros Hj H. destruct H; cbn; lia. Qed.

Lemma tl_bounded (j : Z) (lat : list Z) :
  bounded_latency j lat -> bounded_latency j (tl lat).
Proof. intros H. destruct H; cbn; [constructor | assumption]. Qed.

(** The loop ends, at a clock reading in
    [[tmb, tmb + 0.5s + 2 j)]. *)
Lemma coarse_loop_exits (j tmb : Z) (k : nat) :
  0 <= j ->
  forall (fuel : nat) (now : Z) (w : World),
    bounded_latency j (latency w) ->
    now = clock w + utcoffset ->
    now < tmb ->
    tmb - now <= Z.of_nat k * half_second ->
    (k <= fuel)%nat ->
    exists w',
      coarse_loop fuel tmb now w = (Ok tt, w') /\
      tmb <= clock w' + utcoffset < tmb + half_second + 2 * j.
Proof.
  intros Hj. induction k as [|k IH]; intros fuel now w Hlat Hnow Hlt Hk Hfuel.
  - unfold half_second in Hk. lia.
  - destruct fuel as [|fuel]; [lia|].
    destruct (coarse_body_ok tmb now w)
      as (w1 & status & Hb & _ & _ & Hc & Hl & _).
    rewrite (coarse_loop_step _ _ _ _ _ _ Hlt Hb).
    pose proof (hd_bounded _ _ Hj Hlat) as H0.
    pose proof (hd_bounded _ _ Hj (tl_bounded _ _ Hlat)) as H1.
    pose proof (sleep_duration_ge (tmb - now)) as Hge.
    pose proof (sleep_duration_overshoot (tmb - now) ltac:(lia)) as Hov.
    unfold clock_after in Hc. cbn [elapsed] in Hc.
    destruct (Z.lt_ge_cases (clock w1 + utcoffset) tmb) as [Hmore|Hdone].
    + apply IH; try lia;
        first [ rewrite Hl; apply tl_bounded, tl_bounded, Hlat
              | unfold half_second in *; lia ].
    + exists w1. split; [apply coarse_loop_exit; lia|]. lia.
Qed.

(** C2 (coarse wait, one iteration).  With [remaining] computed from the
    [now] the iteration was entered with: the loop leaves for the final sync
    exactly when [remaining <= 0]; otherwise it sleeps once, for the tier the
    specification names, and the next iteration is entered with the clock as
    it reads after that sleep (the slept durations are never summed up). *)
Theorem coarse_iteration_follows_tiers (target_time now : Z) (w : World) :
  let target_minus_buffer := target_time - FINAL_POLL_BUFFER_SECONDS in
  let remaining := target_time - FINAL_POLL_BUFFER_SECONDS - now in
  match spec_coarse_decision remaining with
  | Some EnterFinalSync =>
      forall fuel, coarse_loop fuel target_minus_buffer now w = (Ok tt, w)
  | Some (SleepFor d) =>
      exists w1,
        coarse_body target_minus_buffer now w
          = (Ok (clock w1 + utcoffset), w1) /\
        sleeps (new_events w w1) = [d] /\
        clock w1 = clock_after 2 w + d /\
        forall fuel,
          coarse_loop (S fuel) target_minus_buffer now w =
          coarse_loop fuel target_minus_buffer (clock w1 + utcoffset) w1
  | None => False
  end.
Proof.
  intros tmb remaining.
  destruct (Z.leb_spec remaining 0) as [Hle|Hgt].
  - unfold spec_coarse_decision. destruct (Z.leb_spec remaining 0); try lia.
    intros fuel. apply coarse_loop_exit. subst remaining tmb. lia.
  - rewrite (sleep_duration_spec _ Hgt).
    destruct (coarse_body_ok tmb now w)
      as (w1 & status & Hb & Hev & Hst & Hc & _).
    exists w1. split; [exact Hb|]. split.
    + rewrite (new_events_app _ _ _ Hev), sleeps_app, Hst. reflexivity.
    + split; [exact Hc|]. intros fuel.
      apply coarse_loop_step; [subst remaining tmb; lia | exact Hb].
Qed.

(** C4 (exit window of the coarse wait), as the code can keep it.  When
    [T - L] is still ahead at the first clock reading and no clock read or
    sleep overshoot takes longer than [j], with [0.5s + 2 j <= 30s], the
    coarse wait ends (given enough fuel) and it ends at a clock reading no
    earlier than [T - L] and less than 30 seconds after it. *)
Theorem coarse_wait_exit_window (j target_time : Z) (w : World) :
  0 <= j ->
  half_second + 2 * j <= seconds 30 ->
  bounded_latency j (latency w) ->
  clock_after 1 w + utcoffset < target_time - FINAL_POLL_BUFFER_SECONDS ->
  exists fuel0,
    forall fuel, (fuel0 <= fuel)%nat ->
      exists w',
        coarse_wait fuel target_time w = (Ok tt, w') /\
        target_time - FINAL_POLL_BUFFER_SECONDS <= clock w' + utcoffset /\
        clock w' + utcoffset
          < target_time - FINAL_POLL_BUFFER_SECONDS + seconds 30.
Proof.
  intros Hj Hj30 Hlat Hfuture.
  set (tmb := target_time - FINAL_POLL_BUFFER_SECONDS) in *.
  unfold clock_after in Hfuture. cbn [elapsed] in Hfuture.
  set (w0 := set_clock (clock w + hd 0 (latency w)) (tl (latency w)) w).
  exists (Z.to_nat (tmb - (clock w0 + utcoffset))). intros fuel Hfuel.
  assert (Hrun : coarse_wait fuel target_time w
                 = coarse_loop fuel tmb (clock w0 + utcoffset) w0)
    by reflexivity.
  rewrite Hrun.
  destruct (coarse_loop_exits j tmb (Z.to_nat (tmb - (clock w0 + utcoffset)))
              Hj fuel (clock w0 + utcoffset) w0) as (w' & Hr & Hlo & Hhi).
  - apply tl_bounded, Hlat.
  - reflexivity.
  - exact Hfuture.
  - unfold half_second. cbn in *. lia.
  - exact Hfuel.
  - exists w'. split; [exact Hr|]. split; lia.
Qed.

Lemma coarse_loop_exact (tmb : Z) (fuel : nat) :
  forall (now : Z) (w : World),
    latency w = [] ->
    now = clock w + utcoffset ->
    (List.length (ideal_sleeps fuel (tmb - now)) < fuel)%nat ->
    exists w' evs,
      coarse_loop fuel tmb now w = (Ok tt, w') /\
      events w' = events w ++ evs /\
      sleeps evs = ideal_sleeps fuel (tmb - now) /\
      clock w' = clock w + total (ideal_sleeps fuel (tmb - now)) /\
      latency w' = [] /\ network w' = network w /\ browser w' = browser w.
Proof.
  induction fuel as [|fuel IH]; intros now w Hlat Hnow Hlen.
  - cbn [ideal_sleeps] in Hlen. destruct (0 <? tmb - now); cbn in Hlen; exfalso; revert Hlen; apply Nat.lt_irrefl.
  - cbn [ideal_sleeps] in *.
    destruct (Z.ltb_spec 0 (tmb - now)) as [Hpos|Hnon].
    + destruct (coarse_body_ok tmb now w)
        as (w1 & status & Hb & Hev & Hst & Hc & Hl & Hn & Hbr & _).
      assert (Hlt : now < tmb) by lia.
      rewrite (coarse_loop_step _ _ _ _ _ _ Hlt Hb).
      unfold clock_after in Hc. rewrite Hlat in Hc, Hl. cbn [elapsed hd tl] in Hc, Hl.
      destruct (IH (clock w1 + utcoffset) w1 Hl eq_refl) as (w' & evs & Hr & He & Hs & Hck & Hl' & Hn' & Hb').
      * replace (tmb - (clock w1 + utcoffset)) with (tmb - now - sleep_duration (tmb - now)) by lia.
        cbn [List.length] in Hlen. lia.
      * replace (tmb - (clock w1 + utcoffset)) with (tmb - now - sleep_duration (tmb - now)) in * by lia.
        exists w', (status ++ [EvSleep (sleep_duration (tmb - now))] ++ evs).
        split; [exact Hr|]. split; [rewrite He, Hev, <- !app_assoc; reflexivity|].
        split; [rewrite !sleeps_app, Hst, Hs; reflexivity|].
        split; [rewrite Hck; unfold total; cbn [fold_right]; lia|].
        repeat split; congruence.
    + exists w, []. rewrite coarse_loop_exit by lia. rewrite app_nil_r. cbn.
      repeat split; try assumption; lia.
Qed.

Lemma coarse_wait_exact (target_time : Z) (fuel : nat) (w : World) :
  latency w = [] ->
  let remaining :=
    target_time - FINAL_POLL_BUFFER_SECONDS - (clock w + utcoffset) in
  (List.length (ideal_sleeps fuel remaining) < fuel)%nat ->
  exists w' evs,
    coarse_wait fuel target_time w = (Ok tt, w') /\
    events w' = events w ++ evs /\
    sleeps evs = ideal_sleeps fuel remaining /\
    clock w' = clock w + total (ideal_sleeps fuel remaining) /\
    latency w' = [] /\ network w' = network w /\ browser w' = browser w.
Proof.
  intros Hlat remaining Hlen.
  set (w0 := set_clock (clock w + hd 0 (latency w)) (tl (latency w)) w).
  assert (Hrun : coarse_wait fuel target_time w
                 = coarse_loop fuel (target_time - FINAL_POLL_BUFFER_SECONDS)
                     (clock w0 + utcoffset) w0) by reflexivity.
  assert (Hrem : target_time - FINAL_POLL_BUFFER_SECONDS
                 - (clock w0 + utcoffset) = remaining).
  { subst remaining w0. cbn. rewrite Hlat. cbn. lia. }
  destruct (coarse_loop_exact (target_time - FINAL_POLL_BUFFER_SECONDS) fuel
              (clock w0 + utcoffset) w0) as (w' & evs & Hr & He & Hs & Hc & Hl & Hn & Hb).
  - subst w0. cbn. rewrite Hlat. reflexivity.
  - reflexivity.
  - rewrite Hrem. exact Hlen.
  - rewrite Hrem in *. exists w', evs. rewrite Hrun.
    split; [exact Hr|]. split; [exact He|]. split; [exact Hs|].
    split; [rewrite Hc; subst w0; cbn; rewrite Hlat; cbn; lia|].
    repeat split; assumption.
Qed.

Lemma fire_exact (w : World) :
  latency w = [] -> clock (snd (fire w)) = clock w.
Proof.
  destruct w as [c lat net br drv others evs]. cbn. intros ->.
  unfold fire, submit_pin_form, browser_step, log_submission_times,
    requests_head, datetime_now, parse_date, to_local_zone.
  unfold_monad. cbn.
  destruct (submit_pin_ok br); cbn;
    destruct net as [|[m|[[|a s]|]] rest]; cbn; try lia;
    destruct (strptime (String a s)) as [t|]; cbn; try lia;
    destruct (astimezone_local t); cbn; lia.
Qed.


(** C6 (scenario: target 65 s ahead, 25 s resync lead), as the code runs it
    on a clock that advances by exactly the slept durations.  The coarse
    wait sleeps 30 s, then 5 s, then ten times 0.5 s, and the final sync is
    entered at [T - 25s]; a usable probe whose fire instant a [datetime] can
    hold and whose duration [time.sleep] accepts then leads to one computed
    sleep and the submission, at the instant the server clock is estimated
    to read the target. *)
Theorem scenario_65_seconds (w : World) (server : Z) (s : string)
    (rest : list HeadResult) (fuel : nat) :
  latency w = [] ->
  network w = HeadResponse (Some s) :: rest ->
  s <> EmptyString ->
  strptime s = Some server ->
  (13 <= fuel)%nat ->
  let target_time := clock w + utcoffset + seconds 65 in
  let offset := server - (clock w + seconds 40) in
  let d := localize target_time - offset - (clock w + seconds 40) in
  0 < d ->
  in_datetime_range (localize target_time - offset) = true ->
  d <= sleep_max ->
  exists w' coarse tail,
    wait_and_fire fuel target_time w = (Ok tt, w') /\
    events w' =
      events w
      ++ [EvStatus (StWaitingForDots target_time);
          EvLog LInfo (LgTarget target_time)]
      ++ coarse
      ++ [EvStatus StFinalSync; EvLog LInfo LgReached; EvHead;
          EvLog LInfo (LgOffset offset); EvLog LInfo (LgFinalSleep d);
          EvStatus (StFinalSleep d); EvSleep d;
          EvStatus (StText "Submitting PIN..."); EvStep SubmitPinForm]
      ++ tail /\
    sleeps coarse = [seconds 30; seconds 5] ++ repeat half_second 10 /\
    sleeps tail = [] /\
    clock w' + offset = localize target_time.
Proof.
  intros Hlat Hnet Hs Hparse Hfuel target_time offset d Hd Hrange Hmax.
  set (wa := add_event (EvLog LInfo (LgTarget target_time))
               (add_event (EvStatus (StWaitingForDots target_time)) w)).
  assert (Hideal : ideal_sleeps fuel
            (target_time - FINAL_POLL_BUFFER_SECONDS - (clock wa + utcoffset))
          = [seconds 30; seconds 5] ++ repeat half_second 10).
  { replace (target_time - FINAL_POLL_BUFFER_SECONDS - (clock wa + utcoffset))
      with 40000000
      by (subst target_time wa; unfold FINAL_POLL_BUFFER_SECONDS, seconds, usec_per_sec; cbn; lia).
    replace fuel with (13 + (fuel - 13))%nat by lia. reflexivity. }
  destruct (coarse_wait_exact target_time fuel wa Hlat)
    as (w1 & coarse & Hr1 & He1 & Hs1 & Hc1 & Hl1 & Hn1 & Hb1).
  { rewrite Hideal. cbn. lia. }
  rewrite Hideal in Hs1, Hc1.
  set (wb := add_event (EvLog LInfo LgReached) (add_event (EvStatus StFinalSync) w1)).
  assert (Hclk : clock wb = clock w + seconds 40).
  { subst wb wa. cbn. rewrite Hc1. cbn. lia. }
  assert (Hlb : latency wb = []) by (subst wb; cbn; exact Hl1).
  assert (Hca : forall n, clock_after n wb = clock w + seconds 40).
  { intros n. unfold clock_after. rewrite Hlb, Hclk. clear.
    generalize (clock w + seconds 40).
    induction n; intros z; cbn; [reflexivity|]. rewrite IHn. lia. }
  assert (Hnb : network wb = HeadResponse (Some s) :: rest)
    by (subst wb; cbn; rewrite Hn1; exact Hnet).
  pose proof (final_sync_usable target_time server s rest wb Hnb Hs Hparse)
    as Hsync.
  cbv zeta in Hsync. rewrite !Hca, Hlb in Hsync.
  fold offset in Hsync. fold d in Hsync.
  specialize (Hsync Hrange Hmax).
  assert (Hdpos : (0 <? d) = true) by (apply Z.ltb_lt; exact Hd).
  rewrite Hdpos in Hsync. cbn [tl] in Hsync.
  destruct Hsync as (w2 & Hr2 & He2 & Hc2 & Hl2).
  destruct (fire_ok w2) as (w3 & tail & Hr3 & He3 & Hs3 & _).
  exists w3, coarse, tail.
  split.
  - unfold wait_and_fire.
    unfold _update_status_safe at 1, logging at 1.
    unfold bind at 1, emit at 1. unfold bind at 1, emit at 1.
    fold wa. rewrite (bind_ok _ _ _ _ _ Hr1).
    unfold _update_status_safe at 1, logging at 1.
    unfold bind at 1, emit at 1. unfold bind at 1, emit at 1.
    fold wb. rewrite (bind_ok _ _ _ _ _ Hr2). exact Hr3.
  - split.
    + rewrite He3, He2. subst wb. cbn. rewrite He1. subst wa. cbn.
      rewrite <- !app_assoc. reflexivity.
    + split; [exact Hs1|]. split; [exact Hs3|].
      pose proof (fire_exact w2) as Hf. rewrite Hr3 in Hf. cbn in Hf.
      rewrite Hf by exact Hl2.
      rewrite Hc2. subst d. lia.
Qed.



(** C3 (fallback).  When the single probe of the final synchronisation
    fails (the request raises, the [Date] header is missing or empty, or it
    does not parse), no exception escapes and the run does not stall: the
    failure is logged, the only sleep is the one until the unmodified local
    target time (none when that time has passed), and the time-critical
    submission is invoked exactly once. *)
Theorem final_sync_failure_falls_back (target_time : Z) (w : World) :
  probe_unusable w = true ->
  let remaining_local_sleep := target_time - (clock_after 2 w + utcoffset) in
  exists e w' tail,
    (final_sync target_time ;;; fire) w = (Ok tt, w') /\
    events w' =
      events w
      ++ [EvHead; EvLog LError (LgSyncFailed e)]
      ++ (if 0 <? remaining_local_sleep
          then [EvSleep remaining_local_sleep] else [])
      ++ [EvStatus (StText "Submitting PIN..."); EvStep SubmitPinForm]
      ++ tail /\
    sleeps tail = [] /\
    count_step SubmitPinForm (new_events w w') = 1%nat.
Proof.
  intros Hbad r.
  destruct (final_sync_fallback target_time w Hbad) as (e & w1 & Hrun & Hev).
  destruct (fire_ok w1) as (w2 & tail & Hfire & Hev2 & Hsl & Hct).
  exists e, w2, tail.
  assert (Hall : events w2 =
      events w
      ++ [EvHead; EvLog LError (LgSyncFailed e)]
      ++ (if 0 <? r then [EvSleep r] else [])
      ++ [EvStatus (StText "Submitting PIN..."); EvStep SubmitPinForm]
      ++ tail).
  { rewrite Hev2, Hev. subst r. rewrite <- !app_assoc. reflexivity. }
  split; [rewrite (bind_ok _ _ _ _ _ Hrun); exact Hfire|].
  split; [exact Hall|]. split; [exact Hsl|].
  rewrite (new_events_app _ _ _ Hall).
  unfold count_step in *. cbn.
  destruct (0 <? r); cbn; rewrite Hct; reflexivity.
Qed.

(** ** Calibration *)

Lemma calibration_trials_measured (n : nat) :
  forall (i : nat) (acc : list Z) (w : World),
  exists w',
    calibration_trials n i acc w
      = (Ok (acc ++ measured_delays n (latency w) (network w)), w').
Proof.
  induction n as [|n IH]; intros i acc w; cbn [calibration_trials measured_delays].
  - exists w. rewrite app_nil_r. reflexivity.
  - unfold requests_head. unfold_monad. cbn.
    destruct (network w) as [|[m|h] rest] eqn:E; cbn;
      match goal with |- context [calibration_trials n ?j ?a ?W] =>
        destruct (IH j a W) as (w' & Hr) end;
      cbn in Hr; rewrite ?E in Hr; exists w'; rewrite Hr; cbn;
      try reflexivity.
    rewrite <- app_assoc. cbn. do 4 f_equal. lia.
Qed.

(** C7 (calibration), as the code has it.  When at least one request was
    answered, the result is a median of the measured round trips (the
    element at index [len // 2] of the sorted list) plus the margin, clamped
    by [max(min_buffer, min(_, max_buffer))], hence between [min_buffer] and
    the larger of the two bounds; when none was answered the result is the
    fixed 0.3 s, whatever the range. *)
Theorem calibrate_dynamic_buffer_result (num_trials : nat)
    (margin min_buffer max_buffer : Z) (w : World) :
  let delays := measured_delays num_trials (latency w) (network w) in
  exists w' r,
    calibrate_dynamic_buffer num_trials margin min_buffer max_buffer w
      = (Ok r, w') /\
    match delays with
    | [] => r = default_buffer
    | _ :: _ =>
        exists m,
          is_median m delays /\
          r = Z.max min_buffer (Z.min (m + margin) max_buffer) /\
          min_buffer <= r <= Z.max min_buffer max_buffer
    end.
Proof.
  intros delays. unfold calibrate_dynamic_buffer.
  destruct (calibration_trials_measured num_trials 0 [] w) as (w1 & Hr).
  cbn [app] in Hr. fold delays in Hr.
  rewrite (bind_ok _ _ _ _ _ Hr).
  destruct delays as [|d ds] eqn:E.
  - unfold_monad. cbn. eexists _, _. split; reflexivity.
  - unfold_monad. cbn -[list_sort Nat.div Z.max Z.min].
    eexists _, _. split; [reflexivity|].
    exists (nth (List.length (list_sort (d :: ds)) / 2) (list_sort (d :: ds)) 0).
    split; [apply median_of_sorted; discriminate|].
    split; [reflexivity|]. lia.
Qed.

(** ** The start controls *)

(** C5 (past deadline), as the code has it.  [start_at_time] never sleeps.
    With valid fields it builds the target from a first clock reading and
    compares it with a second one: a target before that reading only shows
    the "future time" error and starts nothing; a target at or after it
    starts the background run. *)
Theorem start_at_time_guard (hour_var minute_var second_var : string)
    (w : World) :
  exists w' evs,
    start_at_time hour_var minute_var second_var w = (Ok tt, w') /\
    events w' = events w ++ evs /\
    sleeps evs = [] /\
    match time_values hour_var minute_var second_var with
    | None =>
        evs = [EvShow true "Error"
                 "Please enter valid time values (H: 0-23, M/S: 0-59)"]
    | Some (hour, minute, second) =>
        let target_time :=
          replace_time (clock_after 1 w + utcoffset) hour minute second in
        let now := clock_after 2 w + utcoffset in
        if target_time <? now
        then evs = [EvShow true "Error" "Please set a future time"]
        else evs = [EvStatus (StWaitingFor target_time);
                    EvButtons Disabled;
                    EvStatus (StText "Starting browser...");
                    EvThreadStart (Some target_time)]
    end.
Proof.
  unfold start_at_time, validate_time, schedule_registration, datetime_now,
    clock_after.
  destruct (time_values hour_var minute_var second_var)
    as [[[hour minute] second]|]; unfold_monad; cbn.
  - match goal with |- context [?a <? ?b] => destruct (a <? b) end; cbn;
      eexists _, _; (split; [reflexivity|]); cbn; rewrite <- ?app_assoc;
      (split; [reflexivity|]); cbn; split; reflexivity.
  - eexists _, _; (split; [reflexivity|]); cbn; rewrite <- ?app_assoc.
    split; [reflexivity|]. cbn. split; reflexivity.
Qed.

End Scheduler.

(** ** Concrete runs *)

(** C8 at the failing input: "Start Immediately", then a second start
    within the ten minutes for which the first worker holds its browser.
    [run_registration] queues the re-enabling of the buttons before the
    hold.  So the second start is accepted while the first worker is still
    alive, and two runs overlap; when the first worker wakes it quits the
    browser of the second run, whose pipeline is still going, and leaves
    its own open; and a second worker that has reached its own hold by then
    finds [self.driver] unset and ends by the [AttributeError] of
    [None.quit()]. *)
Theorem second_start_during_hold :
  (exists before,
     events (snd (@run_registration est_platform 0 None
                    (world_at 0 [] [] all_ok)))
     = before
       ++ [EvReenable;
           EvLog LInfo
             (LgText "Registration thread finished. Waiting 30 seconds before closing browser...");
           EvSleep (seconds 600); EvDriverQuit]) /\
  Threads.count_workers Threads.alive
    (Threads.run Threads.second_start Threads.initial) = 2%nat /\
  Threads.workers
    (Threads.run Threads.second_start_then_wake Threads.initial)
    = [ {| Threads.phase := Threads.Finished; Threads.own_browser := Some 0%nat |};
        {| Threads.phase := Threads.Pipeline; Threads.own_browser := Some 1%nat |} ] /\
  Threads.self_driver
    (Threads.run Threads.second_start_then_wake Threads.initial) = None /\
  Threads.open_browsers
    (Threads.run Threads.second_start_then_wake Threads.initial) = [0%nat] /\
  Threads.workers
    (Threads.run Threads.second_run_holds_too Threads.initial)
    = [ {| Threads.phase := Threads.Finished; Threads.own_browser := Some 0%nat |};
        {| Threads.phase := Threads.Crashed; Threads.own_browser := Some 1%nat |} ] /\
  Threads.open_browsers
    (Threads.run Threads.second_run_holds_too Threads.initial) = [0%nat] /\
  fst (@run_registration est_platform 0 None overlapped_world)
    = Raise quit_on_none.
Proof.
  split.
  - exists (firstn 26 (events (snd (@run_registration est_platform 0 None
                                       (world_at 0 [] [] all_ok))))).
    vm_compute. reflexivity.
  - repeat split; reflexivity.
Qed.

(** C9 at the failing input: [submit_pin_form] fails, every other step
    succeeds, "Start Immediately".  The later steps still run and the run
    ends with the success message. *)
Theorem pin_form_failure_is_not_fail_fast :
  events (snd (@run_registration est_platform 0 None
                 (world_at 0 [] [] pin_form_fails)))
  = [EvStep CreateDriver; EvLog LInfo (LgText "Driver setup complete.");
     EvStatus (StText "Logging in..."); EvStep Login;
     EvLog LInfo (LgText "Login successful.");
     EvStatus (StText "Selecting term..."); EvStep SelectTerm;
     EvLog LInfo (LgText "Selected term");
     EvStatus (StText "Entering PIN..."); EvStep EnterPinOnly;
     EvLog LInfo (LgText "PIN entered, waiting for submission time...");
     EvStatus (StText "Submitting PIN..."); EvStep SubmitPinForm;
     EvLog LError (LgText "Failed to submit PIN form");
     EvStatus (StText "Entering CRNs..."); EvStep EnterCrns;
     EvLog LInfo (LgText "CRNs entered and 'Add to Summary' clicked.");
     EvStatus (StText "Submitting registration...");
     EvStep SubmitRegistration;
     EvLog LInfo (LgText "Clicked 'Submit' button.");
     EvSleep 1000000; EvStep VerifyRegistration;
     EvLog LInfo (LgText "Found success indicator text on page.");
     EvLog LInfo (LgText "Registration appears successful.");
     EvStatus (StText "Registration completed successfully!");
     EvShow false "Success" "Registration completed successfully!";
     EvReenable;
     EvLog LInfo
       (LgText "Registration thread finished. Waiting 30 seconds before closing browser...");
     EvSleep 600000000; EvDriverQuit].
Proof. reflexivity. Qed.

(** A file holding five superscript twos is loaded, although no entry is
    made of decimal digits. *)
Lemma load_crns_accepts_superscripts :
  fst (load_crns [(superscript_twos ++ newline)%string]
         (world_at 0 [] [] all_ok)) = Ok [superscript_twos]
  /\ five_decimal_digits superscript_twos = false.
Proof. split; reflexivity. Qed.



Lemma final_sync_failure_falls_back_witness :
  @probe_unusable est_platform unreachable_world = true /\
  exists e w' tail,
    (@final_sync est_platform target_0730_25 ;;; @fire est_platform)
      unreachable_world = (Ok tt, w') /\
    events w' =
      events unreachable_world
      ++ [EvHead; EvLog LError (LgSyncFailed e)]
      ++ [EvSleep 25200000]
      ++ [EvStatus (StText "Submitting PIN..."); EvStep SubmitPinForm]
      ++ tail /\
    sleeps tail = [] /\
    count_step SubmitPinForm (new_events unreachable_world w') = 1%nat.
Proof.
  split; [reflexivity|].
  exact (@final_sync_failure_falls_back est_platform target_0730_25
           unreachable_world eq_refl).
Defined.

Lemma coarse_wait_exit_window_witness :
  0 <= seconds 1 /\
  half_second + 2 * seconds 1 <= seconds 30 /\
  bounded_latency (seconds 1) (latency jitter_world) /\
  clock_after 1 jitter_world + @utcoffset est_platform
    < target_0730_25 - FINAL_POLL_BUFFER_SECONDS /\
  exists fuel0,
    forall fuel, (fuel0 <= fuel)%nat ->
      exists w',
        @coarse_wait est_platform fuel target_0730_25 jitter_world
          = (Ok tt, w') /\
        target_0730_25 - FINAL_POLL_BUFFER_SECONDS
          <= clock w' + @utcoffset est_platform /\
        clock w' + @utcoffset est_platform
          < target_0730_25 - FINAL_POLL_BUFFER_SECONDS + seconds 30.
Proof.
  assert (H1 : 0 <= seconds 1) by (vm_compute; discriminate).
  assert (H2 : half_second + 2 * seconds 1 <= seconds 30)
    by (vm_compute; discriminate).
  assert (H3 : bounded_latency (seconds 1) (latency jitter_world)).
  { repeat constructor; vm_compute; discriminate. }
  assert (H4 : clock_after 1 jitter_world + @utcoffset est_platform
               < target_0730_25 - FINAL_POLL_BUFFER_SECONDS)
    by (vm_compute; reflexivity).
  repeat (split; [assumption|]).
  exact (@coarse_wait_exit_window est_platform (seconds 1) target_0730_25
           jitter_world H1 H2 H3 H4).
Defined.

(** Without a bound on how late a sleep comes back the window does not
    hold: entered one microsecond before [T - L], the loop sleeps 0.5 s,
    the sleep returns 40 s late, and the coarse wait ends 40.499999 s
    after [T - L]. *)
Lemma coarse_wait_oversleeps :
  clock_after 1 oversleep_world + @utcoffset est_platform
    < target_0730_25 - FINAL_POLL_BUFFER_SECONDS /\
  fst (@coarse_wait est_platform 1 target_0730_25 oversleep_world) = Ok tt /\
  clock (snd (@coarse_wait est_platform 1 target_0730_25 oversleep_world))
    + @utcoffset est_platform
  = target_0730_25 - FINAL_POLL_BUFFER_SECONDS + seconds 40 + 499999 /\
  ~ (clock (snd (@coarse_wait est_platform 1 target_0730_25 oversleep_world))
       + @utcoffset est_platform
     <= target_0730_25 - FINAL_POLL_BUFFER_SECONDS + seconds 30).
Proof.
  split; [vm_compute; reflexivity|]. split; [reflexivity|].
  split; [vm_compute; reflexivity|]. vm_compute. intros H. apply H. reflexivity.
Qed.


(** The 65-second scenario does not sleep 30 s twice: the second sleep of
    the coarse wait is 5 s. *)
Lemma scenario_second_sleep_is_not_30 :
  sleeps (events (snd (@coarse_wait est_platform 20 scenario_target
                         scenario_world)))
    = [seconds 30; seconds 5] ++ repeat half_second 10 /\
  ~ (exists more,
       sleeps (events (snd (@coarse_wait est_platform 20 scenario_target
                              scenario_world)))
       = seconds 30 :: seconds 30 :: more).
Proof.
  split; [vm_compute; reflexivity|].
  intros [more H]. vm_compute in H. discriminate H.
Qed.

Lemma scenario_65_seconds_witness :
  latency scenario_world = [] /\
  network scenario_world = HeadResponse (Some date_1230) :: [] /\
  date_1230 <> EmptyString /\
  @strptime est_platform date_1230 = Some nov3_1230_utc /\
  (13 <= 13)%nat /\
  0 < 24800000 /\
  in_datetime_range (@localize est_platform scenario_target - 200000) = true /\
  24800000 <= @sleep_max est_platform /\
  exists w' coarse tail,
    @wait_and_fire est_platform 13 scenario_target scenario_world
      = (Ok tt, w') /\
    events w' =
      events scenario_world
      ++ [EvStatus (StWaitingForDots scenario_target);
          EvLog LInfo (LgTarget scenario_target)]
      ++ coarse
      ++ [EvStatus StFinalSync; EvLog LInfo LgReached; EvHead;
          EvLog LInfo (LgOffset 200000); EvLog LInfo (LgFinalSleep 24800000);
          EvStatus (StFinalSleep 24800000); EvSleep 24800000;
          EvStatus (StText "Submitting PIN..."); EvStep SubmitPinForm]
      ++ tail /\
    sleeps coarse = [seconds 30; seconds 5] ++ repeat half_second 10 /\
    sleeps tail = [] /\
    clock w' + 200000 = @localize est_platform scenario_target.
Proof.
  split; [reflexivity|]. split; [reflexivity|]. split; [discriminate|].
  split; [reflexivity|]. split; [apply Nat.le_refl|]. split; [reflexivity|].
  split; [reflexivity|]. split; [vm_compute; discriminate|].
  exact (@scenario_65_seconds est_platform scenario_world nov3_1230_utc
           date_1230 [] 13%nat eq_refl eq_refl ltac:(discriminate) eq_refl
           (Nat.le_refl 13) eq_refl eq_refl
           ltac:(vm_compute; discriminate)).
Defined.

(** At the boundary the run is started although the target is not ahead
    of the clock: not when [start_at_time] is entered, nor at either of
    its two readings. *)
Lemma start_at_time_accepts_present :
  In (EvThreadStart (Some local_0730))
     (events (snd (@start_at_time est_platform "7" "30" "0" boundary_world)))
  /\ ~ (clock boundary_world + @utcoffset est_platform < local_0730)
  /\ ~ (clock_after 1 boundary_world + @utcoffset est_platform < local_0730)
  /\ ~ (clock_after 2 boundary_world + @utcoffset est_platform < local_0730).
Proof.
  split; [vm_compute; do 3 right; left; reflexivity|].
  repeat split; vm_compute; discriminate.
Qed.

(** With the default range [0.5 s, 1 s] and no answered request the result
    is 0.3 s, outside the range. *)
Lemma calibrate_default_outside_range :
  fst (calibrate_dynamic_buffer 1 50000 500000 1000000 unreachable_world)
    = Ok 300000
  /\ ~ (500000 <= 300000 <= 1000000).
Proof. split; [reflexivity | lia]. Qed.

(** * Further properties of the program *)

Lemma heads_app (a b : list Event) : heads (a ++ b) = (heads a + heads b)%nat.
Proof.
  induction a as [|e a IH]; cbn; [reflexivity|].
  destruct e; cbn; rewrite ?IH; reflexivity.
Qed.

Lemma hd_nonneg (lat : list Z) : nonneg lat -> 0 <= hd 0 lat.
Proof. intros H. destruct H; cbn; lia. Qed.

Lemma tl_nonneg (lat : list Z) : nonneg lat -> nonneg (tl lat).
Proof. intros H. destruct H; cbn; [constructor | assumption]. Qed.

Section Waiting.
Context {P : Platform}.

Lemma coarse_body_events (tmb now : Z) (w : World) :
  exists w1 status,
    coarse_body tmb now w = (Ok (clock w1 + utcoffset), w1) /\
    events w1 = events w ++ status ++ [EvSleep (sleep_duration (tmb - now))] /\
    (status = [] \/ status = [EvStatus (StCountdown (tmb - now))]) /\
    network w1 = network w /\ browser w1 = browser w /\
    clock w1 = clock_after 2 w + sleep_duration (tmb - now) /\
    latency w1 = tl (tl (latency w)).
Proof.
  unfold coarse_body, pick_sleep, sleep_duration, time_sleep, datetime_now,
    clock_after.
  unfold_monad. unfold seconds, half_second, usec_per_sec. cbn.
  destruct (30000000 <? tmb - now); [|destruct (5000000 <? tmb - now)]; cbn.
  all: match goal with |- exists w1 _, (_, ?W) = _ /\ _ => exists W end.
  1,2: exists [EvStatus (StCountdown (tmb - now))].
  3: exists [].
  all: (split; [reflexivity|]); cbn; rewrite <- ?app_assoc;
    repeat split; auto; lia.
Qed.

(** Whatever its outcome, the loop only posts statuses and sleeps. *)
Lemma coarse_loop_quiet (tmb : Z) (fuel : nat) :
  forall (now : Z) (w : World),
  exists evs,
    events (snd (coarse_loop fuel tmb now w)) = events w ++ evs /\
    heads evs = 0%nat /\ steps_of evs = [] /\
    network (snd (coarse_loop fuel tmb now w)) = network w /\
    browser (snd (coarse_loop fuel tmb now w)) = browser w.
Proof.
  induction fuel as [|fuel IH]; intros now w.
  - cbn. destruct (now <? tmb); cbn; exists []; rewrite app_nil_r; auto.
  - destruct (Z.ltb_spec now tmb) as [Hlt|Hge].
    + destruct (coarse_body_events tmb now w)
        as (w1 & status & Hb & Hev & Hst & Hn & Hbr & _).
      rewrite (coarse_loop_step _ _ _ _ _ _ Hlt Hb).
      destruct (IH (clock w1 + utcoffset) w1) as (evs & He & Hh & Hs & Hn' & Hb').
      exists (status ++ [EvSleep (sleep_duration (tmb - now))] ++ evs).
      rewrite He, Hev, <- !app_assoc. split; [reflexivity|].
      rewrite !heads_app, !steps_of_app, Hh, Hs. cbn.
      destruct Hst as [-> | ->]; cbn; repeat split; congruence.
    + rewrite coarse_loop_exit by lia. exists []. rewrite app_nil_r. auto.
Qed.

Lemma coarse_loop_terminates (tmb : Z) (k : nat) :
  forall (fuel : nat) (now : Z) (w : World),
    nonneg (latency w) ->
    now = clock w + utcoffset ->
    tmb - now <= Z.of_nat k * half_second ->
    (k <= fuel)%nat ->
    exists w' evs,
      coarse_loop fuel tmb now w = (Ok tt, w') /\
      events w' = events w ++ evs /\
      heads evs = 0%nat /\ steps_of evs = [] /\
      network w' = network w /\ browser w' = browser w /\
      nonneg (latency w') /\
      tmb <= clock w' + utcoffset.
Proof.
  induction k as [|k IH]; intros fuel now w Hlat Hnow Hk Hfuel.
  - exists w, []. rewrite coarse_loop_exit by (unfold half_second in Hk; lia).
    rewrite app_nil_r. unfold half_second in Hk. repeat split; auto. lia.
  - destruct (Z.lt_ge_cases now tmb) as [Hlt|Hge].
    + destruct fuel as [|fuel]; [lia|].
      destruct (coarse_body_events tmb now w)
        as (w1 & status & Hb & Hev & Hst & Hn & Hbr & Hc & Hl).
      rewrite (coarse_loop_step _ _ _ _ _ _ Hlt Hb).
      pose proof (hd_nonneg _ Hlat) as H0.
      pose proof (hd_nonneg _ (tl_nonneg _ Hlat)) as H1.
      pose proof (sleep_duration_ge (tmb - now)) as Hge.
      unfold clock_after in Hc. cbn [elapsed] in Hc.
      assert (Hl1 : nonneg (latency w1))
        by (rewrite Hl; apply tl_nonneg, tl_nonneg, Hlat).
      assert (Hk1 : tmb - (clock w1 + utcoffset) <= Z.of_nat k * half_second)
        by (unfold half_second in *; lia).
      destruct (IH fuel (clock w1 + utcoffset) w1 Hl1 eq_refl Hk1
                  ltac:(lia))
        as (w' & evs & Hr & He & Hh & Hs & Hn' & Hb' & Hl' & Hc').
      exists w', (status ++ [EvSleep (sleep_duration (tmb - now))] ++ evs).
        split; [exact Hr|]. rewrite He, Hev, <- !app_assoc.
        split; [reflexivity|].
        rewrite !heads_app, !steps_of_app, Hh, Hs.
        destruct Hst as [-> | ->]; cbn; repeat split; auto; congruence.
    + exists w, []. rewrite coarse_loop_exit by lia. rewrite app_nil_r.
      repeat split; auto. lia.
Qed.

Lemma final_sync_total (target_time : Z) (w : World) :
  nonneg (latency w) ->
  exists w' evs,
    final_sync target_time w = (Ok tt, w') /\
    events w' = events w ++ evs /\
    heads evs = 1%nat /\ steps_of evs = [] /\
    browser w' = browser w /\ network w' = tl (network w) /\
    nonneg (latency w') /\
    aimed_instant target_time w <= clock w'.
Proof.
  intros Hlat.
  pose proof (hd_nonneg _ Hlat) as H0.
  pose proof (hd_nonneg _ (tl_nonneg _ Hlat)) as H1.
  pose proof (hd_nonneg _ (tl_nonneg _ (tl_nonneg _ Hlat))) as H2.
  pose proof (hd_nonneg _ (tl_nonneg _ (tl_nonneg _ (tl_nonneg _ Hlat)))) as H3.
  pose proof (hd_nonneg _ (tl_nonneg _ (tl_nonneg _ (tl_nonneg _
                (tl_nonneg _ Hlat))))) as H4.
  assert (Ht2 : nonneg (tl (tl (latency w)))) by (apply tl_nonneg, tl_nonneg, Hlat).
  assert (Ht3 : nonneg (tl (tl (tl (latency w))))) by (apply tl_nonneg, Ht2).
  assert (Ht4 : nonneg (tl (tl (tl (tl (latency w)))))) by (apply tl_nonneg, Ht3).
  assert (Ht5 : nonneg (tl (tl (tl (tl (tl (latency w)))))))
    by (apply tl_nonneg, Ht4).
  unfold aimed_instant, offset_usable, clock_after. cbn [elapsed].
  unfold final_sync, requests_head, parse_date, datetime_now, datetime_sub,
    time_sleep_checked, time_sleep.
  unfold_monad. cbn -[in_datetime_range].
  destruct (network w) as [|[m|[[|a s]|]] rest] eqn:En; cbn -[in_datetime_range].
  4: destruct (strptime (String a s)) as [server|]; cbn -[in_datetime_range].
  4: destruct (in_datetime_range _) eqn:Hr; cbn -[in_datetime_range].
  4: match goal with |- context [0 <? ?e] =>
       destruct (Z.ltb_spec 0 e) as [Hpos|Hnp] end; cbn -[in_datetime_range].
  4: match goal with |- context [?e <? 0] =>
       destruct (Z.ltb_spec e 0); [lia|] end; cbn -[in_datetime_range].
  4: match goal with |- context [sleep_max <? ?e] =>
       destruct (Z.ltb_spec sleep_max e) end; cbn -[in_datetime_range].
  all: try match goal with |- context [0 <? ?e] =>
         destruct (Z.ltb_spec 0 e) end; cbn -[in_datetime_range];
    eexists; eexists; (split; [reflexivity|]); cbn; rewrite <- ?app_assoc;
    (split; [reflexivity|]); cbn; repeat split; auto; lia.
Qed.

Lemma fire_events (w : World) :
  exists w' tail,
    fire w = (Ok tt, w') /\
    events w' =
      events w ++ [EvStatus (StText "Submitting PIN..."); EvStep SubmitPinForm]
      ++ tail /\
    heads tail = 1%nat /\ steps_of tail = [] /\ sleeps tail = [].
Proof.
  unfold fire, submit_pin_form, browser_step, log_submission_times,
    requests_head, datetime_now, parse_date, to_local_zone.
  unfold_monad. cbn.
  destruct (submit_pin_ok (browser w)); cbn;
    destruct (network w) as [|[m|[[|a s]|]] rest]; cbn;
    try (destruct (strptime (String a s)) as [t|]; cbn;
         [destruct (astimezone_local t); cbn|]);
    eexists; eexists; (split; [reflexivity|]); cbn; rewrite <- ?app_assoc;
    (split; [reflexivity|]); cbn; auto.
Qed.

(** X1.  On a clock that does not run backwards the timed path always
    comes to an end, whatever the answers of the server: given enough fuel
    for the coarse wait it returns normally, [submit_pin_form] is the only
    pipeline method it enters, once, and it makes exactly two HEAD
    requests (the final synchronisation and the submission log). *)
Theorem wait_and_fire_terminates (target_time : Z) (w : World) :
  nonneg (latency w) ->
  exists fuel0,
    forall fuel, (fuel0 <= fuel)%nat ->
      exists w',
        wait_and_fire fuel target_time w = (Ok tt, w') /\
        steps_of (new_events w w') = [SubmitPinForm] /\
        heads (new_events w w') = 2%nat.
Proof.
  intros Hlat.
  set (tmb := target_time - FINAL_POLL_BUFFER_SECONDS).
  set (wa := add_event (EvLog LInfo (LgTarget target_time))
               (add_event (EvStatus (StWaitingForDots target_time)) w)).
  set (w0 := set_clock (clock wa + hd 0 (latency wa)) (tl (latency wa)) wa).
  exists (Z.to_nat (tmb - (clock w0 + utcoffset))). intros fuel Hfuel.
  destruct (coarse_loop_terminates tmb (Z.to_nat (tmb - (clock w0 + utcoffset)))
              fuel (clock w0 + utcoffset) w0)
    as (w1 & evs1 & Hr1 & He1 & Hh1 & Hs1 & Hn1 & Hb1 & Hl1 & _).
  { subst w0 wa. cbn. apply tl_nonneg, Hlat. }
  { reflexivity. }
  { unfold half_second. lia. }
  { exact Hfuel. }
  set (wb := add_event (EvLog LInfo LgReached)
               (add_event (EvStatus StFinalSync) w1)).
  destruct (final_sync_total target_time wb)
    as (w2 & evs2 & Hr2 & He2 & Hh2 & Hs2 & _).
  { subst wb. cbn. exact Hl1. }
  destruct (fire_events w2) as (w3 & tail & Hr3 & He3 & Hh3 & Hs3 & _).
  exists w3. split.
  - unfold wait_and_fire.
    unfold _update_status_safe, logging. rewrite !bind_emit. fold wa.
    assert (Hcw : coarse_wait fuel target_time wa = (Ok tt, w1)) by exact Hr1.
    rewrite (bind_ok _ _ _ _ _ Hcw). rewrite !bind_emit. fold wb.
    rewrite (bind_ok _ _ _ _ _ Hr2). exact Hr3.
  - assert (Hall : events w3 = events w ++
        ([EvStatus (StWaitingForDots target_time);
          EvLog LInfo (LgTarget target_time)] ++ evs1
         ++ [EvStatus StFinalSync; EvLog LInfo LgReached] ++ evs2
         ++ [EvStatus (StText "Submitting PIN..."); EvStep SubmitPinForm]
         ++ tail)).
    { rewrite He3, He2. subst wb. cbn. rewrite He1. subst w0 wa. cbn.
      rewrite <- !app_assoc. reflexivity. }
    rewrite (new_events_app _ _ _ Hall).
    rewrite !steps_of_app, !heads_app, Hs1, Hs2, Hs3, Hh1, Hh2, Hh3.
    split; reflexivity.
Qed.

(** X2.  The coarse wait never contacts the server and enters no
    pipeline method, whether it ends or runs out of fuel: all it does is
    post statuses and sleep, and it leaves the pending answers of the
    server untouched. *)
Theorem coarse_wait_is_silent (fuel : nat) (target_time : Z) (w : World) :
  exists evs,
    events (snd (coarse_wait fuel target_time w)) = events w ++ evs /\
    heads evs = 0%nat /\ steps_of evs = [] /\
    network (snd (coarse_wait fuel target_time w)) = network w.
Proof.
  set (w0 := set_clock (clock w + hd 0 (latency w)) (tl (latency w)) w).
  assert (Hrun : coarse_wait fuel target_time w
                 = coarse_loop fuel (target_time - FINAL_POLL_BUFFER_SECONDS)
                     (clock w0 + utcoffset) w0) by reflexivity.
  rewrite Hrun.
  destruct (coarse_loop_quiet (target_time - FINAL_POLL_BUFFER_SECONDS) fuel
              (clock w0 + utcoffset) w0) as (evs & He & Hh & Hs & Hn & _).
  exists evs. rewrite He, Hn. auto.
Qed.

(** X3.  On a clock that does not run backwards the final
    synchronisation returns normally and never before the instant it aims
    at: the target minus the measured offset with a usable probe, the
    local target otherwise. *)
Theorem final_sync_never_early (target_time : Z) (w : World) :
  nonneg (latency w) ->
  exists w',
    final_sync target_time w = (Ok tt, w') /\
    aimed_instant target_time w <= clock w'.
Proof.
  intros Hlat.
  destruct (final_sync_total target_time w Hlat)
    as (w' & evs & Hr & _ & _ & _ & _ & _ & _ & Hc).
  exists w'. split; assumption.
Qed.

(** X5.  [submit_registration] returns [True] exactly when the click on
    the save button goes through: it then sleeps one second and calls
    [verify_registration], whose result does not change what is returned;
    when the click fails it returns [None] and does not verify. *)
Theorem submit_registration_ignores_verification (w : World) :
  exists w' evs,
    submit_registration w
      = (Ok (if save_click_ok (browser w) then PyTrue else PyNone), w') /\
    events w' = events w ++ evs /\
    steps_of evs
      = (if save_click_ok (browser w)
         then [SubmitRegistration; VerifyRegistration]
         else [SubmitRegistration]) /\
    sleeps evs = (if save_click_ok (browser w) then [seconds 1] else []).
Proof.
  unfold submit_registration, verify_registration, time_sleep.
  unfold_monad. cbn.
  destruct (save_click_ok (browser w)); cbn;
    [destruct (verify_ok (browser w)); cbn|];
    eexists; eexists; (split; [reflexivity|]); cbn; rewrite <- ?app_assoc;
    (split; [reflexivity|]); split; reflexivity.
Qed.

(** X6.  [log_submission_times] never raises and never sleeps: it makes
    one HEAD request and writes at most one record, whose local time is
    the clock as read before the request and whose delay is the server
    time minus that reading. *)
Theorem log_submission_times_never_raises (w : World) :
  exists w' evs,
    log_submission_times w = (Ok tt, w') /\
    events w' = events w ++ evs /\
    heads evs = 1%nat /\ sleeps evs = [] /\ steps_of evs = [] /\
    match audits evs with
    | [] => True
    | [(server_utc, utc_now, delay)] =>
        utc_now = clock_after 2 w /\
        delay = option_map (fun t => t - clock_after 2 w) server_utc
    | _ => False
    end.
Proof.
  unfold log_submission_times, requests_head, datetime_now, parse_date,
    to_local_zone, clock_after.
  unfold_monad. cbn.
  destruct (network w) as [|[m|[[|a s]|]] rest]; cbn;
    try (destruct (strptime (String a s)) as [t|]; cbn;
         [destruct (astimezone_local t); cbn|]);
    eexists; eexists; (split; [reflexivity|]); cbn; rewrite <- ?app_assoc;
    (split; [reflexivity|]); cbn; auto 10.
Qed.

End Waiting.

Lemma calibration_trials_requests (n : nat) :
  forall (i : nat) (acc : list Z) (w : World),
  exists delays w' evs,
    calibration_trials n i acc w = (Ok delays, w') /\
    events w' = events w ++ evs /\
    heads evs = n /\ sleeps evs = [] /\ steps_of evs = [].
Proof.
  induction n as [|n IH]; intros i acc w; cbn [calibration_trials].
  - exists acc, w, []. rewrite app_nil_r. auto.
  - unfold requests_head. unfold_monad. cbn.
    destruct (network w) as [|[m|h] rest] eqn:E; cbn;
      match goal with |- context [calibration_trials n ?j ?a ?W] =>
        destruct (IH j a W) as (delays & w' & evs & Hr & He & Hh & Hs & Ht) end;
      rewrite Hr; cbn in He; exists delays, w';
      eexists; (split; [reflexivity|]); rewrite He, <- ?app_assoc;
      (split; [reflexivity|]); cbn; rewrite ?heads_app, ?sleeps_app, ?steps_of_app;
      cbn; rewrite ?Hh, ?Hs, ?Ht; auto.
Qed.

(** X7.  [calibrate_dynamic_buffer] never raises and never sleeps, and
    makes exactly [num_trials] HEAD requests whatever their outcomes. *)
Theorem calibrate_request_count (num_trials : nat)
    (margin min_buffer max_buffer : Z) (w : World) :
  exists r w' evs,
    calibrate_dynamic_buffer num_trials margin min_buffer max_buffer w
      = (Ok r, w') /\
    events w' = events w ++ evs /\
    heads evs = num_trials /\ sleeps evs = [] /\ steps_of evs = [].
Proof.
  unfold calibrate_dynamic_buffer.
  destruct (calibration_trials_requests num_trials 0 [] w)
    as (delays & w1 & evs & Hr & He & Hh & Hs & Ht).
  rewrite (bind_ok _ _ _ _ _ Hr).
  destruct delays as [|d ds]; unfold_monad; cbn -[list_sort Nat.div Z.max Z.min];
    eexists; eexists; eexists; (split; [reflexivity|]); cbn; rewrite He, <- app_assoc;
    (split; [reflexivity|]);
    rewrite ?heads_app, ?sleeps_app, ?steps_of_app, Hh, Hs, Ht; cbn;
    rewrite ?Nat.add_0_r; auto.
Qed.

(** X8.  For time fields in range, the target built by [start_at_time]
    lies on the day of the clock reading it is built from, at exactly the
    given time of day, with no fraction of a second: a time of day that has
    passed is never moved to the next day. *)
Theorem replace_time_same_day (now hour minute second : Z) :
  in_range 0 23 hour && in_range 0 59 minute && in_range 0 59 second = true ->
  let target_time := replace_time now hour minute second in
  target_time / usec_per_day = now / usec_per_day /\
  target_time mod usec_per_day = seconds (hour * 3600 + minute * 60 + second) /\
  target_time mod usec_per_sec = 0.
Proof.
  unfold in_range. intros H.
  rewrite !andb_true_iff, !Z.leb_le in H.
  destruct H as [[[? ?] [? ?]] [? ?]].
  unfold replace_time, seconds, usec_per_day, usec_per_sec. cbn zeta.
  set (q := now / (86400 * 1000000)).
  set (r := (hour * 3600 + minute * 60 + second) * 1000000).
  assert (Hr : 0 <= r < 86400 * 1000000) by (subst r; lia).
  split; [|split].
  - symmetry. apply (Z.div_unique _ _ q r); [left; exact Hr | lia].
  - symmetry. apply (Z.mod_unique _ _ q r); [left; exact Hr | lia].
  - symmetry.
    apply (Z.mod_unique _ _ (q * 86400 + (hour * 3600 + minute * 60 + second)) 0);
      [left; lia | subst r; lia].
Qed.

(** ** More on [load_crns] *)

Lemma list_ascii_of_string_app (s1 s2 : string) :
  list_ascii_of_string (s1 ++ s2)%string
  = list_ascii_of_string s1 ++ list_ascii_of_string s2.
Proof. induction s1 as [|a s1 IH]; cbn; [reflexivity | now rewrite IH]. Qed.

Lemma digit_not_space (c : ascii) : isdigit_char c = true -> isspace c = false.
Proof.
  destruct c as [[] [] [] [] [] [] [] []]; cbn; intros H;
    first [reflexivity | discriminate H].
Qed.

Lemma digit_not_hash (c : ascii) :
  isdigit_char c = true -> (N_of_ascii c =? 35)%N = false.
Proof.
  destruct c as [[] [] [] [] [] [] [] []]; cbn; intros H;
    first [reflexivity | discriminate H].
Qed.

Lemma lstrip_list_head (l : list ascii) :
  match l with [] => True | a :: _ => isspace a = false end ->
  lstrip (string_of_list_ascii l) = string_of_list_ascii l.
Proof. destruct l as [|a l]; cbn; [reflexivity|]. now intros ->. Qed.

Lemma lstrip_keeps_last (l : list ascii) (a : ascii) :
  isspace a = false ->
  exists l', lstrip (string_of_list_ascii (l ++ [a]))
             = string_of_list_ascii (l' ++ [a]).
Proof.
  intros Ha. induction l as [|x l [l' IH]]; cbn.
  - exists []. cbn. now rewrite Ha.
  - destruct (isspace x); [exists l'; exact IH | exists (x :: l); reflexivity].
Qed.

Lemma rstrip_keeps_head (a : ascii) (r : string) :
  isspace a = false -> exists r', rstrip (String a r) = String a r'.
Proof.
  intros Ha. unfold rstrip, reverse. cbn [list_ascii_of_string rev].
  destruct (lstrip_keeps_last (rev (list_ascii_of_string r)) a Ha) as (l' & H).
  rewrite H, list_ascii_of_string_of_list_ascii, rev_app_distr. cbn.
  eexists. reflexivity.
Qed.

Lemma lstrip_spaces (ws rest : string) :
  forallb isspace (list_ascii_of_string ws) = true ->
  lstrip (ws ++ rest)%string = lstrip rest.
Proof.
  induction ws as [|a ws IH]; cbn; [reflexivity|].
  intros H. apply andb_prop in H. destruct H as [Ha Hw].
  rewrite Ha. now apply IH.
Qed.

Lemma strip_digits_line (c : string) :
  forallb isdigit_char (list_ascii_of_string c) = true ->
  strip (c ++ newline)%string = c.
Proof.
  intros H. destruct c as [|a0 c0]; [reflexivity|].
  set (c := String a0 c0) in *. unfold strip.
  assert (Hl : lstrip (c ++ newline)%string = (c ++ newline)%string).
  { subst c. cbn in *.
    apply andb_prop in H. destruct H as [Ha _].
    now rewrite (digit_not_space _ Ha). }
  rewrite Hl. clearbody c. unfold rstrip, reverse.
  rewrite list_ascii_of_string_app, rev_app_distr.
  change (rev (list_ascii_of_string newline)) with [ascii_of_N 10].
  cbn [app string_of_list_ascii].
  change (lstrip (String (ascii_of_N 10)
                    (string_of_list_ascii (rev (list_ascii_of_string c)))))
    with (lstrip (string_of_list_ascii (rev (list_ascii_of_string c)))).
  rewrite lstrip_list_head.
  - rewrite list_ascii_of_string_of_list_ascii, rev_involutive.
    apply string_of_list_ascii_of_string.
  - assert (Hr : forallb isdigit_char (rev (list_ascii_of_string c)) = true).
    { rewrite forallb_forall in *. intros x Hx. apply H, in_rev, Hx. }
    destruct (rev (list_ascii_of_string c)) as [|x t]; [exact I|].
    cbn in Hr. apply andb_prop in Hr. destruct Hr as [Hx _].
    now apply digit_not_space.
Qed.

(** X9.  Reading back: a non-empty list of valid CRNs written one per
    line is loaded as that very list, in the same order and with repeated
    entries kept. *)
Theorem load_crns_reads_back (crns : list string) (w : World) :
  crns <> [] ->
  forallb valid_crn crns = true ->
  exists w',
    load_crns (map (fun crn => (crn ++ newline)%string) crns) w = (Ok crns, w').
Proof.
  intros Hne Hv.
  assert (He : crn_entries (map (fun crn => (crn ++ newline)%string) crns) = crns).
  { clear Hne. unfold crn_entries. induction crns as [|c cs IH]; [reflexivity|].
    cbn in Hv. apply andb_prop in Hv. destruct Hv as [Hc Hcs].
    unfold valid_crn in Hc. apply andb_prop in Hc. destruct Hc as [Hlen Hd].
    assert (Hdig : forallb isdigit_char (list_ascii_of_string c) = true)
      by (unfold isdigit in Hd; destruct c; [discriminate | exact Hd]).
    assert (Hkeep : nonempty c && negb (startswith_hash (c ++ newline)%string)
                    = true).
    { destruct c as [|a c]; [discriminate|].
      cbn in Hdig. apply andb_prop in Hdig. destruct Hdig as [Ha _].
      cbn. now rewrite (digit_not_hash _ Ha). }
    cbn [map filter]. rewrite (strip_digits_line c Hdig), Hkeep.
    cbn [map]. rewrite (strip_digits_line c Hdig).
    f_equal. apply IH, Hcs. }
  destruct (load_crns_cases (map (fun crn => (crn ++ newline)%string) crns) w)
    as (w' & H).
  rewrite He in H.
  assert (Hlen : negb (Nat.eqb (List.length crns) 0) = true)
    by (destruct crns; [congruence | reflexivity]).
  rewrite Hlen in H. cbn [andb] in H.
  assert (Hsp : forallb (fun crn =>
                     (String.length crn =? 5)%nat
                     && forallb isdigit_char (list_ascii_of_string crn)) crns
                = true).
  { rewrite <- Hv. clear. induction crns as [|c cs IH]; cbn; [reflexivity|].
    rewrite IH, valid_crn_spelled. reflexivity. }
  rewrite Hsp in H. exists w'. exact H.
Qed.

(** X10.  A comment that is indented makes loading fail: [load_crns]
    tests for [#] on the raw line but validates the stripped one, so a line
    of whitespace followed by [#] becomes an invalid entry and [ValueError]
    is raised, whatever else the file holds. *)
Theorem load_crns_indented_comment (lines : list string) (ws rest : string)
    (w : World) :
  In (ws ++ String "#" rest)%string lines ->
  ws <> EmptyString ->
  forallb isspace (list_ascii_of_string ws) = true ->
  exists msg w', load_crns lines w = (Raise (ValueError msg), w').
Proof.
  intros Hin Hne Hws.
  set (line := (ws ++ String "#" rest)%string) in *.
  assert (Hhash : isspace "#"%char = false) by reflexivity.
  destruct (rstrip_keeps_head "#"%char rest Hhash) as (r' & Hr).
  assert (Hstrip : strip line = String "#" r').
  { unfold strip, line. rewrite (lstrip_spaces _ _ Hws). cbn. exact Hr. }
  assert (Hraw : startswith_hash line = false).
  { unfold line. destruct ws as [|a ws]; [congruence|]. cbn in *.
    apply andb_prop in Hws. destruct Hws as [Ha _].
    destruct a as [[] [] [] [] [] [] [] []]; cbn in *;
      first [reflexivity | discriminate Ha]. }
  assert (Hentry : In (String "#" r') (crn_entries lines)).
  { unfold crn_entries. rewrite <- Hstrip. apply in_map, filter_In.
    split; [exact Hin|]. rewrite Hstrip, Hraw. reflexivity. }
  destruct (load_crns_cases lines w) as (w' & H).
  assert (Hbad : forallb (fun crn =>
                     (String.length crn =? 5)%nat
                     && forallb isdigit_char (list_ascii_of_string crn))
                   (crn_entries lines) = false).
  { apply not_true_is_false. intros Hall. rewrite forallb_forall in Hall.
    specialize (Hall _ Hentry). cbn in Hall.
    rewrite andb_false_r in Hall. discriminate. }
  rewrite Hbad, andb_false_r in H. destruct H as (msg & H).
  exists msg, w'. exact H.
Qed.

(** ** [load_config] and the loading part of [__init__] *)

(** *** Facts on [strip] and [split_equals] *)

Lemma lstrip_all_spaces (s : string) :
  forallb isspace (list_ascii_of_string s) = true -> lstrip s = EmptyString.
Proof.
  induction s as [|a s IH]; cbn; [reflexivity|].
  intros H. apply andb_prop in H. destruct H as [-> Hs]. now apply IH.
Qed.

Lemma strip_all_spaces (s : string) :
  forallb isspace (list_ascii_of_string s) = true -> strip s = EmptyString.
Proof. intros H. unfold strip. now rewrite (lstrip_all_spaces s H). Qed.

Lemma strip_comment (ws rest : string) :
  forallb isspace (list_ascii_of_string ws) = true ->
  exists r', strip (ws ++ String "#" rest)%string = String "#" r'.
Proof.
  intros Hws. unfold strip. rewrite (lstrip_spaces _ _ Hws). cbn.
  apply rstrip_keeps_head. reflexivity.
Qed.

Lemma lstrip_chars (s : string) (c : ascii) :
  In c (list_ascii_of_string (lstrip s)) -> In c (list_ascii_of_string s).
Proof.
  induction s as [|a s IH]; cbn; [tauto|].
  destruct (isspace a); cbn; auto.
Qed.

Lemma strip_chars (s : string) (c : ascii) :
  In c (list_ascii_of_string (strip s)) -> In c (list_ascii_of_string s).
Proof.
  unfold strip, rstrip, reverse. intros H.
  rewrite list_ascii_of_string_of_list_ascii in H. apply in_rev in H.
  apply lstrip_chars in H.
  rewrite list_ascii_of_string_of_list_ascii in H. apply in_rev in H.
  apply lstrip_chars in H. exact H.
Qed.

Lemma split_equals_none (s : string) :
  ~ In "="%char (list_ascii_of_string s) -> split_equals s = None.
Proof.
  induction s as [|a s IH]; cbn; [reflexivity|]. intros H.
  destruct (N.eqb_spec (N_of_ascii a) 61) as [E|_].
  - exfalso. apply H. left. rewrite <- (ascii_N_embedding a), E. reflexivity.
  - rewrite IH; [reflexivity|]. intros Hin. apply H. now right.
Qed.

Section ConfigurationFacts.
Context {P : Platform} {T : TextLib}.

Lemma not_missing_present (config : Dict) (field : string) :
  missing_field config field = false ->
  exists a v, dict_get field config = Some (String a v).
Proof.
  unfold missing_field. destruct (dict_get field config) as [[|a v]|];
    cbn; try discriminate. intros _. exists a, v. reflexivity.
Qed.

(** X11.  [load_config] fails only for missing fields: when one of the
    five required keys has no value or an empty one it raises [ValueError]
    naming those keys in the fixed order, with no other effect; otherwise it
    returns a configuration whose five credentials are the latest values
    assigned and are not empty, and a missing or unparsable
    [REGISTRATION_DATE] is replaced by the current local clock reading.  It
    never sleeps and never contacts the server. *)
Theorem load_config_required_fields (lines : list string) (w : World) :
  let config := read_config lines in
  match filter (missing_field config) required_fields with
  | [] =>
      exists cfg w',
        load_config lines w = (Ok cfg, w') /\
        dict_get "USERNAME" config = Some (username cfg) /\
        dict_get "PASSWORD" config = Some (password cfg) /\
        dict_get "PIN" config = Some (pin cfg) /\
        dict_get "TERM_ID" config = Some (term_id cfg) /\
        dict_get "TERM_TEXT" config = Some (term_text cfg) /\
        username cfg <> EmptyString /\ password cfg <> EmptyString /\
        pin cfg <> EmptyString /\ term_id cfg <> EmptyString /\
        term_text cfg <> EmptyString /\
        REGISTRATION_DATE cfg
          = match strptime_date
                    (dict_get_default "REGISTRATION_DATE" "" config) with
            | Some date => date
            | None => clock_after 1 w + utcoffset
            end /\
        sleeps (new_events w w') = [] /\ heads (new_events w w') = 0%nat
  | missing_fields =>
      load_config lines w
      = (Raise (ValueError
                  ("Missing or empty required fields in config.txt: "
                   ++ String.concat ", " missing_fields)%string), w)
  end.
Proof.
  intros config. unfold load_config. fold config.
  destruct (filter (missing_field config) required_fields) as [|m ms] eqn:Hm;
    [|reflexivity].
  assert (Hall : forall f, In f required_fields -> missing_field config f = false).
  { intros f Hf. destruct (missing_field config f) eqn:E; [|reflexivity].
    assert (Hin : In f (filter (missing_field config) required_fields))
      by (apply filter_In; auto).
    rewrite Hm in Hin. destruct Hin. }
  destruct (not_missing_present config "USERNAME") as (a1 & v1 & H1);
    [apply Hall; cbn; auto|].
  destruct (not_missing_present config "PASSWORD") as (a2 & v2 & H2);
    [apply Hall; cbn; auto|].
  destruct (not_missing_present config "PIN") as (a3 & v3 & H3);
    [apply Hall; cbn; auto|].
  destruct (not_missing_present config "TERM_ID") as (a4 & v4 & H4);
    [apply Hall; cbn; auto 6|].
  destruct (not_missing_present config "TERM_TEXT") as (a5 & v5 & H5);
    [apply Hall; cbn; auto 6|].
  unfold dict_get_default. rewrite H1, H2, H3, H4, H5.
  unfold datetime_now, clock_after. unfold_monad. cbn [elapsed].
  destruct (strptime_date _) as [date|];
    [| destruct (_ =? "true")%string ];
    cbn; eexists; eexists; (split; [reflexivity|]); cbn;
    unfold new_events; cbn; rewrite <- ?app_assoc;
    rewrite ?skipn_app, ?skipn_all, ?Nat.sub_diag; cbn;
    repeat split; try discriminate; reflexivity.
Qed.


Lemma read_config_line_skips (config : Dict) (line : string) :
  carries_nothing line -> read_config_line config line = config.
Proof.
  unfold read_config_line. intros [Hb | [(ws & rest & -> & Hws) | Hn]].
  - rewrite (strip_all_spaces _ Hb). reflexivity.
  - destruct (strip_comment ws rest Hws) as (r' & ->). reflexivity.
  - rewrite (split_equals_none (strip line)).
    + destruct (_ || _); reflexivity.
    + intros Hin. apply Hn, strip_chars, Hin.
Qed.

(** X12.  Lines that carry no assignment do not change what [load_config]
    does: a blank line, a comment (also an indented one, unlike in
    [load_crns]) or a line without [=] can be inserted anywhere. *)
Theorem load_config_skips_lines (before after : list string) (line : string)
    (w : World) :
  carries_nothing line ->
  load_config (before ++ line :: after) w = load_config (before ++ after) w.
Proof.
  intros H.
  assert (Hr : read_config (before ++ line :: after)
               = read_config (before ++ after)).
  { unfold read_config. rewrite !fold_left_app. cbn [fold_left].
    rewrite (read_config_line_skips _ _ H). reflexivity. }
  unfold load_config. rewrite Hr. reflexivity.
Qed.


Lemma load_crns_outcomes (lines : list string) (w : World) :
  exists l,
    events (snd (load_crns lines w)) = events w ++ l /\ boxes_of l = [] /\
    ((fst (load_crns lines w) = Ok (crn_entries lines) /\
      crn_entries lines <> [] /\
      forallb valid_crn (crn_entries lines) = true) \/
     (exists msg, fst (load_crns lines w) = Raise (ValueError msg))).
Proof.
  unfold load_crns.
  destruct (crn_entries lines) as [|c cs] eqn:E.
  - unfold_monad. cbn. eexists.
    split; [reflexivity|]. split; [reflexivity|]. right. eexists. reflexivity.
  - destruct (filter (fun crn => negb (valid_crn crn)) (c :: cs)) eqn:Hf;
      unfold_monad; cbn; eexists;
      (split; [reflexivity|]); (split; [reflexivity|]).
    + left. split; [reflexivity|]. split; [discriminate|].
      apply (proj1 (filter_negb_nil valid_crn (c :: cs))). exact Hf.
    + right. eexists. reflexivity.
Qed.

Lemma load_config_outcomes (lines : list string) (w : World) :
  exists l,
    events (snd (load_config lines w)) = events w ++ l /\ boxes_of l = [] /\
    ((exists cfg, fst (load_config lines w) = Ok cfg /\
        filter (missing_field (read_config lines)) required_fields = []) \/
     (exists msg, fst (load_config lines w) = Raise (ValueError msg))).
Proof.
  unfold load_config.
  destruct (filter (missing_field (read_config lines)) required_fields)
    as [|m ms].
  - unfold datetime_now. unfold_monad.
    destruct (strptime_date _) as [date|];
      [| destruct (_ =? "true")%string ];
      cbn; eexists; (split; [rewrite <- ?app_assoc; reflexivity|]);
      (split; [reflexivity|]); left; eexists; split; reflexivity.
  - exists []. rewrite app_nil_r. split; [reflexivity|].
    split; [reflexivity|]. right. eexists. reflexivity.
Qed.

(** X13.  The loading part of [__init__] has two outcomes only: it
    returns a configuration without missing fields together with the
    entries of the CRN file, which are not empty and all valid, and shows
    no message box; or it exits with status 1 after showing exactly one
    error box that starts with "Initialization failed: ". *)
Theorem init_load_outcomes (config_file crns_file : list string) (w : World) :
  match init_load (load_config config_file) crns_file w with
  | (Ok (cfg, crns), w') =>
      filter (missing_field (read_config config_file)) required_fields = [] /\
      crns = crn_entries crns_file /\ crns <> [] /\
      forallb valid_crn crns = true /\
      boxes_of (new_events w w') = []
  | (Raise e, w') =>
      e = SystemExit 1 /\
      exists msg,
        boxes_of (new_events w w')
          = [(true, ("Initialization failed: " ++ msg)%string)]
  | (OutOfFuel, _) => False
  end.
Proof.
  unfold init_load, try_except_on, bind.
  destruct (load_config_outcomes config_file w) as (l1 & He1 & Hb1 & Hc).
  destruct (load_config config_file w) as [r1 w1]. cbn [fst snd] in *.
  destruct Hc as [(cfg & -> & Hm) | (msg & ->)].
  - destruct (load_crns_outcomes crns_file w1) as (l2 & He2 & Hb2 & Hc).
    destruct (load_crns crns_file w1) as [r2 w2]. cbn [fst snd] in *.
    assert (Hall : events w2 = events w ++ (l1 ++ l2))
      by (rewrite He2, He1, <- app_assoc; reflexivity).
    destruct Hc as [(-> & Hne & Hv) | (msg & ->)].
    + cbn. repeat split; auto.
      rewrite (new_events_app _ _ _ Hall), boxes_of_app, Hb1, Hb2. reflexivity.
    + cbn [catches_init]. unfold_monad. cbn. split; [reflexivity|]. exists msg.
      unfold new_events. cbn. rewrite Hall, <- !app_assoc.
      rewrite skipn_app, skipn_all, Nat.sub_diag. cbn [skipn app].
      rewrite !boxes_of_app, Hb1, Hb2. reflexivity.
  - cbn [catches_init]. unfold_monad. cbn. split; [reflexivity|]. exists msg.
    unfold new_events. cbn. rewrite He1, <- !app_assoc.
    rewrite skipn_app, skipn_all, Nat.sub_diag. cbn [skipn app].
    rewrite !boxes_of_app, Hb1. reflexivity.
Qed.


(** X14.  The configuration template the program writes on first run is
    rejected when read back unedited: [TERM_ID] and [TERM_TEXT] are
    reported missing, while the placeholder credentials count as values. *)
Theorem config_template_is_rejected (w : World) :
  Forall (fun key => str_upper key = key) template_keys ->
  load_config config_template w
  = (Raise (ValueError
              "Missing or empty required fields in config.txt: TERM_ID, TERM_TEXT"),
     w).
Proof.
  intros H. unfold template_keys in H.
  repeat match goal with
         | H : Forall _ (_ :: _) |- _ => inversion H; subst; clear H
         end.
  assert (Hr : read_config config_template
    = [("REGISTRATION_DATE", "2025-11-05"); ("THROTTLE_SPEED", "false");
       ("HEADLESS", "false"); ("TERM_TEXT", ""); ("TERM_ID", "");
       ("PIN", "your_pin_here"); ("PASSWORD", "your_password_here");
       ("USERNAME", "your_username_here")]).
  { cbv -[str_upper].
    repeat match goal with H : str_upper _ = _ |- _ => rewrite H; clear H end.
    reflexivity. }
  unfold load_config. rewrite Hr. reflexivity.
Qed.

End ConfigurationFacts.

(** X15.  A CRN file of nothing but comments starting in the first column
    and blank lines, such as the template the program writes, makes
    [load_crns] raise [ValueError] with the "crns.txt is empty" message. *)
Theorem load_crns_nothing_but_comments (lines : list string) (w : World) :
  Forall passed_over lines ->
  exists w',
    load_crns lines w
    = (Raise (ValueError "crns.txt is empty. Please add your CRNs."), w').
Proof.
  intros H.
  assert (He : crn_entries lines = []).
  { unfold crn_entries. induction H as [|line lines Hl _ IH]; [reflexivity|].
    cbn [filter]. destruct Hl as [Hc | Hb].
    - rewrite Hc, andb_false_r. exact IH.
    - rewrite (strip_all_spaces _ Hb). exact IH. }
  unfold load_crns. rewrite He. unfold_monad. cbn. eexists. reflexivity.
Qed.

(** ** The verdict of a run and the order of its steps *)

Lemma bind_out_of_fuel {A B} (c : M A) (k : A -> M B) w w1 :
  c w = (OutOfFuel, w1) -> bind c k w = (OutOfFuel, w1).
Proof. intros H. unfold bind. now rewrite H. Qed.

Section Verdict.
Context {P : Platform}.

Lemma coarse_body_others (tmb now : Z) (w : World) :
  other_workers (snd (coarse_body tmb now w)) = other_workers w.
Proof.
  unfold coarse_body, pick_sleep, time_sleep, datetime_now.
  unfold_monad. unfold seconds, half_second, usec_per_sec. cbn.
  destruct (30000000 <? tmb - now); [|destruct (5000000 <? tmb - now)];
    reflexivity.
Qed.

Lemma coarse_loop_shows_nothing (tmb : Z) (fuel : nat) :
  forall (now : Z) (w : World),
    (forall e, fst (coarse_loop fuel tmb now w) <> Raise e) /\
    exists evs,
      events (snd (coarse_loop fuel tmb now w)) = events w ++ evs /\
      steps_of evs = [] /\ boxes_of evs = [] /\
      browser (snd (coarse_loop fuel tmb now w)) = browser w /\
      other_workers (snd (coarse_loop fuel tmb now w)) = other_workers w.
Proof.
  induction fuel as [|fuel IH]; intros now w.
  - cbn. destruct (now <? tmb); cbn; (split; [discriminate|]);
      exists []; rewrite app_nil_r; auto.
  - destruct (Z.ltb_spec now tmb) as [Hlt|Hge].
    + pose proof (coarse_body_others tmb now w) as Ho.
      destruct (coarse_body_events tmb now w)
        as (w1 & status & Hb & Hev & Hst & Hn & Hbr & _).
      rewrite Hb in Ho. cbn [snd] in Ho.
      rewrite (coarse_loop_step _ _ _ _ _ _ Hlt Hb).
      destruct (IH (clock w1 + utcoffset) w1)
        as (Hnr & evs & He & Hs & Hx & Hb' & Ho').
      split; [exact Hnr|].
      exists (status ++ [EvSleep (sleep_duration (tmb - now))] ++ evs).
      rewrite He, Hev, <- !app_assoc. split; [reflexivity|].
      rewrite !steps_of_app, !boxes_of_app, Hs, Hx. cbn.
      destruct Hst as [-> | ->]; cbn; repeat split; congruence.
    + rewrite coarse_loop_exit by lia. split; [discriminate|].
      exists []. rewrite app_nil_r. auto.
Qed.

Lemma final_sync_returns (target_time : Z) (w : World) :
  exists w' evs,
    final_sync target_time w = (Ok tt, w') /\
    events w' = events w ++ evs /\
    steps_of evs = [] /\ boxes_of evs = [] /\ browser w' = browser w /\
    other_workers w' = other_workers w.
Proof.
  unfold final_sync, requests_head, parse_date, datetime_now, datetime_sub,
    time_sleep_checked, time_sleep.
  unfold_monad. cbn -[in_datetime_range].
  destruct (network w) as [|[m|[[|a s]|]] rest] eqn:En; cbn -[in_datetime_range].
  4: destruct (strptime (String a s)) as [server|]; cbn -[in_datetime_range].
  4: destruct (in_datetime_range _); cbn -[in_datetime_range].
  4: match goal with |- context [0 <? ?e] => destruct (0 <? e) end;
     cbn -[in_datetime_range].
  4: match goal with |- context [?e <? 0] => destruct (e <? 0) end;
     cbn -[in_datetime_range].
  5: match goal with |- context [sleep_max <? ?e] =>
       destruct (sleep_max <? e) end; cbn -[in_datetime_range].
  all: try match goal with |- context [0 <? ?e] => destruct (0 <? e) end;
    cbn -[in_datetime_range];
    eexists; eexists; (split; [reflexivity|]); cbn; rewrite <- ?app_assoc;
    (split; [reflexivity|]); cbn; repeat split; auto.
Qed.

Lemma fire_shows_nothing (w : World) :
  exists w' tail,
    fire w = (Ok tt, w') /\
    events w' = events w ++ tail /\
    steps_of tail = [SubmitPinForm] /\ boxes_of tail = [] /\
    browser w' = browser w /\ other_workers w' = other_workers w.
Proof.
  unfold fire, submit_pin_form, browser_step, log_submission_times,
    requests_head, datetime_now, parse_date, to_local_zone.
  unfold_monad. cbn.
  destruct (submit_pin_ok (browser w)); cbn;
    destruct (network w) as [|[m|[[|a s]|]] rest]; cbn;
    try (destruct (strptime (String a s)) as [t|]; cbn;
         [destruct (astimezone_local t); cbn|]);
    eexists; eexists; (split; [reflexivity|]); cbn; rewrite <- ?app_assoc;
    (split; [reflexivity|]); cbn; auto.
Qed.

(** The timed path never raises and shows no box; [submit_pin_form] is
    entered if and only if the wait comes to an end. *)
Lemma wait_and_fire_shape (fuel : nat) (target_time : Z) (w : World) :
  exists l,
    events (snd (wait_and_fire fuel target_time w)) = events w ++ l /\
    boxes_of l = [] /\
    browser (snd (wait_and_fire fuel target_time w)) = browser w /\
    other_workers (snd (wait_and_fire fuel target_time w))
      = other_workers w /\
    match fst (wait_and_fire fuel target_time w) with
    | Ok _ => steps_of l = [SubmitPinForm]
    | Raise _ => False
    | OutOfFuel => steps_of l = []
    end.
Proof.
  set (tmb := target_time - FINAL_POLL_BUFFER_SECONDS).
  set (wa := add_event (EvLog LInfo (LgTarget target_time))
               (add_event (EvStatus (StWaitingForDots target_time)) w)).
  set (w0 := set_clock (clock wa + hd 0 (latency wa)) (tl (latency wa)) wa).
  destruct (coarse_loop_shows_nothing tmb fuel (clock w0 + utcoffset) w0)
    as (Hnr & evs1 & He1 & Hs1 & Hx1 & Hb1 & Ho1).
  unfold wait_and_fire, _update_status_safe, logging. rewrite !bind_emit.
  fold wa.
  destruct (coarse_loop fuel tmb (clock w0 + utcoffset) w0)
    as [[[]|e|] w1] eqn:Hloop; cbn [fst snd] in *.
  - assert (Hcw : coarse_wait fuel target_time wa = (Ok tt, w1)) by exact Hloop.
    rewrite (bind_ok _ _ _ _ _ Hcw).
    rewrite !bind_emit.
    set (wb := add_event (EvLog LInfo LgReached)
                 (add_event (EvStatus StFinalSync) w1)).
    destruct (final_sync_returns target_time wb)
      as (w2 & evs2 & Hr2 & He2 & Hs2 & Hx2 & Hb2 & Ho2).
    rewrite (bind_ok _ _ _ _ _ Hr2).
    destruct (fire_shows_nothing w2)
      as (w3 & tail & Hr3 & He3 & Hs3 & Hx3 & Hb3 & Ho3).
    rewrite Hr3. cbn [fst snd].
    exists ([EvStatus (StWaitingForDots target_time);
             EvLog LInfo (LgTarget target_time)] ++ evs1
            ++ [EvStatus StFinalSync; EvLog LInfo LgReached] ++ evs2 ++ tail).
    split.
    { rewrite He3, He2. subst wb. cbn. rewrite He1. subst w0 wa. cbn.
      rewrite <- !app_assoc. reflexivity. }
    rewrite !boxes_of_app, !steps_of_app, Hx1, Hx2, Hx3, Hs1, Hs2, Hs3.
    split; [reflexivity|].
    split; [rewrite Hb3, Hb2; subst wb; cbn; rewrite Hb1; reflexivity|].
    split; [rewrite Ho3, Ho2; subst wb; cbn; rewrite Ho1; reflexivity|].
    reflexivity.
  - exfalso. exact (Hnr e eq_refl).
  - assert (Hcw : coarse_wait fuel target_time wa = (OutOfFuel, w1))
      by exact Hloop.
    rewrite (bind_out_of_fuel _ _ _ _ Hcw).
    cbn [fst snd].
    exists ([EvStatus (StWaitingForDots target_time);
             EvLog LInfo (LgTarget target_time)] ++ evs1).
    split.
    { rewrite He1. subst w0 wa. cbn. rewrite <- !app_assoc. reflexivity. }
    rewrite !boxes_of_app, !steps_of_app, Hx1, Hs1.
    split; [reflexivity|]. split; [rewrite Hb1; reflexivity|].
    split; [rewrite Ho1; reflexivity|]. reflexivity.
Qed.

Ltac shape_done :=
  cbn [fst snd]; eexists;
  (split; [cbn [events add_event set_driver]; rewrite <- ?app_assoc;
           cbn [app]; reflexivity|]);
  cbn [steps_of boxes_of];
  rewrite ?steps_of_app, ?boxes_of_app; cbn [steps_of boxes_of app].

(** What [registration_steps] shows and enters, by outcome. *)
Lemma registration_steps_shape (fuel : nat) (target_time : option Z)
    (w : World) :
  exists n l,
    events (snd (registration_steps fuel target_time w)) = events w ++ l /\
    steps_of l = firstn n pipeline_order /\
    other_workers (snd (registration_steps fuel target_time w))
      = other_workers w /\
    match fst (registration_steps fuel target_time w) with
    | Ok _ =>
        n = (if steps_succeed (browser w) then 8 else 7)%nat /\
        boxes_of l
        = [if steps_succeed (browser w)
           then (false, "Registration completed successfully!")
           else (true, "Registration failed or had errors. Check logs.")]
    | Raise e =>
        (n < 8)%nat /\
        is_Exception e = true /\ steps_succeed (browser w) = false /\
        Forall is_error_box (boxes_of l)
    | OutOfFuel => n = 4%nat /\ target_time <> None
    end.
Proof.
  unfold registration_steps, _update_status_safe.
  destruct (create_driver (browser w)) eqn:Hd.
  2,3: exists 1%nat; unfold _create_driver; unfold_monad; cbn; rewrite Hd; cbn;
    eexists; (split; [rewrite <- ?app_assoc; cbn [app]; reflexivity|]);
    cbn; (split; [reflexivity|]); (split; [reflexivity|]);
    (split; [lia|]); (split; [reflexivity|]);
    (split; [unfold steps_succeed; rewrite Hd; reflexivity|]);
    repeat constructor.
  rewrite (bind_ok _ _ _ _ _ (create_driver_ready w Hd)).
  status_step. unfold login.
  destruct (login_ok (browser w)) eqn:Hl.
  2: { exists 2%nat. step_failed Hl. shape_done. split; [reflexivity|].
       split; [reflexivity|].
       split; [lia|]. split; [reflexivity|]. split; [|constructor].
       unfold steps_succeed. rewrite Hd, Hl. reflexivity. }
  step_done Hl. status_step. unfold select_term.
  destruct (select_term_ok (browser w)) eqn:Ht.
  2: { exists 3%nat. step_failed Ht. shape_done. split; [reflexivity|].
       split; [reflexivity|].
       split; [lia|]. split; [reflexivity|]. split; [|constructor].
       unfold steps_succeed. rewrite Hd, Hl, Ht. reflexivity. }
  step_done Ht. status_step. unfold enter_pin_only.
  destruct (enter_pin_ok (browser w)) eqn:Hp.
  2: { exists 4%nat. step_failed Hp. shape_done. split; [reflexivity|].
       split; [reflexivity|].
       split; [lia|]. split; [reflexivity|]. split; [|constructor].
       unfold steps_succeed. rewrite Hd, Hl, Ht, Hp. reflexivity. }
  step_done Hp.
  match goal with
  | |- context [bind ?mid _ ?W] =>
      assert (Hmid : exists l5,
        events (snd (mid W)) = events w ++ l5 /\
        boxes_of l5 = [] /\ browser (snd (mid W)) = browser w /\
        other_workers (snd (mid W)) = other_workers w /\
        match fst (mid W) with
        | Ok _ => steps_of l5 = [CreateDriver; Login; SelectTerm; EnterPinOnly;
                                  SubmitPinForm]
        | Raise _ => False
        | OutOfFuel =>
            steps_of l5 = [CreateDriver; Login; SelectTerm; EnterPinOnly] /\
            target_time <> None
        end);
      [| destruct (mid W) as [[[]|e|] w5] eqn:Hw;
         destruct Hmid as (l5 & He5 & Hx5 & Hb5 & Ho5 & Hr5);
         cbn [fst snd] in * ]
  end.
  { destruct target_time as [t|].
    - match goal with |- context [wait_and_fire fuel t ?W] =>
        destruct (wait_and_fire_shape fuel t W)
          as (l4 & He4 & Hx4 & Hb4 & Ho4 & Hr4);
        destruct (wait_and_fire fuel t W) as [[[]|e|] w4]
      end; cbn [fst snd] in *; [| destruct Hr4 |];
        eexists;
        (split; [rewrite He4; cbn [events add_event set_driver];
                 rewrite <- ?app_assoc; cbn [app]; reflexivity|]);
        cbn [steps_of boxes_of]; rewrite ?steps_of_app, ?boxes_of_app, Hx4, Hr4;
        (split; [reflexivity|]); (split; [exact Hb4|]);
        (split; [exact Ho4|]);
        try split; try reflexivity; discriminate.
    - unfold submit_pin_form, _update_status_safe. rewrite bind_emit.
      destruct (submit_pin_ok (browser w)) eqn:Hs;
        [ erewrite bind_ok by (apply browser_step_done; exact Hs)
        | erewrite bind_ok by (apply browser_step_failed; exact Hs) ];
        rewrite ?bind_ret; unfold ret; cbn [fst snd];
        eexists;
        (split; [cbn [events add_event set_driver];
                 rewrite <- ?app_assoc; cbn [app]; reflexivity|]);
        cbn [steps_of boxes_of];
        (split; [reflexivity|]); (split; [reflexivity|]);
        split; reflexivity. }
  - (* the middle part returned *)
    rewrite (bind_ok _ _ _ _ _ Hw). status_step. unfold enter_crns.
    destruct (enter_crns_ok (browser w)) eqn:Hc.
    2: { assert (Hc5 : enter_crns_ok (browser w5) = false)
           by (rewrite Hb5; exact Hc).
         exists 6%nat.
         step_failed Hc5. cbn [fst snd]. eexists.
         split; [cbn [events add_event set_driver]; rewrite He5;
                 rewrite <- ?app_assoc; cbn [app]; reflexivity|].
         rewrite !steps_of_app, !boxes_of_app, Hx5, Hr5. cbn.
         split; [reflexivity|]. split; [exact Ho5|].
         split; [lia|]. split; [reflexivity|].
         split; [|constructor].
         unfold steps_succeed. rewrite Hd, Hl, Ht, Hp, Hc. reflexivity. }
    assert (Hc5 : enter_crns_ok (browser w5) = true)
      by (rewrite Hb5; exact Hc).
    step_done Hc5. status_step.
    unfold steps_succeed. rewrite Hd, Hl, Ht, Hp, Hc. cbn [andb].
    unfold submit_registration, verify_registration, time_sleep.
    unfold_monad. cbn. rewrite Hb5.
    destruct (save_click_ok (browser w)); cbn; rewrite ?Hb5;
      [exists 8%nat; destruct (verify_ok (browser w)); cbn | exists 7%nat];
      eexists;
      (split; [rewrite He5; rewrite <- ?app_assoc; cbn [app]; reflexivity|]);
      rewrite !steps_of_app, !boxes_of_app, Hx5, Hr5; cbn;
      (split; [reflexivity|]); (split; [exact Ho5|]); split; reflexivity.
  - destruct Hr5.
  - rewrite (bind_out_of_fuel _ _ _ _ Hw). cbn [fst snd].
    destruct Hr5 as [Hs5 Hn]. exists 4%nat, l5. split; [exact He5|].
    split; [rewrite Hs5; reflexivity|]. split; [exact Ho5|].
    split; [reflexivity | exact Hn].
Qed.

(** The [finally] block: what it does by what it finds in [self.driver]. *)
Lemma registration_cleanup_shape (w : World) :
  exists hold,
    events (snd (registration_cleanup w)) = events w ++ hold /\
    steps_of hold = [] /\ boxes_of hold = [] /\
    driver (snd (registration_cleanup w)) = false /\
    match fst (registration_cleanup w) with
    | Ok _ =>
        hold = [EvReenable] \/
        hold = [EvReenable;
                EvLog LInfo
                  (LgText "Registration thread finished. Waiting 30 seconds before closing browser...");
                EvSleep (seconds 600); EvDriverQuit]
    | Raise e =>
        e = quit_on_none /\ In (Some false) (other_workers w) /\
        hold = [EvReenable;
                EvLog LInfo
                  (LgText "Registration thread finished. Waiting 30 seconds before closing browser...");
                EvSleep (seconds 600)]
    | OutOfFuel => False
    end.
Proof.
  destruct w as [c lat net br drv others evs].
  unfold registration_cleanup, read_self_driver, time_sleep.
  unfold_monad. cbn.
  destruct others as [|[[|]|] [|[[|]|] rest]]; destruct drv; cbn;
    eexists; (split; [rewrite <- ?app_assoc; reflexivity|]); cbn;
    repeat split; auto.
Qed.

(** What a whole run shows and enters, and how it ends, by outcome. *)
Lemma run_registration_shape (fuel : nat) (target_time : option Z)
    (w : World) :
  exists n l hold,
    events (snd (run_registration fuel target_time w))
      = events w ++ l ++ hold /\
    steps_of l = firstn n pipeline_order /\
    steps_of hold = [] /\ boxes_of hold = [] /\
    match fst (run_registration fuel target_time w) with
    | Ok _ =>
        (Nat.eqb n 8 = steps_succeed (browser w) /\
         verdict_shown (browser w) (boxes_of l)) /\
        driver (snd (run_registration fuel target_time w)) = false /\
        (hold = [EvReenable] \/
         hold = [EvReenable;
                 EvLog LInfo
                   (LgText "Registration thread finished. Waiting 30 seconds before closing browser...");
                 EvSleep (seconds 600); EvDriverQuit])
    | Raise e =>
        (Nat.eqb n 8 = steps_succeed (browser w) /\
         verdict_shown (browser w) (boxes_of l)) /\
        driver (snd (run_registration fuel target_time w)) = false /\
        e = quit_on_none /\ In (Some false) (other_workers w) /\
        hold = [EvReenable;
                EvLog LInfo
                  (LgText "Registration thread finished. Waiting 30 seconds before closing browser...");
                EvSleep (seconds 600)]
    | OutOfFuel => n = 4%nat /\ hold = [] /\ target_time <> None
    end.
Proof.
  destruct (registration_steps_shape fuel target_time w)
    as (n & l & He & Hs & Ho & Hr).
  unfold run_registration, try_finally, try_except, try_except_on.
  destruct (registration_steps fuel target_time w) as [[[]|e|] w1];
    cbn [fst snd] in *.
  - destruct (registration_cleanup_shape w1)
      as (hold & Hev & Hsh & Hbh & Hdr & Hc).
    unfold bind, ret, raise.
    destruct (registration_cleanup w1) as [[[]|e|] w'];
      cbn [fst snd] in *; [| |destruct Hc].
    all: exists n, l, hold; rewrite Hev, He, <- app_assoc;
      (split; [reflexivity|]); (split; [exact Hs|]);
      (split; [exact Hsh|]); (split; [exact Hbh|]);
      destruct Hr as [Hn Hb]; unfold verdict_shown;
      rewrite <- ?Ho; repeat split; try tauto;
      destruct (steps_succeed (browser w)); rewrite ?Hb; subst n;
      try reflexivity; try tauto;
      (split; [discriminate | repeat constructor]).
  - destruct Hr as (Hn & Hexc & Hfail & Hall). rewrite Hexc.
    unfold logging, _update_status_safe, _show_message_safe.
    rewrite !bind_emit. unfold emit. cbv beta iota.
    set (msg := ("Error: " ++ str_exn e)%string).
    set (wh := add_event (EvShow true "Error" msg)
                 (add_event (EvStatus (StText msg))
                    (add_event (EvLog LError (LgThreadError e)) w1))).
    assert (Hn8 : Nat.eqb n 8 = false) by (apply Nat.eqb_neq; lia).
    assert (Hbx : boxes_of l ++ [(true, msg)] <> [])
      by (destruct (boxes_of l); discriminate).
    assert (Hfa : Forall is_error_box (boxes_of l ++ [(true, msg)])).
    { apply Forall_app. split; [exact Hall|].
      apply Forall_cons; [reflexivity | apply Forall_nil]. }
    assert (Hwh : events wh
                  = events w ++ l ++ [EvLog LError (LgThreadError e);
                                      EvStatus (StText msg);
                                      EvShow true "Error" msg]).
    { subst wh. cbn [events add_event]. rewrite He, <- !app_assoc.
      reflexivity. }
    assert (Hoh : other_workers wh = other_workers w)
      by (subst wh; cbn [other_workers add_event]; exact Ho).
    destruct (registration_cleanup_shape wh)
      as (hold & Hev & Hsh & Hbh & Hdr & Hc).
    rewrite Hoh in Hc. clearbody wh.
    unfold bind, ret, raise.
    destruct (registration_cleanup wh) as [[[]|e'|] w'];
      cbn [fst snd] in *; [| |destruct Hc].
    all: exists n, (l ++ [EvLog LError (LgThreadError e);
                          EvStatus (StText msg);
                          EvShow true "Error" msg]), hold;
      (split; [rewrite Hev, Hwh, <- !app_assoc; reflexivity|]);
      rewrite !steps_of_app, !boxes_of_app; cbn [steps_of boxes_of];
      rewrite app_nil_r;
      (split; [exact Hs|]); (split; [exact Hsh|]); (split; [exact Hbh|]);
      unfold verdict_shown; rewrite Hfail; tauto.
  - exists n, l, []. rewrite app_nil_r. destruct Hr as [Hn Ht].
    repeat split; auto.
Qed.

(** X4.  Every run of [run_registration] that ends leaves [self.driver]
    unset.  It ends normally after the queued re-enabling of the buttons
    when it finds no driver, or after the re-enabling, the 600 s hold and
    [quit()] on the driver it then finds in [self.driver]; and it ends by
    the [AttributeError] of [None.quit()], after the re-enabling and the
    hold, when another worker has unset [self.driver] meanwhile. *)
Theorem run_registration_releases_driver (fuel : nat)
    (target_time : option Z) (w : World) :
  match run_registration fuel target_time w with
  | (OutOfFuel, _) => True
  | (Ok _, w') =>
      driver w' = false /\
      exists before,
        events w' = before ++ [EvReenable] \/
        events w' =
          before
          ++ [EvReenable;
              EvLog LInfo
                (LgText "Registration thread finished. Waiting 30 seconds before closing browser...");
              EvSleep (seconds 600); EvDriverQuit]
  | (Raise e, w') =>
      driver w' = false /\ e = quit_on_none /\
      In (Some false) (other_workers w) /\
      exists before,
        events w' =
          before
          ++ [EvReenable;
              EvLog LInfo
                (LgText "Registration thread finished. Waiting 30 seconds before closing browser...");
              EvSleep (seconds 600)]
  end.
Proof.
  destruct (run_registration_shape fuel target_time w)
    as (n & l & hold & He & _ & _ & _ & Hr).
  destruct (run_registration fuel target_time w) as [[[]|e|] w'];
    cbn [fst snd] in *; [| |exact I].
  - destruct Hr as (_ & Hd & Hh). split; [exact Hd|].
    exists (events w ++ l). rewrite He, app_assoc.
    destruct Hh as [-> | ->]; auto.
  - destruct Hr as (_ & Hd & -> & Hin & ->).
    repeat split; auto. exists (events w ++ l). rewrite He, app_assoc.
    reflexivity.
Qed.

(** X16.  "Start Immediately" always comes to an end, and
    [run_registration] raises nothing but the [AttributeError] of
    [None.quit()] in its [finally], which takes another worker to have
    unset [self.driver].  A run that ends, either way, has shown the
    success box, and nothing else, exactly when setting up the driver,
    [login], [select_term], [enter_pin_only], [enter_crns] and the click on
    the save button all succeed, whatever [submit_pin_form] and
    [verify_registration] return; in every other run that ends it has
    shown error boxes only, at least one. *)
Theorem run_registration_verdict (fuel : nat) (target_time : option Z)
    (w : World) :
  match run_registration fuel target_time w with
  | (Ok _, w') => verdict_shown (browser w) (boxes_of (new_events w w'))
  | (Raise e, w') =>
      e = quit_on_none /\ In (Some false) (other_workers w) /\
      verdict_shown (browser w) (boxes_of (new_events w w'))
  | (OutOfFuel, _) => target_time <> None
  end.
Proof.
  destruct (run_registration_shape fuel target_time w)
    as (n & l & hold & He & _ & _ & Hbh & Hr).
  destruct (run_registration fuel target_time w) as [[[]|e|] w'];
    cbn [fst snd] in *.
  - rewrite (new_events_app _ _ _ He), boxes_of_app, Hbh, app_nil_r. tauto.
  - rewrite (new_events_app _ _ _ He), boxes_of_app, Hbh, app_nil_r. tauto.
  - tauto.
Qed.

(** X17.  The pipeline methods are entered in one fixed order, each at
    most once and none skipped: what a run has entered is always a prefix
    of [CreateDriver, Login, SelectTerm, EnterPinOnly, SubmitPinForm,
    EnterCrns, SubmitRegistration, VerifyRegistration].  A run that ends,
    normally or by the exception of its [finally], has gone through all
    eight exactly when the steps needed for the success message succeed; a
    run still waiting has entered the first four. *)
Theorem run_registration_step_order (fuel : nat) (target_time : option Z)
    (w : World) :
  exists n : nat,
    steps_of (new_events w (snd (run_registration fuel target_time w)))
    = firstn n pipeline_order /\
    match fst (run_registration fuel target_time w) with
    | Ok _ | Raise _ => Nat.eqb n 8 = steps_succeed (browser w)
    | OutOfFuel => n = 4%nat
    end.
Proof.
  destruct (run_registration_shape fuel target_time w)
    as (n & l & hold & He & Hs & Hsh & _ & Hr).
  exists n. rewrite (new_events_app _ _ _ He), steps_of_app, Hsh, app_nil_r.
  split; [exact Hs|].
  destruct (fst (run_registration fuel target_time w)); tauto.
Qed.

End Verdict.

(** ** [wait_for_server_ready] *)

Section ServerReadyFacts.
Context {P : Platform}.

Lemma poll_server_returns (target : Z) (w : World) :
  nonneg (latency w) ->
  exists reached w' evs,
    poll_server target w = (Ok reached, w') /\
    events w' = events w ++ evs /\
    heads evs = 1%nat /\ sleeps evs = [] /\
    nonneg (latency w') /\ clock w <= clock w' /\
    network w' = tl (network w).
Proof.
  intros Hlat. pose proof (hd_nonneg _ Hlat) as H0.
  pose proof (tl_nonneg _ Hlat) as H1.
  unfold poll_server, requests_head, parse_date. unfold_monad. cbn.
  destruct (network w) as [|[m|[[|a s]|]] rest] eqn:En; cbn.
  4: destruct (strptime (String a s)) as [server|]; cbn;
     [destruct (target <=? server); cbn|].
  all: eexists; eexists; eexists; (split; [reflexivity|]); cbn;
    rewrite <- ?app_assoc; (split; [reflexivity|]); cbn;
    repeat split; auto; lia.
Qed.

Lemma poll_loop_eq (fuel : nat) (target end_time poll : Z) (w : World) :
  poll_loop fuel target end_time poll w
  = (now <- utcnow ;;
     if now <? end_time then
       match fuel with
       | O => out_of_fuel
       | S fuel' =>
           reached <- poll_server target ;;
           if reached then ret PyTrue
           else time_sleep_checked poll ;;;
                poll_loop fuel' target end_time poll
       end
     else
       logging LWarning
         (LgText "Timeout reached while waiting for server time.") ;;;
       ret PyNone) w.
Proof. destruct fuel; reflexivity. Qed.

(** The loop ends by [return True], by the timeout, or by the
    [OverflowError] of a [poll_frequency] that [time.sleep] refuses. *)
Lemma poll_loop_terminates (target end_time poll : Z) :
  0 < poll ->
  forall (k fuel : nat) (w : World),
    nonneg (latency w) ->
    end_time - clock w <= Z.of_nat k * poll ->
    (k <= fuel)%nat ->
    exists r w' evs,
      poll_loop fuel target end_time poll w = (r, w') /\
      (r = Ok PyTrue \/ r = Ok PyNone \/
       exists msg, r = Raise (OverflowError msg)) /\
      events w' = events w ++ evs /\
      (heads evs <= k)%nat /\
      Forall (fun d => d = poll) (sleeps evs) /\
      (List.length (sleeps evs) <= k)%nat.
Proof.
  intros Hpoll. induction k as [|k IH]; intros fuel w Hlat Hend Hfuel;
    pose proof (hd_nonneg _ Hlat) as H0;
    rewrite poll_loop_eq; unfold utcnow, tick, read_clock;
    unfold bind at 1; unfold bind at 1; cbn [clock set_clock].
  - destruct (Z.ltb_spec (clock w + hd 0 (latency w)) end_time) as [Hlt|Hge];
      [lia|].
    unfold_monad. cbn. eexists; eexists; eexists.
    split; [reflexivity|]. split; [auto|]. cbn.
    split; [reflexivity|]. cbn. repeat split; auto.
  - destruct (Z.ltb_spec (clock w + hd 0 (latency w)) end_time) as [Hlt|Hge].
    + destruct fuel as [|fuel]; [lia|].
      set (w1 := set_clock (clock w + hd 0 (latency w)) (tl (latency w)) w).
      assert (Hl1 : nonneg (latency w1)) by (apply tl_nonneg, Hlat).
      destruct (poll_server_returns target w1 Hl1)
        as (reached & w2 & evs2 & Hr2 & He2 & Hh2 & Hs2 & Hl2 & Hc2 & _).
      rewrite (bind_ok _ _ _ _ _ Hr2).
      destruct reached.
      * exists (Ok PyTrue), w2, evs2. split; [reflexivity|]. split; [auto|].
        split; [exact He2|]. rewrite Hh2, Hs2. cbn.
        repeat split; auto; lia.
      * unfold time_sleep_checked.
        destruct (Z.ltb_spec poll 0) as [Hneg|_]; [lia|].
        destruct (Z.ltb_spec sleep_max poll) as [Hbig|Hfits].
        { rewrite bind_raise. eexists; exists w2, evs2.
          split; [reflexivity|]. split; [right; right; eexists; reflexivity|].
          split; [exact He2|]. rewrite Hh2, Hs2. cbn.
          repeat split; auto; lia. }
        set (w3 := set_clock (clock w2 + poll + hd 0 (latency w2))
                     (tl (latency w2)) (add_event (EvSleep poll) w2)).
        assert (Hsl : time_sleep poll w2 = (Ok tt, w3)) by reflexivity.
        rewrite (bind_ok _ _ _ _ _ Hsl).
        pose proof (hd_nonneg _ Hl2) as H2.
        destruct (IH fuel w3) as (r & w' & evs & Hr & Hv & He & Hh & Hs & Hn).
        { subst w3. cbn. apply tl_nonneg, Hl2. }
        { rewrite Nat2Z.inj_succ, Z.mul_succ_l in Hend.
          subst w3 w1. cbn [clock set_clock add_event] in *. lia. }
        { lia. }
        exists r, w', (evs2 ++ [EvSleep poll] ++ evs).
        split; [exact Hr|]. split; [exact Hv|].
        split; [rewrite He; subst w3; cbn; rewrite He2; subst w1; cbn;
                rewrite <- !app_assoc; reflexivity|].
        rewrite !heads_app, !sleeps_app, !length_app, Hh2, Hs2. cbn.
        repeat split; [lia | constructor; auto | lia].
    + unfold_monad. cbn. eexists; eexists; eexists.
      split; [reflexivity|]. split; [auto|]. cbn.
      split; [reflexivity|]. cbn. repeat split; auto; lia.
Qed.

Lemma max_polls_covers (poll timeout : Z) :
  0 < poll -> timeout <= Z.of_nat (max_polls poll timeout) * poll.
Proof.
  intros Hp. unfold max_polls.
  destruct (Z.le_gt_cases timeout 0) as [Hle|Hgt]; [nia|].
  rewrite Z2Nat.id by (apply Z.div_pos; lia).
  pose proof (Z.div_mod (timeout + poll - 1) poll ltac:(lia)) as Hd.
  pose proof (Z.mod_pos_bound (timeout + poll - 1) poll Hp) as Hm.
  nia.
Qed.

(** One poll takes one answer of the server, and reports the target
    reached only on a [Date] header that says so. *)
Lemma poll_server_sound (target : Z) (w : World) :
  exists reached w' evs,
    poll_server target w = (Ok reached, w') /\
    events w' = events w ++ evs /\
    heads evs = 1%nat /\ sleeps evs = [] /\
    network w' = tl (network w) /\
    (reached = true ->
     exists s t,
       network w = HeadResponse (Some s) :: network w' /\
       s <> EmptyString /\ strptime s = Some t /\ target <= t).
Proof.
  unfold poll_server, requests_head, parse_date. unfold_monad. cbn.
  destruct (network w) as [|[m|[[|a s]|]] rest] eqn:En; cbn.
  4: destruct (strptime (String a s)) as [server|] eqn:Es; cbn;
     [destruct (Z.leb_spec target server); cbn|].
  all: eexists; eexists; eexists; (split; [reflexivity|]); cbn;
    rewrite <- ?app_assoc; (split; [reflexivity|]); cbn;
    repeat split; auto; try discriminate.
  intros _. exists (String a s), server. repeat split; auto. discriminate.
Qed.

Lemma poll_loop_true (target end_time poll : Z) (fuel : nat) :
  forall (w w' : World),
    poll_loop fuel target end_time poll w = (Ok PyTrue, w') ->
    exists used s t,
      network w = used ++ HeadResponse (Some s) :: network w' /\
      s <> EmptyString /\ strptime s = Some t /\ target <= t.
Proof.
  induction fuel as [|fuel IH]; intros w w' H; rewrite poll_loop_eq in H;
    unfold utcnow, tick, read_clock in H;
    unfold bind at 1 in H; unfold bind at 1 in H; cbn [clock set_clock] in H;
    destruct (clock w + hd 0 (latency w) <? end_time);
    try (unfold_monad; cbn in H; discriminate).
  set (w1 := set_clock (clock w + hd 0 (latency w)) (tl (latency w)) w) in *.
  destruct (poll_server_sound target w1)
    as (reached & w2 & evs2 & Hr2 & _ & _ & _ & Hn2 & Hs2).
  rewrite (bind_ok _ _ _ _ _ Hr2) in H.
  destruct reached.
  - injection H as <-. destruct (Hs2 eq_refl) as (s & t & Hn & Hne & Hp & Ht).
    exists [], s, t. repeat split; auto.
  - unfold time_sleep_checked in H.
    destruct (poll <? 0); [unfold_monad; discriminate|].
    destruct (sleep_max <? poll); [unfold_monad; discriminate|].
    set (w3 := set_clock (clock w2 + poll + hd 0 (latency w2))
                 (tl (latency w2)) (add_event (EvSleep poll) w2)) in *.
    assert (Hsl : time_sleep poll w2 = (Ok tt, w3)) by reflexivity.
    rewrite (bind_ok _ _ _ _ _ Hsl) in H.
    destruct (IH w3 w' H) as (used & s & t & Hn & Hne & Hp & Ht).
    assert (Hn3 : network w3 = tl (network w)) by (subst w3 w1; exact Hn2).
    rewrite Hn3 in Hn.
    destruct (network w) as [|x rest] eqn:En.
    + destruct used; discriminate.
    + exists (x :: used), s, t. cbn in Hn. rewrite Hn. repeat split; auto.
Qed.

(** X18.  [wait_for_server_ready] returns [True] for two reasons only:
    the first response has no [Date] header, or the last response it
    polled carries a [Date] header whose time is not before the target
    moved by the offset measured at the first response (server time minus
    local UTC time). *)
Theorem wait_for_server_ready_true_is_earned (fuel : nat)
    (target_time_local poll_frequency timeout : Z) (w w' : World) :
  wait_for_server_ready fuel target_time_local poll_frequency timeout w
    = (Ok PyTrue, w') ->
  (exists h rest,
     network w = HeadResponse h :: rest /\ header_present h = None) \/
  (exists s0 server0 used s t,
     network w
       = HeadResponse (Some s0) :: used ++ HeadResponse (Some s) :: network w' /\
     strptime s0 = Some server0 /\ strptime s = Some t /\
     localize target_time_local - (server0 - clock_after 2 w) <= t).
Proof.
  intros H.
  unfold wait_for_server_ready, requests_head, parse_date, datetime_sub in H.
  unfold_monad. cbn -[in_datetime_range] in H.
  destruct (network w) as [|[m|[[|a s]|]] rest] eqn:En;
    cbn -[in_datetime_range] in H; try discriminate.
  - left. exists (Some EmptyString), rest. auto.
  - destruct (strptime (String a s)) as [server|] eqn:Es;
      cbn -[in_datetime_range] in H; [|discriminate].
    destruct (in_datetime_range _); cbn -[in_datetime_range] in H;
      [|discriminate].
    match type of H with
    | context [poll_loop fuel ?T ?E poll_frequency ?W] =>
        destruct (poll_loop fuel T E poll_frequency W) as [[v|e|] w5] eqn:Hl
    end.
    + injection H as -> ->. apply poll_loop_true in Hl.
      destruct Hl as (used & s1 & t & Hn & _ & Hp & Ht). cbn in Hn.
      right. exists (String a s), server, used, s1, t.
      rewrite Hn. unfold clock_after. cbn [elapsed].
      repeat split; auto.
    + destruct (is_Exception e); cbn in H; discriminate.
    + discriminate.
  - left. exists None, rest. auto.
Qed.

(** X19.  With a positive [poll_frequency], on a clock that does not run
    backwards, [wait_for_server_ready] comes to an end without raising:
    it returns [True] or [None] after at most
    ceil([timeout] / [poll_frequency]) polls (none when [timeout] is not
    positive) besides the first request, sleeping [poll_frequency] between
    them. *)
Theorem wait_for_server_ready_terminates
    (target_time_local poll_frequency timeout : Z) (w : World) :
  0 < poll_frequency ->
  nonneg (latency w) ->
  forall fuel, (max_polls poll_frequency timeout <= fuel)%nat ->
    exists v w',
      wait_for_server_ready fuel target_time_local poll_frequency timeout w
        = (Ok v, w') /\
      (v = PyTrue \/ v = PyNone) /\
      (heads (new_events w w') <= S (max_polls poll_frequency timeout))%nat /\
      Forall (fun d => d = poll_frequency) (sleeps (new_events w w')) /\
      (List.length (sleeps (new_events w w'))
       <= max_polls poll_frequency timeout)%nat.
Proof.
  intros Hpoll Hlat fuel Hfuel.
  pose proof (max_polls_covers poll_frequency timeout Hpoll) as Hcov.
  unfold wait_for_server_ready, requests_head, parse_date, datetime_sub.
  unfold_monad. cbn -[in_datetime_range].
  destruct (network w) as [|[m|[[|a s]|]] rest] eqn:En;
    cbn -[in_datetime_range].
  4: destruct (strptime (String a s)) as [server|] eqn:Es;
     cbn -[in_datetime_range].
  4: destruct (in_datetime_range _); cbn -[in_datetime_range].
  4: { match goal with
       | |- context [poll_loop fuel ?T ?E poll_frequency ?W] =>
           destruct (poll_loop_terminates T E poll_frequency Hpoll
                       (max_polls poll_frequency timeout) fuel W)
             as (r & w5 & evs & Hr & Hv & He & Hh & Hs & Hn)
       end.
       { cbn. repeat apply tl_nonneg. exact Hlat. }
       { cbn. lia. }
       { exact Hfuel. }
       rewrite Hr.
       cbn in He. rewrite <- !app_assoc in He. cbn in He.
       destruct Hv as [-> | [-> | (msg & ->)]].
       - exists PyTrue, w5. split; [reflexivity|]. split; [auto|].
         rewrite (new_events_app _ _ _ He). cbn.
         repeat split; auto; lia.
       - exists PyNone, w5. split; [reflexivity|]. split; [auto|].
         rewrite (new_events_app _ _ _ He). cbn.
         repeat split; auto; lia.
       - cbn. eexists; eexists. split; [reflexivity|]. split; [auto|].
         assert (Hall : events
                   (add_event
                      (EvLog LError (LgText "Error in wait_for_server_ready"))
                      w5)
                 = events w ++ _)
           by (cbn; rewrite He, <- app_assoc; reflexivity).
         rewrite (new_events_app _ _ _ Hall). cbn.
         rewrite heads_app, sleeps_app, length_app. cbn.
         rewrite app_nil_r, Nat.add_0_r.
         repeat split; auto; lia. }
  all: eexists; eexists; (split; [reflexivity|]); (split; [auto|]);
    unfold new_events; cbn; rewrite <- ?app_assoc;
    rewrite skipn_app, skipn_all, Nat.sub_diag; cbn;
    repeat split; auto; lia.
Qed.

(** X20.  A negative [poll_frequency] does not make
    [wait_for_server_ready] raise: the [ValueError] of [time.sleep] is
    swallowed by the outer handler, so the function returns after at most
    one poll besides the first request, without having slept. *)
Theorem wait_for_server_ready_negative_poll (fuel : nat)
    (target_time_local poll_frequency timeout : Z) (w : World) :
  poll_frequency < 0 ->
  (1 <= fuel)%nat ->
  exists v w',
    wait_for_server_ready fuel target_time_local poll_frequency timeout w
      = (Ok v, w') /\
    (v = PyTrue \/ v = PyNone) /\
    (heads (new_events w w') <= 2)%nat /\
    sleeps (new_events w w') = [].
Proof.
  intros Hpoll Hfuel. destruct fuel as [|fuel]; [lia|].
  unfold wait_for_server_ready, requests_head, parse_date, datetime_sub.
  unfold_monad. cbn -[poll_loop in_datetime_range].
  destruct (network w) as [|[m|[[|a s]|]] rest] eqn:En;
    cbn -[poll_loop in_datetime_range].
  4: destruct (strptime (String a s)) as [server|] eqn:Es;
     cbn -[poll_loop in_datetime_range].
  4: destruct (in_datetime_range _); cbn -[poll_loop in_datetime_range].
  4: { rewrite poll_loop_eq. unfold utcnow, tick, read_clock.
       unfold bind at 1. unfold bind at 1. cbn [clock set_clock].
       match goal with |- context [?a <? ?b] => destruct (a <? b) end.
       - match goal with
         | |- context [bind (poll_server ?T) _ ?W] =>
             destruct (poll_server_sound T W)
               as (reached & w2 & evs2 & Hr2 & He2 & Hh2 & Hs2 & _)
         end.
         rewrite (bind_ok _ _ _ _ _ Hr2).
         cbn in He2. rewrite <- !app_assoc in He2. cbn in He2.
         destruct reached.
         + unfold ret. exists PyTrue, w2. split; [reflexivity|].
           split; [auto|]. rewrite (new_events_app _ _ _ He2). cbn.
           rewrite Hh2, Hs2. split; [lia | reflexivity].
         + unfold time_sleep_checked.
           destruct (Z.ltb_spec poll_frequency 0) as [_|Hge]; [|lia].
           unfold_monad. cbn. eexists; eexists. split; [reflexivity|].
           split; [auto|].
           assert (Hall : events
                     (add_event
                        (EvLog LError (LgText "Error in wait_for_server_ready"))
                        w2)
                   = events w ++ _)
             by (cbn; rewrite He2, <- app_assoc; reflexivity).
           rewrite (new_events_app _ _ _ Hall). cbn.
           rewrite heads_app, sleeps_app, Hh2, Hs2. cbn.
           split; [lia | reflexivity].
       - unfold_monad. cbn. eexists; eexists. split; [reflexivity|].
         split; [auto|]. unfold new_events; cbn; rewrite <- ?app_assoc.
         rewrite skipn_app, skipn_all, Nat.sub_diag. cbn.
         split; [lia | reflexivity]. }
  all: eexists; eexists; (split; [reflexivity|]); (split; [auto|]);
    unfold new_events; cbn; rewrite <- ?app_assoc;
    rewrite skipn_app, skipn_all, Nat.sub_diag; cbn;
    split; [lia | reflexivity].
Qed.

End ServerReadyFacts.

(** ** The start buttons *)

(** X21.  In every state the main loop and the worker threads can reach,
    at most one worker is inside its pipeline (the [try] body of
    [run_registration]), and while one is, a click on either start button
    changes nothing. *)
Theorem one_pipeline_at_a_time (acts : list Threads.Action) :
  let a := Threads.run acts Threads.initial in
  (Threads.count_workers Threads.in_pipeline a <= 1)%nat /\
  (Threads.count_workers Threads.in_pipeline a = 0%nat \/
   (Threads.step Threads.ClickStartAtTime a = a /\
    Threads.step Threads.ClickStartImmediately a = a)).
Proof.
  intros a.
  destruct (ThreadsFacts.run_guarded acts _ ThreadsFacts.initial_guarded)
    as [_ [H0|(H1 & Hb1 & Hb2 & _)]]; fold a in H0 || fold a in H1, Hb1, Hb2.
  - split; [lia | left; exact H0].
  - split; [lia | right]. cbn. rewrite Hb1, Hb2. split; reflexivity.
Qed.

(** ** Concrete runs of the further properties *)

Lemma wait_and_fire_terminates_witness :
  nonneg (latency jitter_world) /\
  exists fuel0,
    forall fuel, (fuel0 <= fuel)%nat ->
      exists w',
        @wait_and_fire est_platform fuel target_0730_25 jitter_world
          = (Ok tt, w') /\
        steps_of (new_events jitter_world w') = [SubmitPinForm] /\
        heads (new_events jitter_world w') = 2%nat.
Proof.
  assert (H : nonneg (latency jitter_world))
    by (repeat constructor; vm_compute; discriminate).
  split; [exact H|].
  exact (@wait_and_fire_terminates est_platform target_0730_25 jitter_world H).
Defined.

Lemma final_sync_never_early_witness :
  nonneg (latency sync_world) /\
  exists w',
    @final_sync est_platform target_0730_25 sync_world = (Ok tt, w') /\
    @aimed_instant est_platform target_0730_25 sync_world <= clock w'.
Proof.
  assert (H : nonneg (latency sync_world))
    by (repeat constructor; vm_compute; discriminate).
  split; [exact H|].
  exact (@final_sync_never_early est_platform target_0730_25 sync_world H).
Defined.

Lemma replace_time_same_day_witness :
  in_range 0 23 7 && in_range 0 59 30 && in_range 0 59 0 = true /\
  replace_time local_072959 7 30 0 / usec_per_day
    = local_072959 / usec_per_day /\
  replace_time local_072959 7 30 0 mod usec_per_day
    = seconds (7 * 3600 + 30 * 60 + 0) /\
  replace_time local_072959 7 30 0 mod usec_per_sec = 0.
Proof.
  split; [reflexivity|].
  exact (replace_time_same_day local_072959 7 30 0 eq_refl).
Defined.

Lemma load_crns_reads_back_witness :
  three_crns <> [] /\
  forallb valid_crn three_crns = true /\
  exists w',
    load_crns (map (fun crn => (crn ++ newline)%string) three_crns)
      (world_at 0 [] [] all_ok) = (Ok three_crns, w').
Proof.
  assert (H : three_crns <> []) by discriminate.
  split; [exact H|]. split; [reflexivity|].
  exact (load_crns_reads_back three_crns (world_at 0 [] [] all_ok) H eq_refl).
Defined.

Lemma load_crns_indented_comment_witness :
  In ("  " ++ String "#" (" note" ++ newline))%string indented_comment_file /\
  "  " <> EmptyString /\
  forallb isspace (list_ascii_of_string "  ") = true /\
  exists msg w',
    load_crns indented_comment_file (world_at 0 [] [] all_ok)
      = (Raise (ValueError msg), w').
Proof.
  assert (H1 : In ("  " ++ String "#" (" note" ++ newline))%string
                 indented_comment_file) by (right; left; reflexivity).
  assert (H2 : "  " <> EmptyString) by discriminate.
  split; [exact H1|]. split; [exact H2|]. split; [reflexivity|].
  exact (load_crns_indented_comment indented_comment_file "  "
           (" note" ++ newline)%string (world_at 0 [] [] all_ok) H1 H2 eq_refl).
Defined.

Lemma load_config_skips_lines_witness :
  carries_nothing indented_comment /\
  @load_config est_platform ascii_text
    (firstn 2 filled_config ++ indented_comment :: skipn 2 filled_config)
    (world_at 0 [] [] all_ok)
  = @load_config est_platform ascii_text
      (firstn 2 filled_config ++ skipn 2 filled_config)
      (world_at 0 [] [] all_ok).
Proof.
  assert (H : carries_nothing indented_comment).
  { right. left. exists "   ", (" my notes" ++ newline)%string.
    split; reflexivity. }
  split; [exact H|].
  exact (@load_config_skips_lines est_platform ascii_text
           (firstn 2 filled_config) (skipn 2 filled_config) indented_comment
           (world_at 0 [] [] all_ok) H).
Defined.

Lemma config_template_is_rejected_witness :
  Forall (fun key => @str_upper ascii_text key = key) template_keys /\
  @load_config est_platform ascii_text config_template
    (world_at 0 [] [] all_ok)
  = (Raise (ValueError
              "Missing or empty required fields in config.txt: TERM_ID, TERM_TEXT"),
     world_at 0 [] [] all_ok).
Proof.
  assert (H : Forall (fun key => @str_upper ascii_text key = key)
                template_keys) by (repeat constructor).
  split; [exact H|].
  exact (@config_template_is_rejected est_platform ascii_text
           (world_at 0 [] [] all_ok) H).
Defined.

Lemma load_crns_nothing_but_comments_witness :
  Forall passed_over crns_template /\
  exists w',
    load_crns crns_template (world_at 0 [] [] all_ok)
    = (Raise (ValueError "crns.txt is empty. Please add your CRNs."), w').
Proof.
  assert (H : Forall passed_over crns_template)
    by (repeat constructor; left; reflexivity).
  split; [exact H|].
  exact (load_crns_nothing_but_comments crns_template
           (world_at 0 [] [] all_ok) H).
Defined.

Lemma wait_for_server_ready_true_is_earned_witness :
  @wait_for_server_ready est_platform 1 local_0730 100000 (seconds 300)
    polled_world
  = (Ok PyTrue,
     snd (@wait_for_server_ready est_platform 1 local_0730 100000
            (seconds 300) polled_world)) /\
  ((exists h rest,
      network polled_world = HeadResponse h :: rest /\
      header_present h = None) \/
   (exists s0 server0 used s t,
      network polled_world
        = HeadResponse (Some s0) :: used ++ HeadResponse (Some s)
            :: network (snd (@wait_for_server_ready est_platform 1 local_0730
                               100000 (seconds 300) polled_world)) /\
      @strptime est_platform s0 = Some server0 /\
      @strptime est_platform s = Some t /\
      @localize est_platform local_0730
        - (server0 - clock_after 2 polled_world) <= t)).
Proof.
  assert (H : @wait_for_server_ready est_platform 1 local_0730 100000
                (seconds 300) polled_world
              = (Ok PyTrue,
                 snd (@wait_for_server_ready est_platform 1 local_0730 100000
                        (seconds 300) polled_world)))
    by (vm_compute; reflexivity).
  split; [exact H|].
  exact (@wait_for_server_ready_true_is_earned est_platform 1 local_0730
           100000 (seconds 300) polled_world _ H).
Defined.

Lemma wait_for_server_ready_terminates_witness :
  0 < 100000 /\ nonneg (latency polled_world) /\
  forall fuel, (max_polls 100000 (seconds 300) <= fuel)%nat ->
    exists v w',
      @wait_for_server_ready est_platform fuel local_0730 100000
        (seconds 300) polled_world = (Ok v, w') /\
      (v = PyTrue \/ v = PyNone) /\
      (heads (new_events polled_world w')
       <= S (max_polls 100000 (seconds 300)))%nat /\
      Forall (fun d => d = 100000) (sleeps (new_events polled_world w')) /\
      (List.length (sleeps (new_events polled_world w'))
       <= max_polls 100000 (seconds 300))%nat.
Proof.
  assert (Hp : 0 < 100000) by lia.
  assert (H : nonneg (latency polled_world))
    by (repeat constructor; vm_compute; discriminate).
  split; [exact Hp|]. split; [exact H|].
  exact (@wait_for_server_ready_terminates est_platform local_0730 100000
           (seconds 300) polled_world Hp H).
Defined.

Lemma wait_for_server_ready_negative_poll_witness :
  -1 < 0 /\ (1 <= 1)%nat /\
  exists v w',
    @wait_for_server_ready est_platform 1 target_0730_25 (-1) (seconds 300)
      polled_world = (Ok v, w') /\
    (v = PyTrue \/ v = PyNone) /\
    (heads (new_events polled_world w') <= 2)%nat /\
    sleeps (new_events polled_world w') = [].
Proof.
  assert (Hp : -1 < 0) by lia.
  assert (Hf : (1 <= 1)%nat) by lia.
  split; [exact Hp|]. split; [exact Hf|].
  exact (@wait_for_server_ready_negative_poll est_platform 1 target_0730_25
           (-1) (seconds 300) polled_world Hp Hf).
Defined.
